(** * datasets.py: download, cache and subset selection

    A shallow embedding of [datasets.py] (Python 2, numpy) and the proofs of
    the properties its specification states.

    - Part I gives the definitions: exceptions and results, the numpy
      operations [unique_indices] is built from, POSIX path functions, the
      file system and network the fetch functions act on, and the functions
      of the module themselves, each under the name it has in the source.
    - Part II gives the lemmas and theorems. *)

From Stdlib Require Import ZArith List String Ascii Bool Lia Sorted DecimalString.
From stdpp Require Import base option list gmap strings.

Local Open Scope string_scope.
Local Open Scope list_scope.
Local Open Scope Z_scope.

(* ===================================================================== *)
(** * Part I: definitions *)
(* ===================================================================== *)

(** ** Exceptions and results *)

(** The exception classes that the module raises, catches or lets through. *)
Inductive exn_class :=
| IndexError | ValueError | AttributeError | UnboundLocalError
| IOError | OSError | URLError | HTTPError | ReadError
| OtherException (name : string).

(** [issubclass c d] follows the hierarchy of Python 2: [HTTPError] derives
    from [URLError], which derives from [IOError]. Every class here derives
    from [Exception], so [except Exception] and a bare [except] catch all. *)
Definition issubclass (c d : exn_class) : bool :=
  match d, c with
  | IndexError, IndexError | ValueError, ValueError
  | AttributeError, AttributeError
  | UnboundLocalError, UnboundLocalError
  | OSError, OSError | ReadError, ReadError => true
  | IOError, (IOError | URLError | HTTPError) => true
  | URLError, (URLError | HTTPError) => true
  | HTTPError, HTTPError => true
  | OtherException n, OtherException m => String.eqb n m
  | _, _ => false
  end.

Record exn := Exn { exn_class_of : exn_class; exn_msg : string }.

(** What evaluating an expression or running a statement gives: a value, or
    a raised exception. *)
Inductive outcome (A : Type) :=
| Ret (a : A)
| Raise (e : exn).
Arguments Ret {A} a.
Arguments Raise {A} e.

Definition outcome_bind {A B} (m : outcome A) (k : A -> outcome B) : outcome B :=
  match m with
  | Ret a => k a
  | Raise e => Raise e
  end.

#[global] Instance outcome_ret : MRet outcome := @Ret.
#[global] Instance outcome_mbind : MBind outcome :=
  fun A B k m => outcome_bind m k.

(** ** numpy arrays *)

(** A two-dimensional [ndarray] of shape [(length rows, shape1)]. The second
    dimension is kept next to the rows, so that an array without rows still
    has a number of columns. *)
Record ndarray2 (A : Type) := Array2 { shape1 : nat; rows : list (list A) }.
Arguments Array2 {A} shape1 rows.
Arguments shape1 {A} _.
Arguments rows {A} _.

Definition shape0 {A} (y : ndarray2 A) : nat := length (rows y).

Definition well_shaped {A} (y : ndarray2 A) : Prop :=
  Forall (fun r => length r = shape1 y) (rows y).

(** The scalars of an array are compared with the integer [1] by [== 1];
    that comparison is all the module asks of them. *)
Class Scalar (A : Type) := eq_one : A -> bool.

#[global] Instance Z_scalar : Scalar Z := fun z => Z.eqb z 1.

Definition index_error (msg : string) : exn := Exn IndexError msg.

(** An index into an axis of length [len]: negative indices count from the
    end; outside [-len .. len-1] indexing raises [IndexError]. *)
Definition axis_index (len : nat) (i : Z) : outcome nat :=
  if (0 <=? i) && (i <? Z.of_nat len) then Ret (Z.to_nat i)
  else if (- Z.of_nat len <=? i) && (i <? 0) then Ret (Z.to_nat (i + Z.of_nat len))
  else Raise (index_error "index out of bounds").

(** [y[:, c]] *)
Definition column {A} (y : ndarray2 A) (c : Z) : outcome (list A) :=
  j ← axis_index (shape1 y) c;
  match mapM (fun r : list A => r !! j) (rows y) with
  | Some col => Ret col
  | None => Raise (index_error "index out of bounds")
  end.

(** [np.delete(y, [c], 1)]: the column [c] is removed. The index is given in
    a list, and the numpy releases that run under Python 2 ignore the
    entries of such a list that are negative or past the end. *)
Definition np_delete_column {A} (y : ndarray2 A) (c : Z) : ndarray2 A :=
  if (0 <=? c) && (c <? Z.of_nat (shape1 y))
  then Array2 (shape1 y - 1) (map (fun r : list A => delete (Z.to_nat c) r) (rows y))
  else y.

(** [a == 1] on a vector and on a matrix. *)
Definition vec_eq_one `{Scalar A} (v : list A) : list bool := map eq_one v.
Definition mat_eq_one `{Scalar A} (y : ndarray2 A) : ndarray2 bool :=
  Array2 (shape1 y) (map (map eq_one) (rows y)).

(** [m.any(axis=1)] *)
Definition any_axis1 (m : ndarray2 bool) : list bool :=
  map (existsb (fun b : bool => b)) (rows m).

(** [np.logical_not(v)], [v & w] and [v == True] on boolean vectors. The two
    operands of [&] always have one entry per row of the same array. *)
Definition logical_not (v : list bool) : list bool := map negb v.
Definition vec_and (v w : list bool) : list bool := zip_with andb v w.
Definition vec_eq_True (v : list bool) : list bool := map (Bool.eqb true) v.

(** [np.arange(n)] *)
Definition arange (n : nat) : list Z := map Z.of_nat (seq 0 n).

(** [a[mask]] with a boolean mask: the entries of [a] where the mask holds;
    a mask of another length raises [IndexError]. *)
Fixpoint bool_index {A} (a : list A) (mask : list bool) : outcome (list A) :=
  match a, mask with
  | [], [] => Ret []
  | x :: a', b :: mask' =>
      rest ← bool_index a' mask';
      Ret (if b then x :: rest else rest)
  | _, _ => Raise (index_error "boolean index did not match indexed array")
  end.

(** [a[:n]], the slice of Python: a negative [n] counts from the end. *)
Definition slice_to {A} (n : Z) (a : list A) : list A :=
  if 0 <=? n then take (Z.to_nat n) a
  else take (length a - Z.to_nat (- n)) a.

(** [mask = (y[:, c] == 1) & np.logical_not((np.delete(y, [c], 1)==1).any(axis=1))] *)
Definition exclusive_mask `{Scalar A} (y : ndarray2 A) (c : Z) : outcome (list bool) :=
  col ← column y c;
  Ret (vec_and (vec_eq_one col)
               (logical_not (any_axis1 (mat_eq_one (np_delete_column y c))))).

(** [unique_indices(y, column1, column2, n_indices)] *)
Definition unique_indices `{Scalar A} (y : ndarray2 A)
    (column1 column2 : Z) (n_indices : Z) : outcome (list Z) :=
  col0 ← column y 0;
  let n_samples := length col0 in
  mask1 ← exclusive_mask y column1;
  mask2 ← exclusive_mask y column2;
  mask1 ← bool_index (arange n_samples) (vec_eq_True mask1);
  mask2 ← bool_index (arange n_samples) (vec_eq_True mask2);
  let indices := slice_to n_indices mask1 ++ slice_to n_indices mask2 in
  Ret indices.

(** *** The selection as the specification words it *)

(** Row [i] of [y] is exclusive to class [c]: its flag in column [c] is 1,
    and its flag in every other column is not 1. *)
Definition exclusive_to `{Scalar A} (y : ndarray2 A) (c : nat) (i : nat) : Prop :=
  exists r v,
    rows y !! i = Some r /\ r !! c = Some v /\ eq_one v = true /\
    forall j w, j <> c -> r !! j = Some w -> eq_one w = false.

(** [l] lists, in ascending order, the indices of the rows exclusive to
    class [c]. *)
Definition exclusive_indices `{Scalar A} (y : ndarray2 A) (c : nat) (l : list Z) : Prop :=
  StronglySorted Z.lt l /\
  forall z, In z l <-> exists i, z = Z.of_nat i /\ exclusive_to y c i.

Definition y_example : ndarray2 Z :=
  Array2 3 [ [1; -1; -1]; [1; 1; -1]; [-1; 1; -1]; [-1; -1; 1] ].

(** ** Strings and POSIX paths

    A [str] of Python 2 is a [string]; paths are handled by [posixpath]. *)

Definition is_slash (c : ascii) : bool := Ascii.eqb c "/".

(** [s.startswith(t)] and [s.endswith(t)] *)
Definition startswith (s t : string) : bool := String.prefix t s.

Fixpoint endswith (s t : string) : bool :=
  String.eqb s t
  || match s with
     | String _ s' => endswith s' t
     | EmptyString => false
     end.

(** [p.rfind('/')], as the two parts it cuts [p] into: the text before the
    last slash and the text after it; [None] when [p] has no slash. *)
Fixpoint rsplit_slash (p : string) : option (string * string) :=
  match p with
  | EmptyString => None
  | String c p' =>
      match rsplit_slash p' with
      | Some (h, t) => Some (String c h, t)
      | None => if is_slash c then Some (EmptyString, p') else None
      end
  end.

(** [s.rstrip('/')] *)
Fixpoint rstrip_slash (s : string) : string :=
  match s with
  | EmptyString => EmptyString
  | String c s' =>
      match rstrip_slash s' with
      | EmptyString => if is_slash c then EmptyString else String c EmptyString
      | r => String c r
      end
  end.

(** [s == '/' * len(s)] *)
Fixpoint all_slashes (s : string) : bool :=
  match s with
  | EmptyString => true
  | String c s' => is_slash c && all_slashes s'
  end.

(** [head.rstrip('/')] unless [head] is empty or made of slashes only: the
    step that ends [posixpath.dirname] and [posixpath.split]. *)
Definition strip_trailing_slashes (head : string) : string :=
  if all_slashes head then head else rstrip_slash head.

(** [p[:i]] and [p[i:]] for [i = p.rfind('/') + 1] *)
Definition head_of (p : string) : string :=
  match rsplit_slash p with
  | Some (h, _) => h +:+ "/"
  | None => ""
  end.

Definition os_path_basename (p : string) : string :=
  match rsplit_slash p with
  | Some (_, t) => t
  | None => p
  end.

Definition os_path_dirname (p : string) : string :=
  strip_trailing_slashes (head_of p).

(** [os.path.join(a, b)] *)
Definition os_path_join (a b : string) : string :=
  if startswith b "/" then b
  else if String.eqb a "" || endswith a "/" then a +:+ b
  else a +:+ "/" +:+ b.

(** [name.rfind('.')] inside a file name, as the two parts it cuts the name
    into: the text before the last dot, and the extension from that dot on. *)
Fixpoint rsplit_dot (name : string) : option (string * string) :=
  match name with
  | EmptyString => None
  | String c name' =>
      match rsplit_dot name' with
      | Some (stem, ext) => Some (String c stem, ext)
      | None => if Ascii.eqb c "." then Some (EmptyString, name) else None
      end
  end.

Fixpoint all_dots (s : string) : bool :=
  match s with
  | EmptyString => true
  | String c s' => Ascii.eqb c "." && all_dots s'
  end.

(** [os.path.splitext(p)]: the extension starts at the last dot of the last
    component of [p]; leading dots of that component do not start one. *)
Definition os_path_splitext (p : string) : string * string :=
  match rsplit_dot (os_path_basename p) with
  | Some (stem, ext) =>
      if all_dots stem then (p, "")
      else (head_of p +:+ stem, ext)
  | None => (p, "")
  end.

(** ['%i' % z] *)
Definition fmt_i (z : Z) : string := NilZero.string_of_int (Z.to_int z).

(** ['%s' % v] for a value that is a string or [None] *)
Definition fmt_s (v : option string) : string :=
  match v with
  | Some s => s
  | None => "None"
  end.

(** [s.strip()] and [int(s)] *)
Definition is_space (c : ascii) : bool :=
  let n := nat_of_ascii c in
  ((9 <=? n) && (n <=? 13) || (n =? 32))%nat.

Fixpoint lstrip (s : string) : string :=
  match s with
  | String c s' => if is_space c then lstrip s' else s
  | EmptyString => EmptyString
  end.

Fixpoint rstrip (s : string) : string :=
  match s with
  | EmptyString => EmptyString
  | String c s' =>
      match rstrip s' with
      | EmptyString => if is_space c then EmptyString else String c EmptyString
      | r => String c r
      end
  end.

Definition strip (s : string) : string := rstrip (lstrip s).

Definition digit_of (c : ascii) : option Z :=
  let n := nat_of_ascii c in
  if ((48 <=? n) && (n <=? 57))%nat then Some (Z.of_nat n - 48) else None.

Fixpoint digits_value (acc : Z) (s : string) : option Z :=
  match s with
  | EmptyString => Some acc
  | String c s' =>
      match digit_of c with
      | Some d => digits_value (10 * acc + d) s'
      | None => None
      end
  end.

Definition value_error (msg : string) : exn := Exn ValueError msg.

(** [int(s)]: an optional sign and decimal digits, with blanks around. *)
Definition py_int (s : string) : outcome Z :=
  let bad := Raise (value_error ("invalid literal for int() with base 10: '" +:+ s +:+ "'")) in
  let unsigned (t : string) (sign : Z) :=
    match t with
    | EmptyString => bad
    | _ => match digits_value 0 t with
           | Some v => Ret (sign * v)
           | None => bad
           end
    end in
  match strip s with
  | String "-" t => unsigned t (-1)
  | String "+" t => unsigned t 1
  | t => unsigned t 1
  end.

(** ** The environment: file system, open files, network

    The functions of the module act on the file system and on the network.
    A [world] holds what they read and change: the current directory, the
    nodes of the file system, the files open for writing, and the [trace] of
    the effects performed so far, oldest first. *)

Inductive node :=
| Dir
| File (content : string).

Inductive event :=
| EvPrint (line : string)                  (* [print line] *)
| EvStderr (text : string)                 (* [sys.stderr.write(text)] *)
| EvProgress (bytes_so_far total_size : Z) (* the progress line with a known total *)
| EvUrlopen (url : string)                 (* [urllib2.urlopen] *)
| EvMakedirs (path : string)
| EvOpen (path : string)
| EvWrite (path : string) (data : string)
| EvClose (path : string)
| EvExtract (path : string)                (* a member written by [extractall] *)
| EvRemove (path : string)
| EvRmtree (path : string).

Record world := World {
  cwd : string;
  fs : gmap string node;
  handles : list string;
  trace : list event
}.

(** What the server answers to one [read] of the response. *)
Inductive read_result :=
| Chunk (data : string)
| ReadFails (e : exn).

(** A response: its [Content-Length] header, if it has one, and what the
    successive calls of [read] give; after them [read] gives the empty
    string. *)
Record response := Response {
  content_length : option string;
  body : list read_result
}.

(** What lies outside the program: the answer of the network to a request,
    given the requests made before it, and the decoders of the archive
    libraries, [Raise] when the data is not in their format. *)
Class Environment := {
  network : list string -> string -> outcome response;
  gunzip : string -> outcome string;
  tar_members : string -> outcome (list (string * string))
}.

(** A statement or an expression with effects. *)
Definition io (A : Type) : Type := world -> outcome A * world.

Definition io_ret {A} (a : A) : io A := fun w => (Ret a, w).
Definition io_raise {A} (e : exn) : io A := fun w => (Raise e, w).
Definition io_bind {A B} (m : io A) (k : A -> io B) : io B := fun w =>
  match m w with
  | (Ret a, w') => k a w'
  | (Raise e, w') => (Raise e, w')
  end.

#[global] Instance io_mret : MRet io := @io_ret.
#[global] Instance io_mbind : MBind io := fun A B k m => io_bind m k.

(** A pure result, inside a function with effects. *)
Definition lift {A} (r : outcome A) : io A := fun w => (r, w).

(** [try: body except Exception, e: handler e] *)
Definition try_except {A} (body : io A) (handler : exn -> io A) : io A := fun w =>
  match body w with
  | (Ret a, w') => (Ret a, w')
  | (Raise e, w') => handler e w'
  end.

Definition log (ev : event) : io unit := fun w =>
  (Ret tt, World (cwd w) (fs w) (handles w) (trace w ++ [ev])).

Definition set_fs (f : gmap string node -> gmap string node) : io unit := fun w =>
  (Ret tt, World (cwd w) (f (fs w)) (handles w) (trace w)).

Definition set_handles (f : list string -> list string) : io unit := fun w =>
  (Ret tt, World (cwd w) (fs w) (f (handles w)) (trace w)).

(** The URLs requested so far. *)
Definition requests (w : world) : list string :=
  omap (fun ev => match ev with EvUrlopen u => Some u | _ => None end) (trace w).

(** The lines printed so far. *)
Definition stdout (w : world) : list string :=
  omap (fun ev => match ev with EvPrint l => Some l | _ => None end) (trace w).

(** [print line] *)
Definition print (line : string) : io unit := log (EvPrint line).

(** *** The file system

    A node is stored under its path without trailing slashes. A path with a
    trailing slash names a directory only, and a path made of slashes names
    the root, which is always there. Paths are compared as strings: the
    model knows no links and does not resolve [.] or [..]. *)

Definition node_at (w : world) (p : string) : option node :=
  if String.eqb p "" then None
  else if all_slashes p then Some Dir
  else match fs w !! strip_trailing_slashes p with
       | Some (File c) => if endswith p "/" then None else Some (File c)
       | found => found
       end.

Definition is_dir (w : world) (p : string) : bool :=
  match node_at w p with
  | Some Dir => true
  | _ => false
  end.

(** [os.path.exists(p)] *)
Definition os_path_exists (p : string) : io bool := fun w =>
  (Ret (match node_at w p with Some _ => true | None => false end), w).

(** [os.getcwd()] *)
Definition os_getcwd : io string := fun w => (Ret (cwd w), w).

Definition os_error (msg : string) : exn := Exn OSError msg.
Definition io_error (msg : string) : exn := Exn IOError msg.

(** The paths that lead to [p]: what stands before each slash of [p]. *)
Fixpoint slash_prefixes (before p : string) : list string :=
  match p with
  | EmptyString => []
  | String c p' =>
      (if is_slash c then [before] else [])
      ++ slash_prefixes (before +:+ String c EmptyString) p'
  end.

Definition ancestors (p : string) : list string :=
  List.filter (fun q => negb (all_slashes q))
    (map strip_trailing_slashes (slash_prefixes "" (strip_trailing_slashes p))).

Definition is_file_key (m : gmap string node) (q : string) : bool :=
  match m !! q with
  | Some (File _) => true
  | _ => false
  end.

Definition add_dir (m : gmap string node) (q : string) : gmap string node :=
  <[q := Dir]> m.

(** [os.makedirs(p)]: creates [p] and the directories that lead to it and
    are missing. It fails when [p] exists already, and when a regular file
    stands in the way. *)
Definition os_makedirs (p : string) : io unit := fun w =>
  if String.eqb p "" then (Raise (os_error "No such file or directory"), w)
  else match node_at w (strip_trailing_slashes p) with
  | Some _ => (Raise (os_error "File exists"), w)
  | None =>
      if existsb (is_file_key (fs w)) (ancestors p)
      then (Raise (os_error "Not a directory"), w)
      else (_ ← set_fs (fun m =>
                  add_dir (foldl add_dir m (ancestors p)) (strip_trailing_slashes p));
            log (EvMakedirs p)) w
  end.

(** Whether a file can be created or truncated at [p]: [p] names no
    directory, and the directory it lies in exists. *)
Definition writable_at (w : world) (p : string) : bool :=
  negb (String.eqb p "") && negb (endswith p "/")
  && negb (is_dir w p)
  && (String.eqb (os_path_dirname p) "" || is_dir w (os_path_dirname p)).

(** [open(p, "wb")]: the file is created empty, or emptied. The file object
    is identified by its path. *)
Definition open_for_writing (p : string) : io string := fun w =>
  if writable_at w p
  then (_ ← set_fs (fun m => <[strip_trailing_slashes p := File ""]> m);
        _ ← set_handles (fun hs => p :: hs);
        _ ← log (EvOpen p);
        mret p) w
  else (Raise (io_error ("No such file or directory: '" +:+ p +:+ "'")), w).

Definition append_content (data : string) (n : node) : node :=
  match n with
  | File c => File (c +:+ data)
  | Dir => Dir
  end.

(** [f.write(data)] *)
Definition file_write (f data : string) : io unit :=
  _ ← set_fs (fun m => alter (append_content data) (strip_trailing_slashes f) m);
  log (EvWrite f data).

Fixpoint remove_first (p : string) (hs : list string) : list string :=
  match hs with
  | [] => []
  | h :: hs' => if String.eqb h p then hs' else h :: remove_first p hs'
  end.

(** [f.close()] *)
Definition file_close (f : string) : io unit :=
  _ ← set_handles (remove_first f);
  log (EvClose f).

(** The content of the regular file at [p], [IOError] when there is none:
    opening a file for reading and reading it whole. *)
Definition read_file (p : string) : io string := fun w =>
  match node_at w p with
  | Some (File c) => (Ret c, w)
  | _ => (Raise (io_error ("No such file or directory: '" +:+ p +:+ "'")), w)
  end.

(** [os.remove(p)] *)
Definition os_remove (p : string) : io unit := fun w =>
  match node_at w p with
  | Some (File _) =>
      (_ ← set_fs (fun m => delete (strip_trailing_slashes p) m);
       log (EvRemove p)) w
  | _ => (Raise (os_error ("No such file or directory: '" +:+ p +:+ "'")), w)
  end.

(** The paths inside the directory stored under the key [d]. *)
Definition inside (d : string) (q : string) : bool :=
  String.eqb q d
  || String.prefix (if all_slashes d then d else d +:+ "/") q.

(** [shutil.rmtree(p)]: the directory and all it holds are removed. *)
Definition shutil_rmtree (p : string) : io unit := fun w =>
  if is_dir w p
  then (_ ← set_fs (fun m =>
               filter (fun kv => inside (strip_trailing_slashes p) kv.1 = false) m);
        log (EvRmtree p)) w
  else (Raise (os_error ("No such file or directory: '" +:+ p +:+ "'")), w).

(** [urllib2.urlopen(urllib2.Request(url))] *)
Definition urlopen `{Environment} (url : string) : io response := fun w =>
  (_ ← log (EvUrlopen url); lift (network (requests w) url)) w.

(** ** The functions of [datasets.py] *)

Definition when (b : bool) (m : io unit) : io unit :=
  if b then m else mret tt.

Definition carriage_return : string := String (ascii_of_nat 13) EmptyString.
Definition newline : string := String (ascii_of_nat 10) EmptyString.

Definition overflow_error (msg : string) : exn :=
  Exn (OtherException "OverflowError") msg.

(** Whether the conversion of the integer [n] to a floating-point number
    fails. A [long] is converted to the nearest double, to the even one of
    two that are as near, and [OverflowError] is raised when that is not a
    finite double: from [2^1024 - 2^970] on in absolute value. *)
Definition float_overflows (n : Z) : bool :=
  2 ^ 1024 - 2 ^ 970 <=? Z.abs n.

(** [_chunk_report_(bytes_so_far, total_size, t0)]. With a total size the
    line holds a percentage and a remaining time, which are floating-point
    numbers computed from the clock: the event keeps the two integers. The
    percentage is computed first, as [float(bytes_so_far) / total_size],
    and the division converts the total size to a floating-point number,
    which raises for a total size out of their range. [bytes_so_far] counts
    bytes that were received and is taken to be in that range. *)
Definition _chunk_report_ (bytes_so_far : Z) (total_size : option Z) : io unit :=
  match total_size with
  | Some total =>
      if total =? 0
      then log (EvStderr ("Downloaded " +:+ fmt_i bytes_so_far +:+ " of ? bytes" +:+ carriage_return))
      else if float_overflows total
      then io_raise (overflow_error "long int too large to convert to float")
      else log (EvProgress bytes_so_far total)
  | None =>
      log (EvStderr ("Downloaded " +:+ fmt_i bytes_so_far +:+ " of ? bytes" +:+ carriage_return))
  end.

Definition attribute_error (msg : string) : exn := Exn AttributeError msg.

Definition none_has_no_attribute (attr : string) : exn :=
  attribute_error ("'NoneType' object has no attribute '" +:+ attr +:+ "'").

(** The [while 1] loop of [_chunk_read_], over what the calls of
    [response.read(chunk_size)] give. *)
Fixpoint read_loop (reads : list read_result) (local_file : string)
    (report_hook : bool) (total_size : option Z) (bytes_so_far : Z) : io unit :=
  match reads with
  | [] => when report_hook (log (EvStderr newline))
  | ReadFails e :: _ => io_raise e
  | Chunk chunk :: reads' =>
      let bytes_so_far := bytes_so_far + Z.of_nat (String.length chunk) in
      if String.eqb chunk ""
      then when report_hook (log (EvStderr newline))
      else
        _ ← file_write local_file chunk;
        _ ← when report_hook (_chunk_report_ bytes_so_far total_size);
        read_loop reads' local_file report_hook total_size bytes_so_far
  end.

(** [_chunk_read_(response, local_file, chunk_size=8192, report_hook)] *)
Definition _chunk_read_ (resp : response) (local_file : string)
    (report_hook : bool) : io unit :=
  total_size ← lift (match content_length resp with
                     | Some header => Ret (strip header)
                     | None => Raise (none_has_no_attribute "strip")
                     end);
  total_size ← try_except
    (v ← lift (py_int total_size); mret (Some v))
    (fun e =>
       _ ← print ("Total size could not be determined. Error:  " +:+ exn_msg e);
       mret None);
  read_loop (body resp) local_file report_hook total_size 0.

(** A value of Python that is false in a condition: [None] and [''] *)
Definition falsy (v : option string) : bool :=
  match v with
  | None => true
  | Some s => String.eqb s ""
  end.

(** [_get_dataset_dir(dataset_name, data_dir=None)] *)
Definition _get_dataset_dir (dataset_name : string) (data_dir : option string) : io string :=
  data_dir ← (if falsy data_dir
              then (c ← os_getcwd; mret (os_path_join c "Data"))
              else mret (default "" data_dir));
  mret (os_path_join data_dir dataset_name).

(** A file created with a given content, as [extractall] does for a member
    of the archive. *)
Definition put_file (target content : string) : io unit := fun w =>
  if writable_at w target
  then (_ ← set_fs (fun m => <[strip_trailing_slashes target := File content]> m);
        log (EvExtract target)) w
  else (Raise (io_error ("Is a directory: '" +:+ target +:+ "'")), w).

(** One member of a tar archive, written below [data_dir]; the directories
    that lead to it are created when they are missing. *)
Definition extract_member (data_dir : string) (member : string * string) : io unit :=
  let target := os_path_join data_dir member.1 in
  let parent := os_path_dirname target in
  there ← os_path_exists parent;
  _ ← when (negb (String.eqb parent "") && negb there) (os_makedirs parent);
  put_file target member.2.

(** [tar.extractall(path=data_dir)] *)
Fixpoint extractall (data_dir : string) (members : list (string * string)) : io unit :=
  match members with
  | [] => mret tt
  | member :: members' =>
      _ ← extract_member data_dir member;
      extractall data_dir members'
  end.

(** [_uncompress_file(file_, delete_archive=True)]. The source names
    [zipfile.Zipfile]; the module [zipfile] has no attribute of that name
    (its class is [ZipFile]), so that evaluating the expression raises
    [AttributeError]. The file object [f] of the gzip branch is never
    closed by the source. *)
Definition _uncompress_file `{Environment} (file_ : option string)
    (delete_archive : bool) : io unit :=
  _ ← print ("extracting data from " +:+ fmt_s file_ +:+ "...");
  match file_ with
  | None => io_raise (none_has_no_attribute "rfind")
  | Some file_ =>
      let data_dir := os_path_dirname file_ in
      try_except
        (_ ← (if endswith file_ ".zip" then
                io_raise (attribute_error "'module' object has no attribute 'Zipfile'")
              else if endswith file_ ".gz" then
                _ ← read_file file_;
                let name := (os_path_splitext file_).1 in
                f ← open_for_writing name;
                compressed ← read_file file_;
                data ← lift (gunzip compressed);
                file_write f data
              else if endswith file_ ".txt" then
                mret tt
              else
                archive ← read_file file_;
                members ← lift (tar_members archive);
                extractall data_dir members);
         _ ← when (delete_archive && negb (endswith file_ ".txt")) (os_remove file_);
         print "   ...done.")
        (fun e =>
           _ ← print ("error:  " +:+ exn_msg e);
           io_raise e)
  end.

Definition unbound_local (name : string) : exn :=
  Exn UnboundLocalError
      ("local variable '" +:+ name +:+ "' referenced before assignment").

(** The suite of the [try] statement of [_fetch_file]. Next to its outcome
    it gives the value that the variable [local_file] is bound to when the
    suite is left, [None] as long as nothing is assigned to it. The last
    line printed holds two durations read from the clock; the model has no
    clock and keeps the format of the line. *)
Definition download_suite `{Environment} (url full_name : string)
    : world -> outcome unit * option string * world := fun w =>
  let '(_, w) := print ("Downloading data from " +:+ url +:+ " ...") w in
  match urlopen url w with
  | (Raise e, w) => (Raise e, None, w)
  | (Ret data, w) =>
      match open_for_writing full_name w with
      | (Raise e, w) => (Raise e, None, w)
      | (Ret local_file, w) =>
          let '(r, w) := (_ ← _chunk_read_ data local_file true;
                          print "...done. (%i seconds, %i min)") w in
          (r, Some local_file, w)
      end
  end.

(** The [except] clauses of the [try] statement of [_fetch_file], applied
    to the outcome [r] of its suite. When no [return] is executed the
    function goes on after the statement, to [return full_name]. *)
Definition except_clauses (url full_name : string) (r : outcome unit)
    : io (option string) :=
  match r with
  | Ret _ => mret (Some full_name)
  | Raise e =>
      if issubclass (exn_class_of e) HTTPError then
        _ ← print ("HTTP Error: " +:+ exn_msg e +:+ " " +:+ url);
        mret None
      else if issubclass (exn_class_of e) URLError then
        _ ← print ("URL Error: " +:+ exn_msg e +:+ " " +:+ url);
        mret None
      else io_raise e
  end.

(** The [finally] clause, [local_file.close()], run while the outcome [r]
    is pending. An exception raised by the clause replaces [r]. *)
Definition finally_close (local_file : option string)
    (r : outcome (option string)) : io (option string) :=
  match local_file with
  | Some f => _ ← file_close f; lift r
  | None => io_raise (unbound_local "local_file")
  end.

(** The [try] statement of [_fetch_file] and the [return] that follows it. *)
Definition download `{Environment} (url full_name : string) : io (option string) :=
  fun w =>
    let '(r, local_file, w) := download_suite url full_name w in
    let '(r, w) := except_clauses url full_name r w in
    finally_close local_file r w.

(** [_fetch_file(url, data_dir)] *)
Definition _fetch_file `{Environment} (url data_dir : string) : io (option string) :=
  there ← os_path_exists data_dir;
  _ ← when (negb there) (os_makedirs data_dir);
  let file_name := os_path_basename url in
  let full_name := os_path_join data_dir file_name in
  cached ← os_path_exists full_name;
  if negb cached
  then download url full_name
  else mret (Some full_name).

(** [os.path.splitext(full_name)[0]], for a value that may be [None] *)
Definition splitext_root (full_name : option string) : outcome string :=
  match full_name with
  | Some p => Ret (os_path_splitext p).1
  | None => Raise (none_has_no_attribute "rfind")
  end.

(** The [for url in urls] loop of [_fetch_dataset]; [files] is the list
    built so far. *)
Fixpoint fetch_loop `{Environment} (data_dir : string) (uncompress : bool)
    (urls : list string) (files : list string) : io (list string) :=
  match urls with
  | [] => mret files
  | url :: urls' =>
      full_name ← _fetch_file url data_dir;
      _ ← when (falsy full_name)
            (_ ← print "An error occured, abort fetching";
             shutil_rmtree data_dir);
      _ ← when uncompress
            (try_except (_uncompress_file full_name true)
               (fun _ =>
                  _ ← print "archive corrupted, trying to download it again";
                  _ ← _fetch_file url data_dir;
                  _uncompress_file full_name true));
      base ← lift (splitext_root full_name);
      fetch_loop data_dir uncompress urls' (files ++ [base])
  end.

(** [_fetch_dataset(dataset_name, urls, data_dir=None, uncompress=True)] *)
Definition _fetch_dataset `{Environment} (dataset_name : string)
    (urls : list string) (data_dir : option string) (uncompress : bool)
    : io (list string) :=
  data_dir ← _get_dataset_dir dataset_name data_dir;
  there ← os_path_exists data_dir;
  _ ← when (negb there) (os_makedirs data_dir);
  fetch_loop data_dir uncompress urls [].

(** The [for file_name in file_names] loop of [_get_dataset] *)
Fixpoint get_loop (data_dir : string) (file_names : list string)
    (file_paths : list string) : io (list string) :=
  match file_names with
  | [] => mret file_paths
  | file_name :: file_names' =>
      let full_name := os_path_join data_dir file_name in
      there ← os_path_exists full_name;
      if negb there
      then io_raise (io_error ("No such file: '" +:+ full_name +:+ "'"))
      else get_loop data_dir file_names' (file_paths ++ [full_name])
  end.

(** [_get_dataset(dataset_name, file_names, data_dir=None)] *)
Definition _get_dataset (dataset_name : string) (file_names : list string)
    (data_dir : option string) : io (list string) :=
  data_dir ← _get_dataset_dir dataset_name data_dir;
  get_loop data_dir file_names [].

(** ** numpy files and the data of the module *)

(** An array of one or of two dimensions. *)
Inductive ndarray (A : Type) :=
| Arr1 (v : list A)
| Arr2 (m : ndarray2 A).
Arguments Arr1 {A} v.
Arguments Arr2 {A} m.

(** What a [.npy] file holds and [np.load] gives back: an array, or an
    object, which here is a [Bunch], a dictionary from names to arrays.
    Arrays of other dimensions and other objects are not modelled. *)
Inductive npy (A : Type) :=
| NpyArray (a : ndarray A)
| NpyBunch (b : gmap string (ndarray A)).
Arguments NpyArray {A} a.
Arguments NpyBunch {A} b.

(** The part of numpy that lies outside the program: the scalars of the
    arrays (floating-point numbers, of which only the comparison [== 1] is
    used), the parser of text files, with the number of header lines to
    skip, and the format of [.npy] files. The program slices what the parser
    gives with [[:, 1:]] in the statement that follows the call: a text
    which the parser does not read as an array of two dimensions counts as
    [Raise], with the exception of the parser or of the slice. *)
Class Numpy := {
  num : Type;
  num_scalar : Scalar num;
  genfromtxt : string -> nat -> outcome (ndarray2 num);
  np_encode : npy num -> string;
  np_decode : string -> outcome (npy num)
}.
#[global] Existing Instance num_scalar.

(** The [Bunch] that [fetch_data] returns. *)
Record yeast (A : Type) := Yeast {
  data_kernels : gmap string (npy A);
  data_y : npy A;
  data_K : npy A
}.
Arguments Yeast {A} _ _ _.
Arguments data_kernels {A} _.
Arguments data_y {A} _.
Arguments data_K {A} _.

(** A value indexed with two indices, as in [v[:, 0]]: an array of two
    dimensions is needed. An array of one dimension raises [IndexError],
    and so does an object, which [np.load] gives as an array without
    dimensions. *)
Definition as_matrix {A} (v : npy A) : outcome (ndarray2 A) :=
  match v with
  | NpyArray (Arr2 a) => Ret a
  | NpyArray (Arr1 _) => Raise (index_error "too many indices")
  | NpyBunch _ => Raise (index_error "0-d arrays can't be indexed")
  end.

(** [a[:, 1:]] *)
Definition drop_first_column {A} (a : ndarray2 A) : ndarray2 A :=
  Array2 (shape1 a - 1) (map (drop 1) (rows a)).

(** [np.concatenate((a, b), axis=1)]: both are arrays of two dimensions
    with the same number of rows, or [ValueError] is raised. *)
Definition concatenate_axis1 {A} (a b : ndarray2 A) : outcome (ndarray2 A) :=
  if (shape0 a =? shape0 b)%nat
  then Ret (Array2 (shape1 a + shape1 b) (zip_with app (rows a) (rows b)))
  else Raise (value_error "array dimensions must agree except for d_0").

(** On arrays of one dimension there is no axis 1, and objects are no
    arrays: numpy raises, with a class and a message of its version. *)
Definition concatenate_ndarray {A} (a b : ndarray A) : outcome (ndarray A) :=
  match a, b with
  | Arr2 a, Arr2 b => (c ← concatenate_axis1 a b; Ret (Arr2 c))
  | _, _ => Raise (value_error "bad axis1 argument to swapaxes")
  end.

Definition concatenate_npy {A} (a b : npy A) : outcome (npy A) :=
  match a, b with
  | NpyArray a, NpyArray b => (c ← concatenate_ndarray a b; Ret (NpyArray c))
  | _, _ => Raise (value_error "zero-dimensional arrays cannot be concatenated")
  end.

(** [l[i]] on a list of Python *)
Definition list_item {A} (l : list A) (i : nat) : outcome A :=
  match l !! i with
  | Some x => Ret x
  | None => Raise (index_error "list index out of range")
  end.

(** [a[indices, :]]: the rows of [a] with the given indices *)
Definition take_rows {A} (a : ndarray2 A) (indices : list Z) : outcome (ndarray2 A) :=
  selected ← mapM (fun z => j ← axis_index (shape0 a) z; list_item (rows a) j)
                  indices;
  Ret (Array2 (shape1 a) selected).

(** [a[:, indices]]: the columns of [a] with the given indices *)
Definition take_columns {A} (a : ndarray2 A) (indices : list Z) : outcome (ndarray2 A) :=
  columns ← mapM (axis_index (shape1 a)) indices;
  selected ← mapM (fun r : list A => mapM (list_item r) columns) (rows a);
  Ret (Array2 (length indices) selected).

(** [a[indices, c]]: the entries of column [c] in the rows with the given
    indices *)
Definition take_entries {A} (a : ndarray2 A) (indices : list Z) (c : Z)
    : outcome (list A) :=
  k ← axis_index (shape1 a) c;
  mapM (fun z => j ← axis_index (shape0 a) z;
                 r ← list_item (rows a) j;
                 list_item r k)
       indices.

Definition key_error (key : string) : exn :=
  Exn (OtherException "KeyError") ("'" +:+ key +:+ "'").

(** [d[key]] on a dictionary *)
Definition dict_item {V} (d : gmap string V) (key : string) : outcome V :=
  match d !! key with
  | Some v => Ret v
  | None => Raise (key_error key)
  end.

(** [try: body except cls: handler], for a handler without [return] *)
Definition try_except_class {A} (cls : exn_class) (body handler : io A) : io A :=
  fun w =>
    match body w with
    | (Ret a, w') => (Ret a, w')
    | (Raise e, w') =>
        if issubclass (exn_class_of e) cls then handler w' else (Raise e, w')
    end.

Section Data.
Context `{Environment} `{Numpy}.

(** [np.load(path)] *)
Definition np_load (path : string) : io (npy num) :=
  content ← read_file path;
  lift (np_decode content).

(** [np.save(path, value)]: the extension [.npy] is added to a path that
    does not end with it. *)
Definition np_save (path : string) (value : npy num) : io unit :=
  let path := if endswith path ".npy" then path else path +:+ ".npy" in
  f ← open_for_writing path;
  _ ← file_write f (np_encode value);
  file_close f.

(** [np.genfromtxt(fname, skip_header=n)] *)
Definition np_genfromtxt (fname : string) (skip_header : nat) : io (ndarray2 num) :=
  content ← read_file fname;
  lift (genfromtxt content skip_header).

Definition data_names : list string :=
  [ "kernel_matrix_tap_n_3588";
    "kernel_matrix_mpi_n_3588";
    "kernel_matrix_mgi_n_3588";
    "kernel_matrix_exp_gauss_n_3588";
    "kernel_matrix_pfamdom_exp_cn_3588";
    "kernel_matrix_sw_cn_3588" ].

(** The loop [for index, full_name in enumerate(full_names)] of
    [fetch_data], which converts the text files. [K.astype(np.float)]
    leaves an array of floating-point numbers as it is. *)
Fixpoint convert_loop (dataset_dir : string) (dataset_files : list string)
    (index : nat) (full_names : list string) : io unit :=
  match full_names with
  | [] => mret tt
  | full_name :: full_names' =>
      _ ← print ("Converting file " +:+ fmt_i (Z.of_nat index + 1) +:+ " on 8...");
      _ ← try_except
            (K ← np_genfromtxt full_name 1;
             let K := drop_first_column K in
             name ← lift (list_item dataset_files index);
             let name := os_path_join dataset_dir name in
             _ ← np_save name (NpyArray (Arr2 K));
             _ ← print "...done.";
             os_remove full_name)
            (fun e =>
               _ ← print ("Impossible to convert the file " +:+ full_name +:+ ":"
                          +:+ newline +:+ " " +:+ exn_msg e +:+ " ");
               _ ← shutil_rmtree dataset_dir;
               io_raise e);
      convert_loop dataset_dir dataset_files (S index) full_names'
  end.

(** The loop [for i, e in enumerate(data_names)] of [fetch_data], which
    loads the kernels; [K] is [None] as long as nothing is assigned to it. *)
Fixpoint load_loop (dataset_dir : string) (names : list string) (i : nat)
    (kernels : gmap string (npy num)) (K : option (npy num))
    : io (gmap string (npy num) * option (npy num)) :=
  match names with
  | [] => mret (kernels, K)
  | e :: names' =>
      Ki ← np_load (os_path_join dataset_dir (e +:+ ".npy"));
      K ← (if (i =? 0)%nat then mret Ki
           else lift (match K with
                      | Some K => concatenate_npy K Ki
                      | None => Raise (unbound_local "K")
                      end));
      load_loop dataset_dir names' (S i) (<[e := Ki]> kernels) (Some K)
  end.

(** [fetch_data(data_dir=None)]; the function does not use its argument. *)
Definition fetch_data (data_dir : option string) : io (yeast num) :=
  let dataset_files := map (fun i => i +:+ ".npy") data_names in
  dataset_dir ← _get_dataset_dir "" None;
  _ ← try_except_class IOError
        (_ ← _get_dataset "" dataset_files None; mret tt)
        (let file_names := map (fun i => i +:+ ".txt.gz") data_names in
         let url := "http://noble.gs.washington.edu/yeast" in
         let urls := map (fun i => url +:+ "/" +:+ i) file_names in
         full_names ← _fetch_dataset "" urls None true;
         convert_loop dataset_dir dataset_files 0 full_names);
  _ ← try_except_class IOError
        (_ ← _get_dataset "" ["labels_3588_13.npy"] None; mret tt)
        (let urls := ["http://noble.gs.washington.edu/yeast/labels_3588_13.txt"] in
         full_names ← _fetch_dataset "" urls None true;
         let name := os_path_join dataset_dir "labels_3588_13" in
         first ← lift (list_item full_names 0);
         y ← np_genfromtxt (first +:+ ".txt") 0;
         let y := drop_first_column y in
         _ ← np_save (name +:+ ".npy") (NpyArray (Arr2 y));
         os_remove (name +:+ ".txt"));
  _ ← print "...done.";
  '(kernels, K) ← load_loop dataset_dir data_names 0 ∅ None;
  y ← np_load (os_path_join dataset_dir "labels_3588_13.npy");
  K ← lift (match K with
            | Some K => Ret K
            | None => Raise (unbound_local "K")
            end);
  mret (Yeast kernels y K).

(** The loop [for i in data_names] of [fetch_Yeast_data]:
    [new_data[i] = data.kernels[i][indices, :][:, indices]] *)
Fixpoint select_loop (kernels : gmap string (npy num)) (indices : list Z)
    (names : list string) (new_data : gmap string (ndarray num))
    : outcome (gmap string (ndarray num)) :=
  match names with
  | [] => Ret new_data
  | i :: names' =>
      kernel ← dict_item kernels i;
      kernel ← as_matrix kernel;
      selected ← take_rows kernel indices;
      selected ← take_columns selected indices;
      select_loop kernels indices names' (<[i := Arr2 selected]> new_data)
  end.

(** The loop [for i, e in enumerate(data_names)] of [fetch_Yeast_data],
    which builds [K]. *)
Fixpoint join_loop (new_data : gmap string (ndarray num)) (names : list string)
    (i : nat) (K : option (ndarray num)) : outcome (option (ndarray num)) :=
  match names with
  | [] => Ret K
  | e :: names' =>
      K ← (if (i =? 0)%nat then dict_item new_data e
           else (current ← dict_item new_data e;
                 match K with
                 | Some K => concatenate_ndarray K current
                 | None => Raise (unbound_local "K")
                 end));
      join_loop new_data names' (S i) (Some K)
  end.

(** The name of the file that keeps the data of a pair of classes:
    ["Yeast_data__%i_%i.npy" % (class1, class2)] *)
Definition yeast_file_name (class1 class2 : Z) : string :=
  "Yeast_data__" +:+ fmt_i class1 +:+ "_" +:+ fmt_i class2 +:+ ".npy".

(** What [fetch_Yeast_data] does when the file cannot be loaded. *)
Definition recompute (dataset_dir name : string) (class1 class2 : Z) : io (npy num) :=
  _ ← print "recomputing data...";
  data ← fetch_data None;
  indices ← lift (labels ← as_matrix (data_y data);
                  unique_indices labels class1 class2 100);
  new_data ← lift (select_loop (data_kernels data) indices data_names ∅);
  y ← lift (labels ← as_matrix (data_y data);
            take_entries labels indices class1);
  let new_data := <["y" := Arr1 y]> new_data in
  K ← lift (K ← join_loop new_data data_names 0 None;
            match K with
            | Some K => Ret K
            | None => Raise (unbound_local "K")
            end);
  let new_data := <["K" := K]> new_data in
  _ ← np_save (os_path_join dataset_dir name) (NpyBunch new_data);
  mret (NpyBunch new_data).

(** [fetch_Yeast_data(class1, class2)]. [tolist()] gives the object that
    was saved for a loaded object, and nested lists of the same entries for
    a loaded array: the model keeps the array for them. *)
Definition fetch_Yeast_data (class1 class2 : Z) : io (npy num) :=
  let class1 := class1 - 1 in
  let class2 := class2 - 1 in
  dataset_dir ← _get_dataset_dir "" None;
  let name := yeast_file_name class1 class2 in
  try_except
    (np_load (os_path_join dataset_dir name))
    (fun _ => recompute dataset_dir name class1 class2).

Definition fetch_Yeast_5_7 : io (npy num) := fetch_Yeast_data 5 7.
Definition fetch_Yeast_5_12 : io (npy num) := fetch_Yeast_data 5 12.
Definition fetch_Yeast_7_12 : io (npy num) := fetch_Yeast_data 7 12.

End Data.

(** ** Notions used in the proofs *)

Section SelectionNotions.
Context `{Scalar A}.

(** The test the masks apply to one row. *)
Definition row_exclusive (c : nat) (r : list A) : bool :=
  match r !! c with
  | Some v => eq_one v && negb (existsb (fun b : bool => b) (map eq_one (delete c r)))
  | None => false
  end.

(** The positions of a boolean vector that hold, counted from [s]. *)
Fixpoint positions (s : nat) (mask : list bool) : list nat :=
  match mask with
  | [] => []
  | b :: mask' => if b then s :: positions (S s) mask' else positions (S s) mask'
  end.

End SelectionNotions.

(** A relation between the world before and the world after a computation
    holds for the computation when it holds for each of its runs. *)
Definition steps (R : world -> world -> Prop) {A} (m : io A) : Prop :=
  forall w r w', m w = (r, w') -> R w w'.

(** The trace grows, by events that satisfy [P]. *)
Definition emits (P : event -> Prop) (w w' : world) : Prop :=
  exists evs, trace w' = trace w ++ evs /\ Forall P evs.

(** The same files are open. *)
Definition same_handles (w w' : world) : Prop := handles w' = handles w.

(** Directories stay. *)
Definition dirs_kept (w w' : world) : Prop :=
  forall q, is_dir w q = true -> is_dir w' q = true.

(** An event that neither opens nor closes a file. *)
Definition quiet (ev : event) : Prop :=
  match ev with
  | EvOpen _ | EvClose _ => False
  | _ => True
  end.

Definition is_request (ev : event) : Prop :=
  match ev with
  | EvUrlopen _ => True
  | _ => False
  end.

(** ** An environment and a world to run the functions in *)

Definition example_network (history : list string) (url : string) : outcome response :=
  if String.eqb url "http://h/ok.txt" then
    Ret (Response (Some " 5 ") [Chunk "hel"; Chunk "lo"])
  else if String.eqb url "http://h/cut.txt" then
    Ret (Response (Some "10")
           [Chunk "hel"; ReadFails (Exn URLError "<urlopen error timed out>")])
  else if String.eqb url "http://h/a.zip" then
    Ret (Response (Some "2") [Chunk "PK"])
  else if String.eqb url "http://h/b.gz" then
    Ret (Response (Some "x") [Chunk "GZ"])
  else Raise (Exn HTTPError "HTTP Error 404: Not Found").

Definition example_env : Environment := {|
  network := example_network;
  gunzip := fun c =>
    if String.eqb c "GZ" then Ret "plain"
    else Raise (Exn IOError "Not a gzipped file");
  tar_members := fun c =>
    Raise (Exn ReadError "file could not be opened successfully")
|}.

Definition empty_world : world := World "/home/u" ∅ [] [].

(** A world with the dataset directory and two files in it. *)
Definition cached_world : world :=
  World "/home/u"
    (<["/home/u/Data/ok.txt" := File "hello"]>
      (<["/home/u/Data/a.zip" := File "PK"]>
        (<["/home/u/Data" := Dir]>
          (<["/home/u" := Dir]> (<["/home" := Dir]> ∅)))))
    [] [].

(** What [_chunk_read_] does to the outside. *)
Inductive read_output : event -> Prop :=
| ro_total msg :
    read_output (EvPrint ("Total size could not be determined. Error:  " +:+ msg))
| ro_write f data : read_output (EvWrite f data)
| ro_progress b t : read_output (EvProgress b t)
| ro_stderr text : read_output (EvStderr text).

(** What the [except] clauses of [_fetch_file] do to the outside. *)
Inductive error_report : event -> Prop :=
| er_http msg url :
    error_report (EvPrint ("HTTP Error: " +:+ msg +:+ " " +:+ url))
| er_url msg url :
    error_report (EvPrint ("URL Error: " +:+ msg +:+ " " +:+ url)).

(** What [_fetch_file] does to the outside. *)
Inductive fetch_output : event -> Prop :=
| fo_makedirs p : fetch_output (EvMakedirs p)
| fo_downloading url :
    fetch_output (EvPrint ("Downloading data from " +:+ url +:+ " ..."))
| fo_urlopen url : fetch_output (EvUrlopen url)
| fo_open f : fetch_output (EvOpen f)
| fo_done : fetch_output (EvPrint "...done. (%i seconds, %i min)")
| fo_close f : fetch_output (EvClose f)
| fo_report ev : error_report ev -> fetch_output ev
| fo_read ev : read_output ev -> fetch_output ev.

(** What [_uncompress_file] does to the outside. *)
Inductive extract_output : event -> Prop :=
| eo_extracting name :
    extract_output (EvPrint ("extracting data from " +:+ name +:+ "..."))
| eo_open f : extract_output (EvOpen f)
| eo_write f data : extract_output (EvWrite f data)
| eo_makedirs p : extract_output (EvMakedirs p)
| eo_extract p : extract_output (EvExtract p)
| eo_remove p : extract_output (EvRemove p)
| eo_done : extract_output (EvPrint "   ...done.")
| eo_error msg : extract_output (EvPrint ("error:  " +:+ msg)).

(** The directory of a dataset, as [_get_dataset_dir] computes it from the
    current directory. *)
Definition dataset_path (current : string) (dataset_name : string)
    (data_dir : option string) : string :=
  os_path_join
    (if falsy data_dir then os_path_join current "Data" else default "" data_dir)
    dataset_name.

Definition retry_message : string :=
  "archive corrupted, trying to download it again".

(** How often the retry message was printed. *)
Definition retries (w : world) : nat :=
  count_occ string_dec (stdout w) retry_message.

(** A world with an empty dataset directory. *)
Definition empty_data_world : world :=
  World "/home/u"
    (<["/home/u/Data" := Dir]> (<["/home/u" := Dir]> (<["/home" := Dir]> ∅)))
    [] [].

(** A world with a gzip archive in the dataset directory. *)
Definition gz_world : world :=
  World "/home/u"
    (<["/home/u/Data/b.gz" := File "GZ"]>
      (<["/home/u/Data" := Dir]> (<["/home/u" := Dir]> (<["/home" := Dir]> ∅))))
    [] [].

(** A server that answers every request without a [Content-Length]. *)
Definition headless_env : Environment := {|
  network := fun _ _ => Ret (Response None [Chunk "data"]);
  gunzip := fun c => Raise (Exn IOError "Not a gzipped file");
  tar_members := fun c =>
    Raise (Exn ReadError "file could not be opened successfully")
|}.

(** ** Fixtures for the data functions *)

Definition example_kernel : ndarray2 Z :=
  Array2 4 [ [10; 11; 12; 13]; [20; 21; 22; 23]; [30; 31; 32; 33]; [40; 41; 42; 43] ].

(** What [fetch_Yeast_data] selects from [example_kernel] for the two first
    classes of [y_example]: the rows and the columns 0 and 2. *)
Definition example_bunch : gmap string (ndarray Z) :=
  <["K" := Arr2 (Array2 12 [ [10; 12; 10; 12; 10; 12; 10; 12; 10; 12; 10; 12];
                            [30; 32; 30; 32; 30; 32; 30; 32; 30; 32; 30; 32] ])]>
    (<["y" := Arr1 [1; -1]]>
      (foldr (fun name m => <[name := Arr2 (Array2 2 [ [10; 12]; [30; 32] ])]> m)
             ∅ data_names)).

(** A numpy over integers whose files hold a one-letter description of
    their value. *)
Definition example_numpy : Numpy := {|
  num := Z;
  num_scalar := Z_scalar;
  genfromtxt := fun content skip_header =>
    if String.eqb content "plain" then Ret (Array2 3 [ [0; 1; 2]; [0; 3; 4] ])
    else Raise (value_error "Some errors were detected !");
  np_encode := fun value =>
    match value with
    | NpyArray _ => "A"
    | NpyBunch _ => "B"
    end;
  np_decode := fun content =>
    if String.eqb content "K" then Ret (NpyArray (Arr2 example_kernel))
    else if String.eqb content "Y" then Ret (NpyArray (Arr2 y_example))
    else if String.eqb content "B" then Ret (NpyBunch example_bunch)
    else Raise (io_error "Failed to interpret file as a pickle")
|}.

Definition data_files (suffix content : string) (m : gmap string node)
    : gmap string node :=
  foldr (fun name m => <["/home/u/Data/" +:+ name +:+ suffix := File content]> m)
        m data_names.

(** A world whose dataset directory holds the six kernels and the labels
    in converted form. *)
Definition converted_world : world :=
  World "/home/u"
    (data_files ".npy" "K"
      (<["/home/u/Data/labels_3588_13.npy" := File "Y"]>
        (<["/home/u/Data" := Dir]> (<["/home/u" := Dir]> (<["/home" := Dir]> ∅)))))
    [] [].

(** An array of [r] rows and [c] columns. *)
Definition has_shape {A} (r c : nat) (a : ndarray2 A) : Prop :=
  shape1 a = c /\ length (rows a) = r /\ Forall (fun row => length row = c) (rows a).

(** The state after [print line]. *)
Definition printed (line : string) (w : world) : world :=
  World (cwd w) (fs w) (handles w) (trace w ++ [EvPrint line]).

(** The value a run returned, [d] when it raised. *)
Definition returned {A} (d : A) (r : outcome A) : A :=
  match r with
  | Ret a => a
  | Raise _ => d
  end.

(** [K] is the arrays [ks] put side by side: they all have the rows of
    [K] in number, and each row of [K] is the rows of same index of the
    arrays, one after the other. *)
Definition side_by_side {A} (ks : list (ndarray2 A)) (K : ndarray2 A) : Prop :=
  shape1 K = sum_list (map shape1 ks) /\
  Forall (fun k => shape0 k = shape0 K) ks /\
  forall j row,
    rows K !! j = Some row <->
    exists parts,
      Forall2 (fun k part => rows k !! j = Some part) ks parts /\
      row = concat parts.

(** The same world, with a file for the classes 1 and 2. *)
Definition recomputed_world : world :=
  World "/home/u"
    (<["/home/u/Data/Yeast_data__0_1.npy" := File "B"]> (fs converted_world))
    [] [].

(** The working directory stays the same. *)
Definition same_cwd (w w' : world) : Prop := cwd w' = cwd w.

(** A server that announces a length of 310 digits. *)
Definition huge_length : string :=
  "1000000000000000000000000000000000000000000000000000000000000000000000000000000000000000000000000000000000000000000000000000000000000000000000000000000000000000000000000000000000000000000000000000000000000000000000000000000000000000000000000000000000000000000000000000000000000000000000000000000000000000000000".

Definition boasting_env : Environment := {|
  network := fun _ _ => Ret (Response (Some huge_length) [Chunk "hel"; Chunk "lo"]);
  gunzip := fun c => Raise (Exn IOError "Not a gzipped file");
  tar_members := fun c =>
    Raise (Exn ReadError "file could not be opened successfully")
|}.

(* ===================================================================== *)
(** * Part II: lemmas and theorems *)
(* ===================================================================== *)

(** ** The selection of exclusive rows *)

Section Selection.
Context `{Scalar A}.

Lemma axis_index_in_range (len : nat) (c : Z) :
  0 <= c < Z.of_nat len -> axis_index len c = Ret (Z.to_nat c).
Proof.
  intros Hc. unfold axis_index.
  destruct (Z.leb_spec 0 c), (Z.ltb_spec c (Z.of_nat len)); simpl; try lia.
  reflexivity.
Qed.

Lemma column_well_shaped (y : ndarray2 A) (c : Z) :
  well_shaped y -> 0 <= c < Z.of_nat (shape1 y) ->
  exists col, column y c = Ret col /\
    Forall2 (fun r v => r !! Z.to_nat c = Some v) (rows y) col.
Proof.
  intros Hwf Hc. unfold column. rewrite axis_index_in_range by assumption.
  simpl. unfold well_shaped in Hwf.
  assert (Hex : exists col, Forall2 (fun r v => r !! Z.to_nat c = Some v) (rows y) col).
  { induction Hwf as [|r rs Hr _ IH].
    - exists []. constructor.
    - destruct IH as [col IH].
      destruct (lookup_lt_is_Some_2 r (Z.to_nat c)) as [v Hv]; [lia|].
      exists (v :: col). by constructor. }
  destruct Hex as [col Hcol]. exists col. split; [|assumption].
  apply (mapM_Some (fun r : list A => r !! Z.to_nat c)) in Hcol.
  unfold mbind, outcome_mbind. simpl. by rewrite Hcol.
Qed.

Lemma exclusive_mask_rows (y : ndarray2 A) (c : Z) :
  well_shaped y -> 0 <= c < Z.of_nat (shape1 y) ->
  exclusive_mask y c = Ret (map (row_exclusive (Z.to_nat c)) (rows y)).
Proof.
  intros Hwf Hc. unfold exclusive_mask.
  destruct (column_well_shaped y c Hwf Hc) as (col & -> & Hcol).
  unfold mbind, outcome_mbind. simpl. f_equal.
  unfold np_delete_column.
  destruct (Z.leb_spec 0 c), (Z.ltb_spec c (Z.of_nat (shape1 y))); simpl; try lia.
  unfold vec_and, vec_eq_one, logical_not, any_axis1, mat_eq_one. simpl.
  induction Hcol as [|r v rs col Hv _ IH]; [reflexivity|].
  simpl. rewrite IH. f_equal. unfold row_exclusive. by rewrite Hv.
Qed.

Lemma vec_eq_True_id (v : list bool) : vec_eq_True v = v.
Proof.
  unfold vec_eq_True. induction v as [|b v IH]; [reflexivity|].
  simpl. rewrite IH. by destruct b.
Qed.

Lemma bool_index_arange (mask : list bool) (s : nat) :
  bool_index (map Z.of_nat (seq s (length mask))) mask
  = Ret (map Z.of_nat (positions s mask)).
Proof.
  revert s. induction mask as [|b mask IH]; intros s; [reflexivity|].
  simpl. rewrite IH. unfold mbind, outcome_mbind. simpl. by destruct b.
Qed.

Lemma positions_spec (mask : list bool) (s i : nat) :
  In i (positions s mask) <-> exists k, i = (s + k)%nat /\ mask !! k = Some true.
Proof.
  revert s. induction mask as [|b mask IH]; intros s; simpl.
  - split; [tauto|]. intros (k & _ & Hk). discriminate.
  - assert (Hrest : In i (positions (S s) mask) <->
                    exists k, i = (s + S k)%nat /\ mask !! k = Some true).
    { rewrite IH. split; intros (k & -> & Hk); exists k; split; auto; lia. }
    destruct b; simpl; rewrite Hrest; split.
    + intros [<-|(k & -> & Hk)]; [exists 0%nat | exists (S k)]; split; auto; lia.
    + intros ([|k] & -> & Hk); [left; lia | right; exists k; auto].
    + intros (k & -> & Hk). exists (S k); auto.
    + intros ([|k] & -> & Hk); [discriminate | exists k; auto].
Qed.

Lemma positions_lower (mask : list bool) (s : nat) :
  Forall (fun i => (s <= i)%nat) (positions s mask).
Proof.
  apply List.Forall_forall. intros i Hi.
  apply positions_spec in Hi as (k & -> & _). lia.
Qed.

Lemma positions_sorted (mask : list bool) (s : nat) :
  StronglySorted Z.lt (map Z.of_nat (positions s mask)).
Proof.
  revert s. induction mask as [|b mask IH]; intros s; simpl; [constructor|].
  destruct b; [|apply IH]. simpl. constructor; [apply IH|].
  apply List.Forall_forall. intros z Hz.
  apply in_map_iff in Hz as (i & <- & Hi).
  pose proof (positions_lower mask (S s)) as Hlow.
  rewrite List.Forall_forall in Hlow. specialize (Hlow i Hi). lia.
Qed.

Lemma existsb_eq_one_delete (c : nat) (r : list A) :
  existsb (fun b : bool => b) (map eq_one (delete c r)) = false <->
  forall j w, j <> c -> r !! j = Some w -> eq_one w = false.
Proof.
  split.
  - intros Hex j w Hj Hw.
    destruct (eq_one w) eqn:Hone; [|reflexivity].
    assert (Hin : In w (delete c r)).
    { apply list_elem_of_In, list_elem_of_lookup.
      destruct (decide (j < c)%nat).
      - exists j. by rewrite list_lookup_delete_lt.
      - exists (pred j). rewrite list_lookup_delete_ge by lia.
        replace (S (pred j)) with j by lia. assumption. }
    assert (Htrue : existsb (fun b : bool => b) (map eq_one (delete c r)) = true).
    { apply existsb_exists. exists true. split; [|reflexivity].
      apply in_map_iff. eauto. }
    congruence.
  - intros Hall.
    destruct (existsb _ _) eqn:Hex; [|reflexivity].
    apply existsb_exists in Hex as (b & Hb & ->).
    apply in_map_iff in Hb as (w & Hw & Hin).
    apply list_elem_of_In, list_elem_of_lookup in Hin as (k & Hk).
    destruct (decide (k < c)%nat).
    + rewrite list_lookup_delete_lt in Hk by assumption.
      rewrite (Hall k w) in Hw; [discriminate | lia | assumption].
    + rewrite list_lookup_delete_ge in Hk by lia.
      rewrite (Hall (S k) w) in Hw; [discriminate | lia | assumption].
Qed.

Lemma row_exclusive_spec (c : nat) (r : list A) :
  row_exclusive c r = true <->
  exists v, r !! c = Some v /\ eq_one v = true /\
    forall j w, j <> c -> r !! j = Some w -> eq_one w = false.
Proof.
  unfold row_exclusive. pose proof (existsb_eq_one_delete c r) as Hdel.
  destruct (r !! c) as [v|].
  - rewrite andb_true_iff, negb_true_iff. split.
    + intros [? ?]. exists v. tauto.
    + intros (v' & [= <-] & ? & ?). tauto.
  - split; [discriminate|]. intros (? & ? & _). discriminate.
Qed.

(** The indices that the masks select are the rows exclusive to the class,
    in ascending order. *)
Lemma selected_exclusive (y : ndarray2 A) (c : nat) :
  exclusive_indices y c
    (map Z.of_nat (positions 0 (map (row_exclusive c) (rows y)))).
Proof.
  split; [apply positions_sorted|].
  intros z. rewrite in_map_iff. split.
  - intros (i & <- & Hi). exists i. split; [reflexivity|].
    apply positions_spec in Hi as (k & -> & Hk). simpl.
    rewrite list_lookup_fmap in Hk.
    destruct (rows y !! k) as [r|] eqn:Hr; [|discriminate].
    simpl in Hk. injection Hk as Hk.
    apply row_exclusive_spec in Hk as (v & ? & ? & ?).
    exists r, v. auto.
  - intros (i & -> & r & v & Hr & Hv & Hone & Hothers).
    exists i. split; [reflexivity|].
    apply positions_spec. exists i. split; [reflexivity|].
    rewrite list_lookup_fmap, Hr. simpl. f_equal.
    apply row_exclusive_spec. eauto.
Qed.

(** What [unique_indices] computes on a well-shaped array, for column
    indices that lie in the array. *)
Lemma unique_indices_eq (y : ndarray2 A) (column1 column2 n_indices : Z) :
  well_shaped y ->
  0 <= column1 < Z.of_nat (shape1 y) ->
  0 <= column2 < Z.of_nat (shape1 y) ->
  unique_indices y column1 column2 n_indices
  = Ret (slice_to n_indices
           (map Z.of_nat (positions 0 (map (row_exclusive (Z.to_nat column1)) (rows y))))
         ++ slice_to n_indices
           (map Z.of_nat (positions 0 (map (row_exclusive (Z.to_nat column2)) (rows y))))).
Proof.
  intros Hwf H1 H2. unfold unique_indices.
  destruct (column_well_shaped y 0 Hwf) as (col0 & -> & Hcol0); [lia|].
  rewrite !exclusive_mask_rows by assumption.
  unfold mbind, outcome_mbind. simpl.
  rewrite !vec_eq_True_id. unfold arange.
  apply Forall2_length in Hcol0. rewrite <- Hcol0.
  pose proof (bool_index_arange (map (row_exclusive (Z.to_nat column1)) (rows y)) 0) as E1.
  pose proof (bool_index_arange (map (row_exclusive (Z.to_nat column2)) (rows y)) 0) as E2.
  rewrite length_map in E1, E2. rewrite E1. simpl. rewrite E2. reflexivity.
Qed.

End Selection.

Section SelectionClaims.
Context `{Scalar A}.

Lemma slice_to_take {B} (n : Z) (l : list B) :
  exists k, slice_to n l = take k l.
Proof. unfold slice_to. destruct (0 <=? n); eauto. Qed.


(** Two ascending lists with the same members are the same list: the
    description [exclusive_indices] fixes the list it describes. *)
Lemma sorted_lt_unique (l1 l2 : list Z) :
  StronglySorted Z.lt l1 -> StronglySorted Z.lt l2 ->
  (forall z, In z l1 <-> In z l2) -> l1 = l2.
Proof.
  intros S1. revert l2. induction S1 as [|a l1 S1 IH Ha]; intros l2 S2 Hmem.
  - destruct l2 as [|b l2]; [reflexivity|].
    exfalso. apply (proj2 (Hmem b)). by left.
  - destruct S2 as [|b l2 S2 Hb].
    { exfalso. apply (proj1 (Hmem a)). by left. }
    rewrite List.Forall_forall in Ha, Hb.
    assert (a = b) as <-.
    { destruct (proj1 (Hmem a)) as [->|Hin]; [by left|reflexivity|].
      destruct (proj2 (Hmem b)) as [->|Hin']; [by left|reflexivity|].
      specialize (Ha _ Hin'). specialize (Hb _ Hin). lia. }
    f_equal. apply IH; [assumption|].
    intros z. split; intros Hz.
    + destruct (proj1 (Hmem z)) as [<-|]; [by right| |assumption].
      specialize (Ha _ Hz). lia.
    + destruct (proj2 (Hmem z)) as [<-|]; [by right| |assumption].
      specialize (Hb _ Hz). lia.
Qed.

Lemma exclusive_indices_unique (y : ndarray2 A) (c : nat) (l1 l2 : list Z) :
  exclusive_indices y c l1 -> exclusive_indices y c l2 -> l1 = l2.
Proof.
  intros [S1 M1] [S2 M2]. apply sorted_lt_unique; [assumption..|].
  intros z. by rewrite M1, M2.
Qed.


(** C1: on a two-dimensional label matrix, for column indices [classA] and
    [classB] of the matrix and a count [maxPerClass], [unique_indices]
    returns the indices of the rows exclusive to [classA] (flag 1 in that
    column, not 1 in every other column), in ascending order and cut to the
    first [maxPerClass], followed by those exclusive to [classB] under the
    same rule. When a class has at most [maxPerClass] exclusive rows all of
    them are returned; nothing is padded and nothing is raised. *)
Theorem unique_indices_exclusive_blocks
    (y : ndarray2 A) (classA classB maxPerClass : Z) :
  well_shaped y ->
  0 <= classA < Z.of_nat (shape1 y) ->
  0 <= classB < Z.of_nat (shape1 y) ->
  0 <= maxPerClass ->
  exists allA allB,
    exclusive_indices y (Z.to_nat classA) allA /\
    exclusive_indices y (Z.to_nat classB) allB /\
    unique_indices y classA classB maxPerClass
      = Ret (take (Z.to_nat maxPerClass) allA ++ take (Z.to_nat maxPerClass) allB) /\
    ((length allA <= Z.to_nat maxPerClass)%nat ->
       take (Z.to_nat maxPerClass) allA = allA) /\
    ((length allB <= Z.to_nat maxPerClass)%nat ->
       take (Z.to_nat maxPerClass) allB = allB).
Proof.
  intros Hwf HA HB Hn.
  eexists _, _. split; [apply selected_exclusive|].
  split; [apply selected_exclusive|]. split.
  - rewrite unique_indices_eq by assumption. unfold slice_to.
    destruct (Z.leb_spec 0 maxPerClass); [reflexivity | lia].
  - split; intros Hlen; by apply take_ge.
Qed.


End SelectionClaims.

(** C2: on the label matrix with the rows (1,-1,-1), (1,1,-1), (-1,1,-1) and
    (-1,-1,1), with classes 0 and 1 and at most 10 indices per class,
    [unique_indices] returns the sequence 0, 2. *)
Theorem unique_indices_example :
  unique_indices y_example 0 1 10 = Ret [0; 2].
Proof. vm_compute. reflexivity. Qed.

Lemma y_example_well_shaped : well_shaped y_example.
Proof. repeat constructor. Qed.

Lemma unique_indices_exclusive_blocks_witness :
  exists allA allB,
    exclusive_indices y_example (Z.to_nat 0) allA /\
    exclusive_indices y_example (Z.to_nat 1) allB /\
    unique_indices y_example 0 1 10
      = Ret (take (Z.to_nat 10) allA ++ take (Z.to_nat 10) allB) /\
    ((length allA <= Z.to_nat 10)%nat -> take (Z.to_nat 10) allA = allA) /\
    ((length allB <= Z.to_nat 10)%nat -> take (Z.to_nat 10) allB = allB).
Proof.
  apply (unique_indices_exclusive_blocks y_example 0 1 10);
    [apply y_example_well_shaped | simpl; lia | simpl; lia | lia].
Defined.


(** ** The selection: bounds and errors *)

Section SelectionEdges.
Context `{Scalar A}.

Lemma axis_index_out_of_range (len : nat) (c : Z) :
  ~ (- Z.of_nat len <= c < Z.of_nat len) ->
  axis_index len c = Raise (index_error "index out of bounds").
Proof.
  intros Hc. unfold axis_index.
  destruct (Z.leb_spec 0 c), (Z.ltb_spec c (Z.of_nat len)),
    (Z.leb_spec (- Z.of_nat len) c), (Z.ltb_spec c 0); simpl; try reflexivity; lia.
Qed.

Lemma column_index_error (y : ndarray2 A) (c : Z) :
  (exists col, column y c = Ret col) \/
  column y c = Raise (index_error "index out of bounds").
Proof.
  unfold column. destruct (axis_index (shape1 y) c) as [j|e] eqn:E; simpl.
  - unfold mbind, outcome_mbind. simpl. destruct (mapM _ _); eauto.
  - right. unfold axis_index in E.
    repeat match type of E with
           | (if ?b then _ else _) = _ => destruct b
           end; try discriminate.
    by injection E as <-.
Qed.

(** X15: a column index that lies outside the matrix, that is outside
    [-ncols .. ncols-1], makes [unique_indices] raise [IndexError]; so does
    every call on a matrix without columns. *)
Theorem unique_indices_column_out_of_range
    (y : ndarray2 A) (column1 column2 n_indices : Z) :
  ~ (- Z.of_nat (shape1 y) <= column1 < Z.of_nat (shape1 y)) ->
  unique_indices y column1 column2 n_indices
  = Raise (index_error "index out of bounds").
Proof.
  intros Hc. unfold unique_indices.
  destruct (column_index_error y 0) as [(col0 & ->)| ->]; [|reflexivity].
  unfold mbind, outcome_mbind. simpl.
  unfold exclusive_mask, column. rewrite axis_index_out_of_range by assumption.
  reflexivity.
Qed.

(** X16: every index that [unique_indices] returns, for whatever count, is
    the index of a row of the matrix that is exclusive to [column1] or to
    [column2]: the row has flag 1 in that column and in no other. *)
Theorem unique_indices_sound
    (y : ndarray2 A) (column1 column2 n_indices : Z) (indices : list Z) (z : Z) :
  well_shaped y ->
  0 <= column1 < Z.of_nat (shape1 y) ->
  0 <= column2 < Z.of_nat (shape1 y) ->
  unique_indices y column1 column2 n_indices = Ret indices ->
  In z indices ->
  exists i, z = Z.of_nat i /\ (i < shape0 y)%nat /\
    (exclusive_to y (Z.to_nat column1) i \/ exclusive_to y (Z.to_nat column2) i).
Proof.
  intros Hwf H1 H2 E Hz.
  rewrite unique_indices_eq in E by assumption. injection E as <-.
  assert (Hin : forall c l,
    exclusive_indices y c l -> In z (slice_to n_indices l) ->
    exists i, z = Z.of_nat i /\ (i < shape0 y)%nat /\ exclusive_to y c i).
  { intros c l [_ Hmem] Hin.
    destruct (slice_to_take n_indices l) as [k Ek]. rewrite Ek in Hin.
    apply list_elem_of_In, elem_of_take in Hin as (j & Hj & _).
    apply list_elem_of_lookup_2, list_elem_of_In, Hmem in Hj as (i & -> & Hi).
    exists i. split; [reflexivity|]. split; [|assumption].
    destruct Hi as (r & v & Hr & _). unfold shape0.
    by apply lookup_lt_Some in Hr. }
  apply in_app_or in Hz as [Hz|Hz].
  - destruct (Hin _ _ (selected_exclusive y (Z.to_nat column1)) Hz)
      as (i & ? & ? & ?). eauto.
  - destruct (Hin _ _ (selected_exclusive y (Z.to_nat column2)) Hz)
      as (i & ? & ? & ?). eauto.
Qed.

(** X17: for a count [n_indices] that is not negative, [unique_indices]
    returns at most [n_indices] indices for each of the two classes, hence
    at most twice that many in all, and never more than two per row. *)
Theorem unique_indices_length
    (y : ndarray2 A) (column1 column2 n_indices : Z) (indices : list Z) :
  well_shaped y ->
  0 <= column1 < Z.of_nat (shape1 y) ->
  0 <= column2 < Z.of_nat (shape1 y) ->
  0 <= n_indices ->
  unique_indices y column1 column2 n_indices = Ret indices ->
  Z.of_nat (length indices) <= 2 * n_indices /\
  (length indices <= 2 * shape0 y)%nat.
Proof.
  intros Hwf H1 H2 Hn E.
  rewrite unique_indices_eq in E by assumption. injection E as <-.
  assert (Hpos : forall c,
    (length (positions 0 (map (row_exclusive c) (rows y))) <= shape0 y)%nat).
  { intros c. unfold shape0. rewrite <- (length_map (row_exclusive c) (rows y)).
    generalize (map (row_exclusive c) (rows y)) 0%nat.
    induction l as [|b l IH]; intros s; simpl; [lia|].
    destruct b; simpl; specialize (IH (S s)); lia. }
  unfold slice_to. destruct (Z.leb_spec 0 n_indices); [|lia].
  rewrite length_app, !length_take, !length_map.
  pose proof (Hpos (Z.to_nat column1)). pose proof (Hpos (Z.to_nat column2)).
  lia.
Qed.

(** X18: a negative count raises nothing: [unique_indices] then leaves out
    the last [-n_indices] exclusive rows of each class. *)
Theorem unique_indices_negative_count
    (y : ndarray2 A) (column1 column2 n_indices : Z) :
  well_shaped y ->
  0 <= column1 < Z.of_nat (shape1 y) ->
  0 <= column2 < Z.of_nat (shape1 y) ->
  n_indices < 0 ->
  exists all1 all2,
    exclusive_indices y (Z.to_nat column1) all1 /\
    exclusive_indices y (Z.to_nat column2) all2 /\
    unique_indices y column1 column2 n_indices
    = Ret (take (length all1 - Z.to_nat (- n_indices)) all1
           ++ take (length all2 - Z.to_nat (- n_indices)) all2).
Proof.
  intros Hwf H1 H2 Hn.
  eexists _, _. split; [apply selected_exclusive|].
  split; [apply selected_exclusive|].
  rewrite unique_indices_eq by assumption. unfold slice_to.
  destruct (Z.leb_spec 0 n_indices); [lia | reflexivity].
Qed.

End SelectionEdges.

Lemma unique_indices_column_out_of_range_witness :
  unique_indices y_example 3 0 10 = Raise (index_error "index out of bounds").
Proof.
  apply (unique_indices_column_out_of_range y_example 3 0 10). simpl. lia.
Defined.

Lemma unique_indices_sound_witness :
  exists i, 2 = Z.of_nat i /\ (i < shape0 y_example)%nat /\
    (exclusive_to y_example (Z.to_nat 0) i \/ exclusive_to y_example (Z.to_nat 1) i).
Proof.
  apply (unique_indices_sound y_example 0 1 10 [0; 2] 2);
    [ apply y_example_well_shaped | simpl; lia | simpl; lia
    | vm_compute; reflexivity | simpl; tauto ].
Defined.

Lemma unique_indices_length_witness :
  Z.of_nat (length [0; 2]) <= 2 * 10 /\
  (length [0; 2] <= 2 * shape0 y_example)%nat.
Proof.
  apply (unique_indices_length y_example 0 1 10 [0; 2]);
    [ apply y_example_well_shaped | simpl; lia | simpl; lia | lia
    | vm_compute; reflexivity ].
Defined.

Lemma unique_indices_negative_count_witness :
  exists all1 all2,
    exclusive_indices y_example (Z.to_nat 0) all1 /\
    exclusive_indices y_example (Z.to_nat 1) all2 /\
    unique_indices y_example 0 1 (-1)
    = Ret (take (length all1 - Z.to_nat (- -1)) all1
           ++ take (length all2 - Z.to_nat (- -1)) all2).
Proof.
  apply (unique_indices_negative_count y_example 0 1 (-1));
    [ apply y_example_well_shaped | simpl; lia | simpl; lia | lia ].
Defined.

(** ** Strings *)

Lemma append_nil_l (t : string) : "" +:+ t = t.
Proof. reflexivity. Qed.

Lemma append_cons (c : ascii) (s t : string) :
  String c s +:+ t = String c (s +:+ t).
Proof. reflexivity. Qed.

Lemma append_nil_r (s : string) : s +:+ "" = s.
Proof. induction s as [|c s IH]; [reflexivity|]. by rewrite append_cons, IH. Qed.

Lemma append_assoc (s t u : string) : (s +:+ t) +:+ u = s +:+ t +:+ u.
Proof.
  induction s as [|c s IH]; [reflexivity|]. by rewrite !append_cons, IH.
Qed.

Lemma length_append (s t : string) :
  String.length (s +:+ t) = (String.length s + String.length t)%nat.
Proof.
  induction s as [|c s IH]; [reflexivity|].
  rewrite append_cons. simpl. by rewrite IH.
Qed.

Lemma endswith_nil (t : string) : endswith "" t = (String.eqb "" t || false).
Proof. reflexivity. Qed.

Lemma endswith_cons (c : ascii) (s t : string) :
  endswith (String c s) t = (String.eqb (String c s) t || endswith s t).
Proof. reflexivity. Qed.

Lemma endswith_spec (s t : string) :
  endswith s t = true <-> exists pre, s = pre +:+ t.
Proof.
  induction s as [|c s IH]; [rewrite endswith_nil | rewrite endswith_cons].
  - rewrite orb_false_r, String.eqb_eq. split.
    + intros <-. by exists "".
    + intros ([|c pre] & E); [by rewrite append_nil_l in E|].
      rewrite append_cons in E. discriminate.
  - rewrite orb_true_iff, String.eqb_eq, IH. split.
    + intros [<-|(pre & ->)]; [by exists ""|].
      exists (String c pre). by rewrite append_cons.
    + intros ([|c' pre] & E); [left; by rewrite append_nil_l in E|].
      rewrite append_cons in E. injection E as <- ->. right. eauto.
Qed.

(** Of two endings of a string, the shorter is an ending of the longer. *)
Lemma endswith_shorter (s t1 t2 : string) :
  endswith s t1 = true -> endswith s t2 = true ->
  (String.length t2 <= String.length t1)%nat ->
  endswith t1 t2 = true.
Proof.
  rewrite !endswith_spec. intros (pre1 & ->) (pre2 & E) Hlen.
  revert pre2 E. induction pre1 as [|c pre1 IH]; intros pre2 E.
  - rewrite append_nil_l in E. eauto.
  - destruct pre2 as [|c' pre2].
    + rewrite append_nil_l in E. subst t2.
      rewrite append_cons in Hlen. simpl in Hlen.
      rewrite length_append in Hlen. lia.
    + rewrite !append_cons in E. injection E as _ E. eauto.
Qed.

Lemma endswith_txt_not_zip (s : string) :
  endswith s ".txt" = true -> endswith s ".zip" = false.
Proof.
  intros Htxt. destruct (endswith s ".zip") eqn:Hzip; [|reflexivity].
  by pose proof (endswith_shorter s ".txt" ".zip" Htxt Hzip ltac:(simpl; lia)).
Qed.

Lemma endswith_txt_not_gz (s : string) :
  endswith s ".txt" = true -> endswith s ".gz" = false.
Proof.
  intros Htxt. destruct (endswith s ".gz") eqn:Hgz; [|reflexivity].
  by pose proof (endswith_shorter s ".txt" ".gz" Htxt Hgz ltac:(simpl; lia)).
Qed.

Lemma endswith_gz_not_zip (s : string) :
  endswith s ".gz" = true -> endswith s ".zip" = false.
Proof.
  intros Hgz. destruct (endswith s ".zip") eqn:Hzip; [|reflexivity].
  by pose proof (endswith_shorter s ".zip" ".gz" Hzip Hgz ltac:(simpl; lia)).
Qed.

Lemma endswith_gz_not_txt (s : string) :
  endswith s ".gz" = true -> endswith s ".txt" = false.
Proof.
  intros Hgz. destruct (endswith s ".txt") eqn:Htxt; [|reflexivity].
  by pose proof (endswith_shorter s ".txt" ".gz" Htxt Hgz ltac:(simpl; lia)).
Qed.

(** ** Paths *)

Lemma rsplit_slash_tail (p h t : string) :
  rsplit_slash p = Some (h, t) -> rsplit_slash t = None.
Proof.
  revert h t. induction p as [|c p IH]; intros h t; [discriminate|]. simpl.
  destruct (rsplit_slash p) as [[h' t']|] eqn:E.
  - intros [= <- <-]. eauto.
  - destruct (is_slash c); [|discriminate]. by intros [= <- <-].
Qed.

(** The last component of a path holds no slash. *)
Lemma basename_no_slash (p : string) : rsplit_slash (os_path_basename p) = None.
Proof.
  unfold os_path_basename. destruct (rsplit_slash p) as [[h t]|] eqn:E.
  - eapply rsplit_slash_tail; eauto.
  - assumption.
Qed.

Lemma rsplit_slash_append (pre b : string) :
  rsplit_slash b = None -> rsplit_slash (pre +:+ "/" +:+ b) = Some (pre, b).
Proof.
  intros Hb. induction pre as [|c pre IH].
  - rewrite append_nil_l, append_cons, append_nil_l. simpl. by rewrite Hb.
  - rewrite append_cons. simpl. by rewrite IH.
Qed.

Lemma startswith_slash (b : string) :
  startswith b "/" = true -> rsplit_slash b <> None.
Proof.
  unfold startswith. destruct b as [|c b]; [discriminate|].
  change (String.prefix "/" (String c b))
    with (if ascii_dec "/" c then String.prefix "" b else false).
  destruct (ascii_dec "/" c) as [<-|]; [|discriminate]. intros _.
  simpl. by destruct (rsplit_slash b) as [[? ?]|].
Qed.

Lemma all_slashes_endswith (s : string) :
  all_slashes s = true -> s = "" \/ endswith s "/" = true.
Proof.
  induction s as [|c s IH]; [by left|]. simpl.
  intros [Hc Hs]%andb_true_iff. right.
  unfold is_slash in Hc. apply Ascii.eqb_eq in Hc as ->.
  destruct (IH Hs) as [->|E]; [reflexivity|].
  rewrite E. apply orb_true_r.
Qed.

Lemma all_slashes_append_slash (s : string) :
  all_slashes (s +:+ "/") = all_slashes s.
Proof.
  induction s as [|c s IH]; [reflexivity|].
  rewrite append_cons. simpl. by rewrite IH.
Qed.

Lemma rstrip_slash_append_slash (s : string) :
  rstrip_slash (s +:+ "/") = rstrip_slash s.
Proof.
  induction s as [|c s IH]; [reflexivity|].
  rewrite append_cons. simpl. by rewrite IH.
Qed.

Lemma rstrip_slash_no_slash (s : string) :
  endswith (rstrip_slash s) "/" = false.
Proof.
  induction s as [|c s IH]; [reflexivity|]. simpl.
  destruct (rstrip_slash s) as [|c' r] eqn:E.
  - destruct (is_slash c) eqn:Hc; [reflexivity|].
    rewrite endswith_cons. unfold is_slash in Hc.
    simpl. rewrite Hc. reflexivity.
  - rewrite endswith_cons, IH, orb_false_r.
    simpl. by destruct (Ascii.eqb c "/").
Qed.

Lemma rstrip_slash_fixed (t : string) :
  endswith t "/" = false -> rstrip_slash t = t.
Proof.
  induction t as [|c t IH]; [reflexivity|].
  rewrite endswith_cons. intros [Hc Ht]%orb_false_iff.
  simpl. rewrite (IH Ht). destruct t as [|c' t]; [|reflexivity].
  simpl in Hc. unfold is_slash.
  destruct (Ascii.eqb c "/"); [discriminate | reflexivity].
Qed.

Lemma rstrip_slash_empty (s : string) :
  rstrip_slash s = "" -> all_slashes s = true.
Proof.
  induction s as [|c s IH]; [reflexivity|]. simpl.
  destruct (rstrip_slash s) as [|c' r]; [|discriminate].
  destruct (is_slash c); [|discriminate]. intros _. by rewrite IH.
Qed.

Lemma strip_trailing_slashes_empty (p : string) :
  strip_trailing_slashes p = "" -> p = "".
Proof.
  unfold strip_trailing_slashes. destruct (all_slashes p) eqn:E; [done|].
  intros Hr. apply rstrip_slash_empty in Hr. congruence.
Qed.

Lemma strip_trailing_slashes_idem (p : string) :
  strip_trailing_slashes (strip_trailing_slashes p) = strip_trailing_slashes p.
Proof.
  unfold strip_trailing_slashes. destruct (all_slashes p) eqn:E.
  - by rewrite E.
  - destruct (all_slashes (rstrip_slash p)); [reflexivity|].
    apply rstrip_slash_fixed, rstrip_slash_no_slash.
Qed.

(** The directory of a file placed in [data_dir] is [data_dir], up to the
    slashes that end it. *)
Lemma dirname_join (data_dir b : string) :
  data_dir <> "" -> rsplit_slash b = None ->
  os_path_dirname (os_path_join data_dir b) = strip_trailing_slashes data_dir.
Proof.
  intros Hdir Hb. unfold os_path_join.
  destruct (startswith b "/") eqn:Hs.
  { by apply startswith_slash in Hs. }
  destruct (String.eqb_spec data_dir ""); [done|]. simpl.
  unfold os_path_dirname, head_of.
  destruct (endswith data_dir "/") eqn:He.
  - apply endswith_spec in He as (pre & ->).
    rewrite append_assoc, rsplit_slash_append by assumption. reflexivity.
  - rewrite rsplit_slash_append by assumption.
    unfold strip_trailing_slashes.
    rewrite all_slashes_append_slash, rstrip_slash_append_slash.
    destruct (all_slashes data_dir) eqn:Ha; [|reflexivity].
    apply all_slashes_endswith in Ha as [?|?]; congruence.
Qed.

(** *** Nodes *)

Lemma is_dir_strip w p :
  is_dir w (strip_trailing_slashes p) = true -> is_dir w p = true.
Proof.
  unfold is_dir, node_at.
  destruct (String.eqb_spec p "") as [->|Hp]; [done|].
  destruct (all_slashes p) eqn:Ha; [done|].
  rewrite strip_trailing_slashes_idem.
  destruct (String.eqb_spec (strip_trailing_slashes p) ""); [done|].
  assert (Hs : all_slashes (strip_trailing_slashes p) = false).
  { destruct (all_slashes (strip_trailing_slashes p)) eqn:E; [|reflexivity].
    apply all_slashes_endswith in E as [E|E]; [done|].
    unfold strip_trailing_slashes in E. rewrite Ha in E.
    by rewrite rstrip_slash_no_slash in E. }
  rewrite Hs. destruct (fs w !! strip_trailing_slashes p) as [[|c]|]; try done.
  by destruct (endswith (strip_trailing_slashes p) "/").
Qed.

Lemma is_dir_same_fs w w' q : fs w' = fs w -> is_dir w' q = is_dir w q.
Proof. intros E. unfold is_dir, node_at. by rewrite E. Qed.

Lemma node_at_same_fs w w' q : fs w' = fs w -> node_at w' q = node_at w q.
Proof. intros E. unfold node_at. by rewrite E. Qed.

(** ** Computations with effects *)

Ltac io_unfold :=
  unfold mbind, io_mbind, io_bind, mret, io_mret, io_ret, io_raise, lift,
         try_except, when, print, log, set_fs, set_handles in *.

Lemma io_bind_inv {A B} (m : io A) (k : A -> io B) w r w' :
  (m ≫= k) w = (r, w') ->
  (exists a w1, m w = (Ret a, w1) /\ k a w1 = (r, w')) \/
  (exists e, m w = (Raise e, w') /\ r = Raise e).
Proof.
  unfold mbind, io_mbind, io_bind.
  destruct (m w) as [[a|e] w1]; intros E; [left; eauto | right].
  injection E as <- <-. eauto.
Qed.

Lemma io_bind_ret_inv {A B} (m : io A) (k : A -> io B) w b w' :
  (m ≫= k) w = (Ret b, w') ->
  exists a w1, m w = (Ret a, w1) /\ k a w1 = (Ret b, w').
Proof.
  intros E. apply io_bind_inv in E as [E|(e & _ & E)]; [assumption | discriminate].
Qed.

#[global] Instance emits_preorder P : PreOrder (emits P).
Proof.
  split.
  - intros w. exists []. split; [by rewrite app_nil_r | constructor].
  - intros w1 w2 w3 (evs1 & E1 & F1) (evs2 & E2 & F2).
    exists (evs1 ++ evs2). split; [by rewrite E2, E1, app_assoc|].
    apply Forall_app; auto.
Qed.

#[global] Instance same_handles_preorder : PreOrder same_handles.
Proof.
  split; [intros w; reflexivity|].
  intros w1 w2 w3 E1 E2. unfold same_handles in *. congruence.
Qed.

#[global] Instance dirs_kept_preorder : PreOrder dirs_kept.
Proof. split; [intros w q; auto | intros w1 w2 w3 E1 E2 q Hq; auto]. Qed.

Lemma emits_impl (P Q : event -> Prop) w w' :
  (forall ev, P ev -> Q ev) -> emits P w w' -> emits Q w w'.
Proof.
  intros HPQ (evs & E & F). exists evs. split; [assumption|].
  eapply Forall_impl; eauto.
Qed.

Lemma steps_impl (R S : world -> world -> Prop) {A} (m : io A) :
  (forall w w', R w w' -> S w w') -> steps R m -> steps S m.
Proof. intros HRS Hm w r w' E. eauto. Qed.

Section Steps.
Context (R : world -> world -> Prop) `{!PreOrder R}.

Lemma steps_ret {A} (a : A) : steps R (mret a).
Proof. intros w r w' [= <- <-]. reflexivity. Qed.

Lemma steps_raise {A} (e : exn) : steps R (@io_raise A e).
Proof. intros w r w' [= <- <-]. reflexivity. Qed.

Lemma steps_lift {A} (r : outcome A) : steps R (lift r).
Proof. intros w r' w' [= <- <-]. reflexivity. Qed.

Lemma steps_bind {A B} (m : io A) (k : A -> io B) :
  steps R m -> (forall a, steps R (k a)) -> steps R (m ≫= k).
Proof.
  intros Hm Hk w r w' E.
  apply io_bind_inv in E as [(a & w1 & E1 & E2)|(e & E1 & _)].
  - transitivity w1; [eapply Hm | eapply Hk]; eauto.
  - eapply Hm; eauto.
Qed.

Lemma steps_when (b : bool) (m : io unit) : steps R m -> steps R (when b m).
Proof. intros Hm. destruct b; [assumption | apply (steps_ret tt)]. Qed.

Lemma steps_try_except {A} (body : io A) (handler : exn -> io A) :
  steps R body -> (forall e, steps R (handler e)) ->
  steps R (try_except body handler).
Proof.
  intros Hb Hh w r w' E. unfold try_except in E.
  destruct (body w) as [[a|e] w1] eqn:Eb.
  - injection E as <- <-. eapply Hb; eauto.
  - transitivity w1; [eapply Hb | eapply Hh]; eauto.
Qed.

Lemma steps_os_path_exists (p : string) : steps R (os_path_exists p).
Proof. intros w r w' [= <- <-]. reflexivity. Qed.

Lemma steps_os_getcwd : steps R os_getcwd.
Proof. intros w r w' [= <- <-]. reflexivity. Qed.

Lemma steps_read_file (p : string) : steps R (read_file p).
Proof.
  intros w r w' E. unfold read_file in E.
  destruct (node_at w p) as [[|c]|]; injection E as <- <-; reflexivity.
Qed.

Lemma steps_get_dataset_dir (dataset_name : string) (data_dir : option string) :
  steps R (_get_dataset_dir dataset_name data_dir).
Proof.
  unfold _get_dataset_dir. apply steps_bind; [|intros; apply steps_ret].
  destruct (falsy data_dir); [|apply steps_ret].
  apply steps_bind; [apply steps_os_getcwd | intros; apply steps_ret].
Qed.

End Steps.

(** *** What the primitives emit *)

Section Emits.
Context (P : event -> Prop).

Lemma emits_one w ev :
  P ev -> emits P w (World (cwd w) (fs w) (handles w) (trace w ++ [ev])).
Proof. intros HP. exists [ev]. split; [reflexivity | by constructor]. Qed.

Lemma emits_log ev : P ev -> steps (emits P) (log ev).
Proof. intros HP w r w' [= <- <-]. by apply emits_one. Qed.

Lemma emits_print line : P (EvPrint line) -> steps (emits P) (print line).
Proof. apply emits_log. Qed.

Lemma emits_set_fs f : steps (emits P) (set_fs f).
Proof. intros w r w' [= <- <-]. exists []. simpl. by rewrite app_nil_r. Qed.

Lemma emits_set_handles f : steps (emits P) (set_handles f).
Proof. intros w r w' [= <- <-]. exists []. simpl. by rewrite app_nil_r. Qed.

Lemma emits_os_makedirs p : P (EvMakedirs p) -> steps (emits P) (os_makedirs p).
Proof.
  intros HP w r w' E. unfold os_makedirs in E.
  destruct (String.eqb p ""); [injection E as <- <-; reflexivity|].
  destruct (node_at w _); [injection E as <- <-; reflexivity|].
  destruct (existsb _ _); [injection E as <- <-; reflexivity|].
  revert E. apply steps_bind; [apply _ | apply emits_set_fs |].
  intros _. by apply emits_log.
Qed.

Lemma emits_open_for_writing p : P (EvOpen p) -> steps (emits P) (open_for_writing p).
Proof.
  intros HP w r w' E. unfold open_for_writing in E.
  destruct (writable_at w p); [|injection E as <- <-; reflexivity].
  revert E. apply steps_bind; [apply _ | apply emits_set_fs |]. intros _.
  apply steps_bind; [apply _ | apply emits_set_handles |]. intros _.
  apply steps_bind; [apply _ | by apply emits_log |]. intros _.
  apply steps_ret, _.
Qed.

Lemma emits_file_write f data : P (EvWrite f data) -> steps (emits P) (file_write f data).
Proof.
  intros HP. unfold file_write.
  apply steps_bind; [apply _ | apply emits_set_fs |]. intros _. by apply emits_log.
Qed.

Lemma emits_file_close f : P (EvClose f) -> steps (emits P) (file_close f).
Proof.
  intros HP. unfold file_close.
  apply steps_bind; [apply _ | apply emits_set_handles |]. intros _. by apply emits_log.
Qed.

Lemma emits_os_remove p : P (EvRemove p) -> steps (emits P) (os_remove p).
Proof.
  intros HP w r w' E. unfold os_remove in E.
  destruct (node_at w p) as [[|c]|]; try (injection E as <- <-; reflexivity).
  revert E. apply steps_bind; [apply _ | apply emits_set_fs |].
  intros _. by apply emits_log.
Qed.

Lemma emits_shutil_rmtree p : P (EvRmtree p) -> steps (emits P) (shutil_rmtree p).
Proof.
  intros HP w r w' E. unfold shutil_rmtree in E.
  destruct (is_dir w p); [|injection E as <- <-; reflexivity].
  revert E. apply steps_bind; [apply _ | apply emits_set_fs |].
  intros _. by apply emits_log.
Qed.

Lemma emits_put_file target content :
  P (EvExtract target) -> steps (emits P) (put_file target content).
Proof.
  intros HP w r w' E. unfold put_file in E.
  destruct (writable_at w target); [|injection E as <- <-; reflexivity].
  revert E. apply steps_bind; [apply _ | apply emits_set_fs |].
  intros _. by apply emits_log.
Qed.

Lemma emits_urlopen `{Environment} url : P (EvUrlopen url) -> steps (emits P) (urlopen url).
Proof.
  intros HP w r w' E. unfold urlopen in E. revert E.
  apply steps_bind; [apply _ | by apply emits_log |].
  intros _. apply steps_lift, _.
Qed.

End Emits.

(** *** What the functions emit *)

Lemma chunk_report_emits bytes_so_far total_size :
  steps (emits read_output) (_chunk_report_ bytes_so_far total_size).
Proof.
  unfold _chunk_report_. destruct total_size as [total|].
  - destruct (total =? 0); [apply emits_log; constructor|].
    destruct (float_overflows total); [apply steps_raise, _|].
    apply emits_log; constructor.
  - apply emits_log; constructor.
Qed.

Lemma read_loop_emits reads local_file report_hook total_size bytes_so_far :
  steps (emits read_output)
        (read_loop reads local_file report_hook total_size bytes_so_far).
Proof.
  revert bytes_so_far.
  induction reads as [|[chunk|e] reads IH]; intros bytes_so_far; simpl.
  - apply steps_when; [apply _|]. apply emits_log. constructor.
  - destruct (String.eqb chunk "").
    + apply steps_when; [apply _|]. apply emits_log. constructor.
    + apply steps_bind; [apply _ | apply emits_file_write; constructor |].
      intros _. apply steps_bind; [apply _ | | intros _; apply IH].
      apply steps_when; [apply _ | apply chunk_report_emits].
  - apply steps_raise, _.
Qed.

Lemma chunk_read_emits resp local_file report_hook :
  steps (emits read_output) (_chunk_read_ resp local_file report_hook).
Proof.
  unfold _chunk_read_.
  apply steps_bind; [apply _ | apply steps_lift, _ |]. intros header.
  apply steps_bind; [apply _ | | intros total; apply read_loop_emits].
  apply steps_try_except; [apply _ | |].
  - apply steps_bind; [apply _ | apply steps_lift, _ |].
    intros v. apply steps_ret, _.
  - intros e. apply steps_bind; [apply _ | | intros _; apply steps_ret, _].
    apply emits_print. constructor.
Qed.

Section FetchEmits.
Context `{Environment}.

Lemma download_suite_emits url full_name w r local_file w' :
  download_suite url full_name w = (r, local_file, w') ->
  emits fetch_output w w'.
Proof.
  unfold download_suite. intros E.
  destruct (print _ w) as [r0 w0] eqn:E0.
  assert (R0 : emits fetch_output w w0).
  { eapply emits_print; [|exact E0]. constructor. }
  transitivity w0; [assumption|]. clear E0 R0.
  destruct (urlopen url w0) as [[data|e] w1] eqn:E1.
  - assert (R1 : emits fetch_output w0 w1).
    { eapply emits_urlopen; [|exact E1]. constructor. }
    transitivity w1; [assumption|]. clear E1 R1.
    destruct (open_for_writing full_name w1) as [[f|e] w2] eqn:E2.
    + assert (R2 : emits fetch_output w1 w2).
      { eapply emits_open_for_writing; [|exact E2]. constructor. }
      transitivity w2; [assumption|]. clear E2 R2.
      destruct ((_ ← _chunk_read_ data f true; print _) w2) as [r3 w3] eqn:E3.
      injection E as <- <- <-. revert E3.
      apply steps_bind; [apply _ | |].
      * eapply steps_impl; [|apply chunk_read_emits].
        intros ? ?. apply emits_impl. by constructor.
      * intros _. apply emits_print. constructor.
    + injection E as <- <- <-.
      eapply emits_open_for_writing; [|exact E2]. constructor.
  - injection E as <- <- <-.
    eapply emits_urlopen; [|exact E1]. constructor.
Qed.

Lemma except_clauses_report url full_name r :
  steps (emits error_report) (except_clauses url full_name r).
Proof.
  unfold except_clauses. destruct r as [?|e]; [apply steps_ret, _|].
  destruct (issubclass _ HTTPError).
  { apply steps_bind; [apply _ | | intros _; apply steps_ret, _].
    apply emits_print. constructor. }
  destruct (issubclass _ URLError).
  { apply steps_bind; [apply _ | | intros _; apply steps_ret, _].
    apply emits_print. constructor. }
  apply steps_raise, _.
Qed.

Lemma except_clauses_emits url full_name r :
  steps (emits fetch_output) (except_clauses url full_name r).
Proof.
  eapply steps_impl; [|apply except_clauses_report].
  intros ? ?. apply emits_impl. by constructor.
Qed.

Lemma finally_close_emits local_file r :
  steps (emits fetch_output) (finally_close local_file r).
Proof.
  unfold finally_close. destruct local_file as [f|]; [|apply steps_raise, _].
  apply steps_bind; [apply _ | | intros _; apply steps_lift, _].
  apply emits_file_close. constructor.
Qed.

Lemma download_emits url full_name :
  steps (emits fetch_output) (download url full_name).
Proof.
  intros w r w' E. unfold download in E.
  destruct (download_suite url full_name w) as [[r1 local_file] w1] eqn:E1.
  destruct (except_clauses url full_name r1 w1) as [r2 w2] eqn:E2.
  transitivity w1; [eapply download_suite_emits; eauto|].
  transitivity w2; [eapply except_clauses_emits; eauto|].
  eapply finally_close_emits; eauto.
Qed.

Lemma fetch_file_emits url data_dir :
  steps (emits fetch_output) (_fetch_file url data_dir).
Proof.
  unfold _fetch_file.
  apply steps_bind; [apply _ | apply steps_os_path_exists, _ |]. intros there.
  apply steps_bind; [apply _ | |]; [|intros _].
  { apply steps_when; [apply _|]. apply emits_os_makedirs. constructor. }
  apply steps_bind; [apply _ | apply steps_os_path_exists, _ |]. intros cached.
  destruct (negb cached); [apply download_emits | apply steps_ret, _].
Qed.

Lemma extractall_emits data_dir members :
  steps (emits extract_output) (extractall data_dir members).
Proof.
  induction members as [|member members IH]; simpl; [apply steps_ret, _|].
  apply steps_bind; [apply _ | | intros _; apply IH].
  unfold extract_member.
  apply steps_bind; [apply _ | apply steps_os_path_exists, _ |]. intros there.
  apply steps_bind; [apply _ | |]; [|intros _].
  { apply steps_when; [apply _|]. apply emits_os_makedirs. constructor. }
  apply emits_put_file. constructor.
Qed.

Lemma uncompress_file_emits file_ delete_archive :
  steps (emits extract_output) (_uncompress_file file_ delete_archive).
Proof.
  unfold _uncompress_file.
  apply steps_bind; [apply _ | apply emits_print; constructor |]. intros _.
  destruct file_ as [file_|]; [|apply steps_raise, _].
  apply steps_try_except; [apply _ | |].
  - apply steps_bind; [apply _ | |]; [|intros _].
    + destruct (endswith file_ ".zip"); [apply steps_raise, _|].
      destruct (endswith file_ ".gz").
      { apply steps_bind; [apply _ | apply steps_read_file, _ |]. intros _.
        apply steps_bind; [apply _ | apply emits_open_for_writing; constructor |].
        intros f.
        apply steps_bind; [apply _ | apply steps_read_file, _ |]. intros c.
        apply steps_bind; [apply _ | apply steps_lift, _ |]. intros data.
        apply emits_file_write. constructor. }
      destruct (endswith file_ ".txt"); [apply steps_ret, _|].
      apply steps_bind; [apply _ | apply steps_read_file, _ |]. intros c.
      apply steps_bind; [apply _ | apply steps_lift, _ |]. intros members.
      apply extractall_emits.
    + apply steps_bind; [apply _ | |]; [|intros _].
      * apply steps_when; [apply _|]. apply emits_os_remove. constructor.
      * apply emits_print. constructor.
  - intros e. apply steps_bind; [apply _ | | intros _; apply steps_raise, _].
    apply emits_print. constructor.
Qed.

End FetchEmits.

(** *** Open files *)

Lemma same_handles_log ev : steps same_handles (log ev).
Proof. intros w r w' [= <- <-]. reflexivity. Qed.

Lemma same_handles_set_fs f : steps same_handles (set_fs f).
Proof. intros w r w' [= <- <-]. reflexivity. Qed.

Lemma same_handles_os_makedirs p : steps same_handles (os_makedirs p).
Proof.
  intros w r w' E. unfold os_makedirs in E.
  destruct (String.eqb p ""); [injection E as <- <-; reflexivity|].
  destruct (node_at w _); [injection E as <- <-; reflexivity|].
  destruct (existsb _ _); [injection E as <- <-; reflexivity|].
  revert E. apply steps_bind; [apply _ | apply same_handles_set_fs |].
  intros _. apply same_handles_log.
Qed.

Lemma same_handles_file_write f data : steps same_handles (file_write f data).
Proof.
  unfold file_write.
  apply steps_bind; [apply _ | apply same_handles_set_fs |].
  intros _. apply same_handles_log.
Qed.

Lemma same_handles_urlopen `{Environment} url : steps same_handles (urlopen url).
Proof.
  intros w r w' E. unfold urlopen in E. revert E.
  apply steps_bind; [apply _ | apply same_handles_log |].
  intros _. apply steps_lift, _.
Qed.

Lemma same_handles_read_loop reads local_file report_hook total_size bytes_so_far :
  steps same_handles (read_loop reads local_file report_hook total_size bytes_so_far).
Proof.
  revert bytes_so_far.
  induction reads as [|[chunk|e] reads IH]; intros bytes_so_far; simpl.
  - apply steps_when; [apply _ | apply same_handles_log].
  - destruct (String.eqb chunk "").
    + apply steps_when; [apply _ | apply same_handles_log].
    + apply steps_bind; [apply _ | apply same_handles_file_write |].
      intros _. apply steps_bind; [apply _ | | intros _; apply IH].
      apply steps_when; [apply _ |]. unfold _chunk_report_.
      destruct total_size as [total|];
        [destruct (total =? 0);
           [|destruct (float_overflows total); [apply steps_raise, _|]]|];
        apply same_handles_log.
  - apply steps_raise, _.
Qed.

Lemma same_handles_chunk_read resp local_file report_hook :
  steps same_handles (_chunk_read_ resp local_file report_hook).
Proof.
  unfold _chunk_read_.
  apply steps_bind; [apply _ | apply steps_lift, _ |]. intros header.
  apply steps_bind; [apply _ | | intros total; apply same_handles_read_loop].
  apply steps_try_except; [apply _ | |].
  - apply steps_bind; [apply _ | apply steps_lift, _ |].
    intros v. apply steps_ret, _.
  - intros e. apply steps_bind; [apply _ | | intros _; apply steps_ret, _].
    apply same_handles_log.
Qed.

Lemma same_handles_except_clauses url full_name r :
  steps same_handles (except_clauses url full_name r).
Proof.
  unfold except_clauses. destruct r as [?|e]; [apply steps_ret, _|].
  destruct (issubclass _ HTTPError).
  { apply steps_bind; [apply _ | | intros _; apply steps_ret, _].
    apply same_handles_log. }
  destruct (issubclass _ URLError).
  { apply steps_bind; [apply _ | | intros _; apply steps_ret, _].
    apply same_handles_log. }
  apply steps_raise, _.
Qed.

Lemma read_output_quiet ev : read_output ev -> quiet ev.
Proof. by destruct 1. Qed.

Lemma error_report_quiet ev : error_report ev -> quiet ev.
Proof. by destruct 1. Qed.

Lemma remove_first_head f hs : remove_first f (f :: hs) = hs.
Proof. simpl. by rewrite String.eqb_refl. Qed.

Section LocalFile.
Context `{Environment}.

(** The suite of the [try] statement either leaves [local_file] unbound and
    opens nothing, or binds it to the one file it has opened. *)
Lemma download_suite_local_file url full_name w r local_file w1 :
  download_suite url full_name w = (r, local_file, w1) ->
  match local_file with
  | None =>
      handles w1 = handles w /\
      exists evs, trace w1 = trace w ++ evs /\ Forall quiet evs
  | Some f =>
      handles w1 = f :: handles w /\
      exists pre post, trace w1 = trace w ++ pre ++ EvOpen f :: post /\
        Forall quiet pre /\ Forall quiet post
  end.
Proof.
  unfold download_suite. intros E.
  destruct (print _ w) as [r0 w0] eqn:E0.
  assert (H0 : handles w0 = handles w) by (eapply same_handles_log; eauto).
  assert (T0 : emits quiet w w0) by (eapply emits_print; [|exact E0]; exact I).
  clear E0.
  destruct (urlopen url w0) as [[data|e] w2] eqn:E1.
  - assert (H1 : handles w2 = handles w0) by (eapply same_handles_urlopen; eauto).
    assert (T1 : emits quiet w0 w2) by (eapply emits_urlopen; [|exact E1]; exact I).
    clear E1.
    assert (T : emits quiet w w2) by (etransitivity; eauto).
    destruct T as (pre & Tpre & Qpre). clear T0 T1.
    unfold open_for_writing in E. destruct (writable_at w2 full_name).
    + io_unfold. simpl in E.
      match type of E with
      | context [_chunk_read_ data full_name true ?w3] =>
          destruct (_chunk_read_ data full_name true w3) as [r4 w4] eqn:E4
      end.
      assert (H4 := same_handles_chunk_read _ _ _ _ _ _ E4).
      assert (T4 := chunk_read_emits _ _ _ _ _ _ E4).
      destruct T4 as (evs4 & T4 & Q4). unfold same_handles in H4.
      simpl in H4, T4.
      destruct r4 as [[]|e]; injection E as <- <- <-; simpl.
      * split; [congruence|].
        exists pre, (evs4 ++ [EvPrint "...done. (%i seconds, %i min)"]).
        split; [|split; [assumption|]].
        -- rewrite T4, Tpre. by rewrite <- !app_assoc.
        -- apply Forall_app. split.
           ++ eapply Forall_impl; [exact Q4 | apply read_output_quiet].
           ++ by repeat constructor.
      * split; [congruence|].
        exists pre, evs4.
        split; [|split; [assumption|]].
        -- rewrite T4, Tpre. by rewrite <- !app_assoc.
        -- eapply Forall_impl; [exact Q4 | apply read_output_quiet].
    + injection E as <- <- <-. split; [congruence|]. eauto.
  - assert (H1 : handles w2 = handles w0) by (eapply same_handles_urlopen; eauto).
    assert (T1 : emits quiet w0 w2) by (eapply emits_urlopen; [|exact E1]; exact I).
    injection E as <- <- <-. split; [congruence|].
    assert (T : emits quiet w w2) by (etransitivity; eauto).
    exact T.
Qed.

Lemma download_closes_local_file url full_name w r w' :
  download url full_name w = (r, w') ->
  handles w' = handles w /\
  exists evs, trace w' = trace w ++ evs /\
    forall f, In (EvOpen f) evs -> exists evs', evs = evs' ++ [EvClose f].
Proof.
  unfold download. intros E.
  destruct (download_suite url full_name w) as [[r1 local_file] w1] eqn:E1.
  apply download_suite_local_file in E1.
  destruct (except_clauses url full_name r1 w1) as [r2 w2] eqn:E2.
  assert (H2 := same_handles_except_clauses _ _ _ _ _ _ E2).
  assert (T2 := except_clauses_report _ _ _ _ _ _ E2).
  destruct T2 as (evs2 & T2 & Q2). unfold same_handles in H2.
  assert (Q2' : Forall quiet evs2).
  { eapply Forall_impl; [exact Q2 | apply error_report_quiet]. }
  unfold finally_close in E. destruct local_file as [f|].
  - destruct E1 as (H1 & pre & post & T1 & Qpre & Qpost).
    io_unfold. simpl in E. injection E as <- <-. simpl. split.
    + rewrite H2, H1. apply remove_first_head.
    + exists ((pre ++ EvOpen f :: post ++ evs2) ++ [EvClose f]). split.
      * rewrite T2, T1. rewrite <- !app_assoc. simpl. by rewrite <- !app_assoc.
      * intros f' Hin. exists (pre ++ EvOpen f :: post ++ evs2).
        cut (f = f'); [by intros <-|].
        assert (Hq : forall evs, Forall quiet evs -> ~ In (EvOpen f') evs).
        { intros evs Q Hin'. rewrite List.Forall_forall in Q.
          exact (Q _ Hin'). }
        rewrite !in_app_iff in Hin. simpl in Hin. rewrite in_app_iff in Hin.
        destruct Hin as [[Hin|[Hin|[Hin|Hin]]]|[Hin|[]]];
          [by apply Hq in Hin | by injection Hin | by apply Hq in Hin
          | by apply Hq in Hin | discriminate].
  - destruct E1 as (H1 & evs1 & T1 & Q1).
    injection E as <- <-. split; [congruence|].
    exists (evs1 ++ evs2). split; [by rewrite T2, T1, app_assoc|].
    intros f Hin. exfalso.
    assert (Q : Forall quiet (evs1 ++ evs2)) by (apply Forall_app; auto).
    rewrite List.Forall_forall in Q. exact (Q _ Hin).
Qed.

Lemma fetch_file_local_file_closed url data_dir w r w' :
  _fetch_file url data_dir w = (r, w') ->
  handles w' = handles w /\
  exists evs, trace w' = trace w ++ evs /\
    forall f, In (EvOpen f) evs -> exists evs', evs = evs' ++ [EvClose f].
Proof.
  unfold _fetch_file. intros E.
  apply io_bind_inv in E as [(there & w1 & [= <- <-] & E)|(e & [=] & _)].
  apply io_bind_inv in E as [(u & w2 & E1 & E)|(e & E1 & ->)].
  - assert (H1 : same_handles w w2).
    { revert E1. apply steps_when; [apply _ | apply same_handles_os_makedirs]. }
    unfold same_handles in H1.
    assert (T1 : emits quiet w w2).
    { revert E1. apply steps_when; [apply _ |]. by apply emits_os_makedirs. }
    destruct T1 as (evs1 & T1 & Q1).
    apply io_bind_inv in E as [(cached & w3 & [= <- <-] & E)|(e & [=] & _)].
    match type of E with context [if ?b then _ else _] => destruct b end.
    + apply download_closes_local_file in E as (H3 & evs & T3 & Hclose).
      split; [congruence|]. exists (evs1 ++ evs).
      split; [by rewrite T3, T1, app_assoc|].
      intros f Hin. apply in_app_or in Hin as [Hin|Hin].
      * exfalso. rewrite List.Forall_forall in Q1. exact (Q1 _ Hin).
      * destruct (Hclose f Hin) as (evs' & ->).
        exists (evs1 ++ evs'). by rewrite app_assoc.
    + injection E as <- <-. split; [assumption|]. exists evs1.
      split; [assumption|]. intros f Hin. exfalso.
      rewrite List.Forall_forall in Q1. exact (Q1 _ Hin).
  - assert (H1 : same_handles w w').
    { revert E1. apply steps_when; [apply _ | apply same_handles_os_makedirs]. }
    unfold same_handles in H1.
    assert (T1 : emits quiet w w').
    { revert E1. apply steps_when; [apply _ |]. by apply emits_os_makedirs. }
    destruct T1 as (evs1 & T1 & Q1).
    split; [assumption|]. exists evs1. split; [assumption|].
    intros f Hin. exfalso. rewrite List.Forall_forall in Q1. exact (Q1 _ Hin).
Qed.

(** X3: whichever way [_fetch_file] ends, by a [return] or by an exception,
    the files open at its exit are those open at its entry; and when it has
    opened the local file, closing that file is the last thing it does. *)
Theorem fetch_file_closes_local_file url data_dir w r w' :
  _fetch_file url data_dir w = (r, w') ->
  handles w' = handles w /\
  exists evs, trace w' = trace w ++ evs /\
    forall f, In (EvOpen f) evs -> exists evs', evs = evs' ++ [EvClose f].
Proof. apply fetch_file_local_file_closed. Qed.

End LocalFile.

(** *** The cache and the request *)

Lemma requests_app w evs :
  omap (fun ev => match ev with EvUrlopen u => Some u | _ => None end)
       (trace w ++ evs)
  = requests w
    ++ omap (fun ev => match ev with EvUrlopen u => Some u | _ => None end) evs.
Proof. unfold requests. apply omap_app. Qed.

(** Events that are no requests leave the list of requests as it is. *)
Lemma emits_no_request (P : event -> Prop) w w' :
  (forall ev, P ev -> ~ is_request ev) ->
  emits P w w' -> requests w' = requests w.
Proof.
  intros HP (evs & E & F). unfold requests at 1. rewrite E, requests_app.
  rewrite <- (app_nil_r (requests w)) at 2. f_equal. clear E.
  induction F as [|ev evs Hev _ IH]; [reflexivity|].
  destruct ev; try exact IH.
  exfalso. exact (HP _ Hev I).
Qed.

Section Cache.
Context `{Environment}.

Lemma fetch_file_cached url data_dir w :
  node_at w data_dir <> None ->
  node_at w (os_path_join data_dir (os_path_basename url)) <> None ->
  _fetch_file url data_dir w
  = (Ret (Some (os_path_join data_dir (os_path_basename url))), w).
Proof.
  intros Hdir Hfile. unfold _fetch_file, os_path_exists. io_unfold.
  destruct (node_at w data_dir); [|congruence]. simpl.
  destruct (node_at w _); [|congruence]. reflexivity.
Qed.

(** X1: when the data directory exists and holds a file named after the
    last component of the URL, [_fetch_file] returns the path of that file
    and does nothing else: no request, no output, no change of any file. *)
Theorem fetch_file_cache_hit url data_dir w :
  node_at w data_dir <> None ->
  node_at w (os_path_join data_dir (os_path_basename url)) <> None ->
  _fetch_file url data_dir w
  = (Ret (Some (os_path_join data_dir (os_path_basename url))), w).
Proof. apply fetch_file_cached. Qed.

(** X2: when the file is not in the data directory and the request itself
    fails, with whatever exception, [_fetch_file] does not return: the
    [finally] clause closes a file that was never opened, and the function
    raises [UnboundLocalError]; no file is created and none is left open. *)
Theorem fetch_file_request_failure url data_dir w e :
  node_at w data_dir <> None ->
  node_at w (os_path_join data_dir (os_path_basename url)) = None ->
  network (requests w) url = Raise e ->
  exists w',
    _fetch_file url data_dir w = (Raise (unbound_local "local_file"), w') /\
    fs w' = fs w /\ handles w' = handles w /\
    requests w' = requests w ++ [url].
Proof.
  intros Hdir Hfile Hnet. unfold _fetch_file, os_path_exists. io_unfold.
  destruct (node_at w data_dir); [|congruence]. simpl.
  rewrite Hfile. simpl.
  unfold download, download_suite, urlopen. io_unfold. simpl.
  assert (Hreq : forall line,
    requests (World (cwd w) (fs w) (handles w) (trace w ++ [EvPrint line]))
    = requests w).
  { intros line. unfold requests. simpl. rewrite omap_app. simpl.
    apply app_nil_r. }
  rewrite Hreq, Hnet. unfold except_clauses. io_unfold.
  destruct (issubclass (exn_class_of e) HTTPError);
    [|destruct (issubclass (exn_class_of e) URLError)];
    simpl; eexists; (split; [reflexivity|]); simpl;
    (split; [reflexivity|]); (split; [reflexivity|]);
    unfold requests; simpl; rewrite !omap_app; simpl;
    by rewrite ?app_nil_r.
Qed.

End Cache.

Lemma fetch_file_cache_hit_witness :
  @_fetch_file example_env "http://h/ok.txt" "/home/u/Data/" cached_world
  = (Ret (Some (os_path_join "/home/u/Data/" (os_path_basename "http://h/ok.txt"))),
     cached_world).
Proof.
  apply (@fetch_file_cache_hit example_env "http://h/ok.txt" "/home/u/Data/"
           cached_world); vm_compute; discriminate.
Defined.

Lemma fetch_file_request_failure_witness :
  exists w',
    @_fetch_file example_env "http://h/missing.txt" "/home/u/Data/" cached_world
    = (Raise (unbound_local "local_file"), w') /\
    fs w' = fs cached_world /\ handles w' = handles cached_world /\
    requests w' = requests cached_world ++ ["http://h/missing.txt"].
Proof.
  apply (@fetch_file_request_failure example_env "http://h/missing.txt"
           "/home/u/Data/" cached_world
           (Exn HTTPError "HTTP Error 404: Not Found"));
    [vm_compute; discriminate | vm_compute; reflexivity | vm_compute; reflexivity].
Defined.

Lemma fetch_file_closes_local_file_witness :
  let run := @_fetch_file example_env "http://h/cut.txt" "/home/u/Data/" empty_world in
  handles run.2 = handles empty_world /\
  exists evs, trace run.2 = trace empty_world ++ evs /\
    forall f, In (EvOpen f) evs -> exists evs', evs = evs' ++ [EvClose f].
Proof.
  intros run.
  apply (@fetch_file_closes_local_file example_env "http://h/cut.txt"
           "/home/u/Data/" empty_world run.1 run.2).
  vm_compute. reflexivity.
Defined.

(** ** Extraction *)

Section Extraction.
Context `{Environment}.

(** X4: on a path that ends in [.zip], [_uncompress_file] always fails:
    looking up [zipfile.Zipfile] raises [AttributeError], which is reported
    and raised again; no file is read, written or removed, whatever the file
    holds and whether or not it exists. *)
Theorem uncompress_zip_always_fails file_ delete_archive w :
  endswith file_ ".zip" = true ->
  _uncompress_file (Some file_) delete_archive w
  = (Raise (attribute_error "'module' object has no attribute 'Zipfile'"),
     World (cwd w) (fs w) (handles w)
       (trace w ++
        [EvPrint ("extracting data from " +:+ file_ +:+ "...");
         EvPrint "error:  'module' object has no attribute 'Zipfile'"])).
Proof.
  intros Hzip. unfold _uncompress_file. io_unfold. simpl.
  rewrite Hzip. simpl. by rewrite <- app_assoc.
Qed.

(** X5: on a path that ends in [.txt], [_uncompress_file] reports and
    returns; the file is kept, also when [delete_archive] is set, and whether
    or not it exists. *)
Theorem uncompress_txt_keeps_file file_ delete_archive w :
  endswith file_ ".txt" = true ->
  _uncompress_file (Some file_) delete_archive w
  = (Ret tt,
     World (cwd w) (fs w) (handles w)
       (trace w ++
        [EvPrint ("extracting data from " +:+ file_ +:+ "...");
         EvPrint "   ...done."])).
Proof.
  intros Htxt. unfold _uncompress_file. io_unfold. simpl.
  rewrite (endswith_txt_not_zip _ Htxt), (endswith_txt_not_gz _ Htxt), Htxt.
  rewrite andb_false_r. simpl. by rewrite <- app_assoc.
Qed.

(** X6: whatever [_uncompress_file] does, it makes no request to the
    network. *)
Theorem uncompress_file_offline file_ delete_archive w r w' :
  _uncompress_file file_ delete_archive w = (r, w') ->
  requests w' = requests w.
Proof.
  intros E. apply (emits_no_request extract_output).
  - intros ev []; exact id.
  - eapply uncompress_file_emits; eauto.
Qed.

End Extraction.

Lemma uncompress_zip_always_fails_witness :
  @_uncompress_file example_env (Some "/home/u/Data/a.zip") true cached_world
  = (Raise (attribute_error "'module' object has no attribute 'Zipfile'"),
     World (cwd cached_world) (fs cached_world) (handles cached_world)
       (trace cached_world ++
        [EvPrint ("extracting data from " +:+ "/home/u/Data/a.zip" +:+ "...");
         EvPrint "error:  'module' object has no attribute 'Zipfile'"])).
Proof.
  apply (@uncompress_zip_always_fails example_env "/home/u/Data/a.zip" true
           cached_world).
  vm_compute. reflexivity.
Defined.

Lemma uncompress_txt_keeps_file_witness :
  @_uncompress_file example_env (Some "/home/u/Data/ok.txt") true cached_world
  = (Ret tt,
     World (cwd cached_world) (fs cached_world) (handles cached_world)
       (trace cached_world ++
        [EvPrint ("extracting data from " +:+ "/home/u/Data/ok.txt" +:+ "...");
         EvPrint "   ...done."])).
Proof.
  apply (@uncompress_txt_keeps_file example_env "/home/u/Data/ok.txt" true
           cached_world).
  vm_compute. reflexivity.
Defined.

Lemma uncompress_file_offline_witness :
  let run := @_uncompress_file example_env (Some "/home/u/Data/a.zip") true
               cached_world in
  requests run.2 = requests cached_world.
Proof.
  intros run.
  apply (@uncompress_file_offline example_env (Some "/home/u/Data/a.zip") true
           cached_world run.1 run.2).
  vm_compute. reflexivity.
Defined.

(** ** Looking a dataset up *)

Lemma get_dataset_dir_eq dataset_name data_dir w :
  _get_dataset_dir dataset_name data_dir w
  = (Ret (dataset_path (cwd w) dataset_name data_dir), w).
Proof.
  unfold _get_dataset_dir, dataset_path, os_getcwd. io_unfold.
  by destruct (falsy data_dir).
Qed.

Lemma get_loop_found data_dir file_names file_paths w :
  (forall file_name, In file_name file_names ->
     node_at w (os_path_join data_dir file_name) <> None) ->
  get_loop data_dir file_names file_paths w
  = (Ret (file_paths ++ map (os_path_join data_dir) file_names), w).
Proof.
  revert file_paths.
  induction file_names as [|file_name file_names IH]; intros file_paths Hall.
  - simpl. by rewrite app_nil_r.
  - simpl. unfold os_path_exists. io_unfold.
    destruct (node_at w (os_path_join data_dir file_name)) eqn:E.
    + simpl. rewrite IH; [by rewrite <- app_assoc|].
      intros f Hf. apply Hall. by right.
    + exfalso. apply (Hall file_name); [by left | assumption].
Qed.

Lemma get_loop_missing data_dir found missing rest file_paths w :
  (forall file_name, In file_name found ->
     node_at w (os_path_join data_dir file_name) <> None) ->
  node_at w (os_path_join data_dir missing) = None ->
  get_loop data_dir (found ++ missing :: rest) file_paths w
  = (Raise (io_error ("No such file: '" +:+ os_path_join data_dir missing +:+ "'")),
     w).
Proof.
  revert file_paths.
  induction found as [|file_name found IH]; intros file_paths Hall Hmiss.
  - simpl. unfold os_path_exists. io_unfold. by rewrite Hmiss.
  - simpl. unfold os_path_exists. io_unfold.
    destruct (node_at w (os_path_join data_dir file_name)) eqn:E.
    + simpl. apply IH; [|assumption]. intros f Hf. apply Hall. by right.
    + exfalso. apply (Hall file_name); [by left | assumption].
Qed.

(** X7: when every file of the list exists in the directory of the dataset,
    [_get_dataset] returns their paths, in the order of the list, and
    changes nothing. *)
Theorem get_dataset_found dataset_name file_names data_dir w :
  (forall file_name, In file_name file_names ->
     node_at w (os_path_join (dataset_path (cwd w) dataset_name data_dir) file_name)
     <> None) ->
  _get_dataset dataset_name file_names data_dir w
  = (Ret (map (os_path_join (dataset_path (cwd w) dataset_name data_dir)) file_names),
     w).
Proof.
  intros Hall. unfold _get_dataset. unfold mbind, io_mbind, io_bind.
  rewrite get_dataset_dir_eq. by rewrite get_loop_found.
Qed.

(** X8: when a file of the list is missing, [_get_dataset] raises [IOError]
    for the first missing one, named with its full path, and changes
    nothing: it creates and downloads nothing. *)
Theorem get_dataset_first_missing dataset_name found missing rest data_dir w :
  (forall file_name, In file_name found ->
     node_at w (os_path_join (dataset_path (cwd w) dataset_name data_dir) file_name)
     <> None) ->
  node_at w (os_path_join (dataset_path (cwd w) dataset_name data_dir) missing)
  = None ->
  _get_dataset dataset_name (found ++ missing :: rest) data_dir w
  = (Raise (io_error
       ("No such file: '"
        +:+ os_path_join (dataset_path (cwd w) dataset_name data_dir) missing
        +:+ "'")),
     w).
Proof.
  intros Hall Hmiss. unfold _get_dataset. unfold mbind, io_mbind, io_bind.
  rewrite get_dataset_dir_eq. by apply get_loop_missing.
Qed.

Lemma get_dataset_found_witness :
  _get_dataset "" ["ok.txt"; "a.zip"] None cached_world
  = (Ret (map (os_path_join (dataset_path (cwd cached_world) "" None))
            ["ok.txt"; "a.zip"]),
     cached_world).
Proof.
  apply (get_dataset_found "" ["ok.txt"; "a.zip"] None cached_world).
  intros file_name [<-|[<-|[]]]; vm_compute; discriminate.
Defined.

Lemma get_dataset_first_missing_witness :
  _get_dataset "" (["ok.txt"] ++ "b.npy" :: ["a.zip"]) None cached_world
  = (Raise (io_error
       ("No such file: '"
        +:+ os_path_join (dataset_path (cwd cached_world) "" None) "b.npy"
        +:+ "'")),
     cached_world).
Proof.
  apply (get_dataset_first_missing "" ["ok.txt"] "b.npy" ["a.zip"] None
           cached_world).
  - intros file_name [<-|[]]; vm_compute; discriminate.
  - vm_compute. reflexivity.
Defined.

(** ** Acquiring a dataset *)

Section Acquisition.
Context `{Environment}.

(** The path that [_fetch_file] returns is the data directory joined with
    the last component of the URL. *)
Lemma fetch_file_returns_path url data_dir w name w' :
  _fetch_file url data_dir w = (Ret (Some name), w') ->
  name = os_path_join data_dir (os_path_basename url).
Proof.
  unfold _fetch_file. intros E.
  apply io_bind_ret_inv in E as (there & w1 & _ & E).
  apply io_bind_ret_inv in E as (u & w2 & _ & E).
  apply io_bind_ret_inv in E as (cached & w3 & _ & E).
  destruct (negb cached); [|by injection E as <- _].
  unfold download in E.
  destruct (download_suite _ _ w3) as [[r1 local_file] w4].
  destruct (except_clauses _ _ r1 w4) as [r2 w5] eqn:E2.
  unfold finally_close in E. destruct local_file as [f|]; [|discriminate].
  apply io_bind_ret_inv in E as (u' & w6 & _ & [= -> _]).
  unfold except_clauses in E2. destruct r1 as [?|e].
  - by injection E2 as <- _.
  - destruct (issubclass _ HTTPError).
    { apply io_bind_ret_inv in E2 as (? & ? & _ & [=]). }
    destruct (issubclass _ URLError).
    { apply io_bind_ret_inv in E2 as (? & ? & _ & [=]). }
    discriminate.
Qed.

Lemma node_at_empty w : node_at w "" = None.
Proof. reflexivity. Qed.

Lemma falsy_stored w name :
  node_at w name <> None -> falsy (Some name) = false.
Proof.
  intros Hnode. simpl. destruct (String.eqb_spec name ""); [|reflexivity].
  subst. by rewrite node_at_empty in Hnode.
Qed.

Lemma fetch_loop_all_cached data_dir urls files w :
  node_at w data_dir <> None ->
  (forall url, In url urls ->
     node_at w (os_path_join data_dir (os_path_basename url)) <> None) ->
  fetch_loop data_dir false urls files w
  = (Ret (files ++
          map (fun url =>
                 (os_path_splitext (os_path_join data_dir (os_path_basename url))).1)
              urls),
     w).
Proof.
  intros Hdir. revert files.
  induction urls as [|url urls IH]; intros files Hall.
  - simpl. by rewrite app_nil_r.
  - simpl. unfold mbind, io_mbind, io_bind.
    rewrite fetch_file_cached; [|assumption|apply Hall; by left].
    rewrite (falsy_stored w); [|apply Hall; by left].
    simpl. unfold lift, splitext_root.
    rewrite IH; [by rewrite <- app_assoc|].
    intros u Hu. apply Hall. by right.
Qed.

(** X9: with [uncompress] off, when the directory of the dataset exists and
    already holds a file for every URL, [_fetch_dataset] returns the local
    path of each URL without its last extension, in the order of the URLs,
    and does nothing else: it makes no request and changes no file. *)
Theorem fetch_dataset_all_cached dataset_name urls data_dir w :
  node_at w (dataset_path (cwd w) dataset_name data_dir) <> None ->
  (forall url, In url urls ->
     node_at w (os_path_join (dataset_path (cwd w) dataset_name data_dir)
                             (os_path_basename url)) <> None) ->
  _fetch_dataset dataset_name urls data_dir false w
  = (Ret (map (fun url =>
                 (os_path_splitext
                    (os_path_join (dataset_path (cwd w) dataset_name data_dir)
                                  (os_path_basename url))).1)
              urls),
     w).
Proof.
  intros Hdir Hall. unfold _fetch_dataset. unfold mbind, io_mbind, io_bind.
  rewrite get_dataset_dir_eq. unfold os_path_exists.
  destruct (node_at w _) eqn:E; [|congruence]. simpl.
  unfold mret, io_mret, io_ret.
  rewrite fetch_loop_all_cached; [reflexivity| |assumption].
  by rewrite E.
Qed.

(** Handed [None], [_uncompress_file] prints its first message and fails
    on [os.path.dirname(None)]. *)
Lemma uncompress_file_none delete_archive w :
  _uncompress_file None delete_archive w
  = (Raise (none_has_no_attribute "rfind"),
     World (cwd w) (fs w) (handles w)
       (trace w ++ [EvPrint "extracting data from None..."])).
Proof. reflexivity. Qed.

(** Once [_fetch_file] has returned [None], the iteration ends with an
    exception: the loop does not go on to the next URL. *)
Lemma fetch_loop_after_none data_dir uncompress url urls files w w1 :
  _fetch_file url data_dir w = (Ret None, w1) ->
  exists e w', fetch_loop data_dir uncompress (url :: urls) files w = (Raise e, w').
Proof.
  intros E. simpl. unfold mbind, io_mbind, io_bind. rewrite E.
  unfold when, print, log. simpl.
  destruct (shutil_rmtree data_dir _) as [[u'|e] w3]; [|eauto].
  destruct uncompress; simpl.
  - unfold try_except. rewrite uncompress_file_none.
    match goal with
    | |- context [_fetch_file url data_dir ?w0] =>
        destruct (_fetch_file url data_dir w0) as [[?|e3] w6]; [|eauto]
    end.
    rewrite uncompress_file_none. eauto.
  - unfold mret, io_mret, io_ret, lift. simpl. eauto.
Qed.

Lemma fetch_loop_result data_dir uncompress urls files w out w' :
  fetch_loop data_dir uncompress urls files w = (Ret out, w') ->
  out = files ++
        map (fun url =>
               (os_path_splitext (os_path_join data_dir (os_path_basename url))).1)
            urls.
Proof.
  revert files w. induction urls as [|url urls IH]; intros files w E.
  - injection E as <- _. by rewrite app_nil_r.
  - destruct (_fetch_file url data_dir w) as [[[name|]|e] w1] eqn:E1.
    + apply fetch_file_returns_path in E1 as Hname. subst name.
      simpl in E. apply io_bind_ret_inv in E as (name' & w2 & E2 & E).
      rewrite E1 in E2. injection E2 as <- <-.
      apply io_bind_ret_inv in E as (? & w3 & _ & E).
      apply io_bind_ret_inv in E as (? & w4 & _ & E).
      apply io_bind_ret_inv in E as (base & w5 & [= <- _] & E).
      apply IH in E. rewrite E. by rewrite <- app_assoc.
    + destruct (fetch_loop_after_none data_dir uncompress url urls files w w1 E1)
        as (e & w'' & E'). congruence.
    + simpl in E. apply io_bind_ret_inv in E as (? & ? & E2 & _). congruence.
Qed.

(** X10: when [_fetch_dataset] returns, its result has one entry for each
    URL, in the order of the URLs: the data directory joined with the last
    component of the URL, without its last extension. *)
Theorem fetch_dataset_result dataset_name urls data_dir uncompress w out w' :
  _fetch_dataset dataset_name urls data_dir uncompress w = (Ret out, w') ->
  out = map (fun url =>
               (os_path_splitext
                  (os_path_join (dataset_path (cwd w) dataset_name data_dir)
                                (os_path_basename url))).1)
            urls.
Proof.
  unfold _fetch_dataset. intros E.
  apply io_bind_ret_inv in E as (dd & w1 & E1 & E).
  rewrite get_dataset_dir_eq in E1. injection E1 as <- <-.
  apply io_bind_ret_inv in E as (there & w2 & _ & E).
  apply io_bind_ret_inv in E as (u & w3 & _ & E).
  by apply fetch_loop_result in E.
Qed.

End Acquisition.

Lemma fetch_dataset_all_cached_witness :
  @_fetch_dataset example_env "" ["http://h/a.zip"; "http://h/ok.txt"] None false
    cached_world
  = (Ret (map (fun url =>
                 (os_path_splitext
                    (os_path_join (dataset_path (cwd cached_world) "" None)
                                  (os_path_basename url))).1)
              ["http://h/a.zip"; "http://h/ok.txt"]),
     cached_world).
Proof.
  apply (@fetch_dataset_all_cached example_env "" ["http://h/a.zip"; "http://h/ok.txt"]
           None cached_world).
  - vm_compute. discriminate.
  - intros url [<-|[<-|[]]]; vm_compute; discriminate.
Defined.

Lemma fetch_dataset_result_witness :
  let run := @_fetch_dataset example_env "" ["http://h/b.gz"; "http://h/ok.txt"]
               None true empty_world in
  run.1 = Ret ["/home/u/Data/b"; "/home/u/Data/ok"] /\
  ["/home/u/Data/b"; "/home/u/Data/ok"]
  = map (fun url =>
           (os_path_splitext
              (os_path_join (dataset_path (cwd empty_world) "" None)
                            (os_path_basename url))).1)
        ["http://h/b.gz"; "http://h/ok.txt"].
Proof.
  intros run. split; [vm_compute; reflexivity|].
  apply (@fetch_dataset_result example_env "" ["http://h/b.gz"; "http://h/ok.txt"]
           None true empty_world ["/home/u/Data/b"; "/home/u/Data/ok"] run.2).
  vm_compute. reflexivity.
Defined.

(** ** The second try *)

Lemma stdout_app w evs :
  omap (fun ev => match ev with EvPrint l => Some l | _ => None end)
       (trace w ++ evs)
  = stdout w
    ++ omap (fun ev => match ev with EvPrint l => Some l | _ => None end) evs.
Proof. unfold stdout. apply omap_app. Qed.

(** Events other than the retry message leave the count of retries. *)
Lemma emits_no_retry (P : event -> Prop) w w' :
  (forall ev, P ev -> ev <> EvPrint retry_message) ->
  emits P w w' -> retries w' = retries w.
Proof.
  intros HP (evs & E & F). unfold retries. unfold stdout at 1.
  rewrite E, stdout_app, count_occ_app.
  rewrite <- (Nat.add_0_r (count_occ _ (stdout w) _)) at 2. f_equal. clear E.
  induction F as [|ev evs Hev _ IH]; [reflexivity|].
  destruct ev; try exact IH.
  change (count_occ string_dec
            (line :: omap (fun ev => match ev with EvPrint l => Some l | _ => None end) evs)
            retry_message = 0%nat).
  rewrite count_occ_cons_neq; [exact IH|].
  intros ->. by apply (HP _ Hev).
Qed.

Lemma read_output_no_retry ev : read_output ev -> ev <> EvPrint retry_message.
Proof.
  destruct 1; intros E;
    first [discriminate | cbv [String.append retry_message] in E; discriminate].
Qed.

Lemma fetch_output_no_retry ev : fetch_output ev -> ev <> EvPrint retry_message.
Proof.
  destruct 1 as [| | | | | |ev [] |ev Hev]; intros E;
    first [ discriminate
          | by apply (read_output_no_retry _ Hev)
          | cbv [String.append retry_message] in E; discriminate ].
Qed.

Lemma extract_output_no_retry ev : extract_output ev -> ev <> EvPrint retry_message.
Proof.
  destruct 1; intros E;
    first [discriminate | cbv [String.append retry_message] in E; discriminate].
Qed.

Lemma retries_print_retry w :
  retries (World (cwd w) (fs w) (handles w) (trace w ++ [EvPrint retry_message]))
  = S (retries w).
Proof.
  unfold retries, stdout. cbn [trace]. rewrite omap_app, count_occ_app.
  change (omap _ [EvPrint retry_message]) with [retry_message].
  rewrite (count_occ_cons_eq string_dec [] (eq_refl retry_message)).
  simpl. lia.
Qed.

Lemma os_path_join_empty a b : os_path_join a b = "" -> a = "".
Proof.
  unfold os_path_join. destruct (startswith b "/") eqn:Hb.
  - intros ->. discriminate.
  - destruct (String.eqb_spec a ""); [done|]. simpl.
    destruct (endswith a "/"); destruct a; try done; discriminate.
Qed.

Section SecondTry.
Context `{Environment}.

Lemma fetch_file_returns_nonempty url data_dir w name w' :
  _fetch_file url data_dir w = (Ret (Some name), w') -> name <> "".
Proof.
  intros E Hname. apply fetch_file_returns_path in E as Hpath.
  rewrite Hpath in Hname. clear Hpath.
  apply os_path_join_empty in Hname. rewrite Hname in E.
  unfold _fetch_file in E.
  apply io_bind_ret_inv in E as (there & w1 & [= <- <-] & E).
  apply io_bind_ret_inv in E as (u & w2 & E & _).
  discriminate.
Qed.

(** X11: in [_fetch_dataset] with [uncompress] on, when the first extraction
    of a file fails, the retry message is printed, the same URL is fetched
    again and the same file is extracted again, once. An exception of the
    second fetch or of the second extraction ends the whole acquisition,
    whatever URLs are left; when the second extraction succeeds the loop goes
    on with the next URL. In both cases the retry message was printed
    exactly once more. *)
Theorem fetch_loop_retries_once data_dir url urls files w name w1 e1 w2 :
  _fetch_file url data_dir w = (Ret (Some name), w1) ->
  _uncompress_file (Some name) true w1 = (Raise e1, w2) ->
  let again :=
    World (cwd w2) (fs w2) (handles w2) (trace w2 ++ [EvPrint retry_message]) in
  (forall e3 w3,
     _fetch_file url data_dir again = (Raise e3, w3) ->
     fetch_loop data_dir true (url :: urls) files w = (Raise e3, w3)) /\
  (forall v w3 e2 w4,
     _fetch_file url data_dir again = (Ret v, w3) ->
     _uncompress_file (Some name) true w3 = (Raise e2, w4) ->
     fetch_loop data_dir true (url :: urls) files w = (Raise e2, w4) /\
     retries w4 = S (retries w)) /\
  (forall v w3 u w4,
     _fetch_file url data_dir again = (Ret v, w3) ->
     _uncompress_file (Some name) true w3 = (Ret u, w4) ->
     fetch_loop data_dir true (url :: urls) files w
     = fetch_loop data_dir true urls (files ++ [(os_path_splitext name).1]) w4 /\
     retries w4 = S (retries w)).
Proof.
  intros E1 E2 again.
  assert (Hname := fetch_file_returns_nonempty _ _ _ _ _ E1).
  assert (Hfalsy : falsy (Some name) = false).
  { simpl. by destruct (String.eqb_spec name ""). }
  assert (R1 : retries w1 = retries w).
  { apply (emits_no_retry fetch_output); [apply fetch_output_no_retry|].
    eapply fetch_file_emits; eauto. }
  assert (R2 : retries w2 = retries w1).
  { apply (emits_no_retry extract_output); [apply extract_output_no_retry|].
    eapply uncompress_file_emits; eauto. }
  assert (R3 : retries again = S (retries w)).
  { unfold again. rewrite retries_print_retry. congruence. }
  assert (Hloop : fetch_loop data_dir true (url :: urls) files w
    = (_ ← _fetch_file url data_dir;
       _ ← _uncompress_file (Some name) true;
       fetch_loop data_dir true urls (files ++ [(os_path_splitext name).1])) again).
  { simpl. unfold mbind, io_mbind, io_bind. rewrite E1, Hfalsy. simpl.
    unfold try_except. rewrite E2. unfold print, log. simpl.
    match goal with
    | |- context [_fetch_file url data_dir ?w0] => change w0 with again
    end.
    destruct (_fetch_file url data_dir again) as [[v|e3] w3]; [|reflexivity].
    destruct (_uncompress_file (Some name) true w3) as [[u|e2] w4]; reflexivity. }
  rewrite Hloop. unfold mbind, io_mbind, io_bind.
  assert (R4 : forall v w3 r w4,
    _fetch_file url data_dir again = (Ret v, w3) ->
    _uncompress_file (Some name) true w3 = (r, w4) ->
    retries w4 = S (retries w)).
  { intros v w3 r w4 E3 E4. rewrite <- R3. transitivity (retries w3).
    - apply (emits_no_retry extract_output); [apply extract_output_no_retry|].
      eapply uncompress_file_emits; eauto.
    - apply (emits_no_retry fetch_output); [apply fetch_output_no_retry|].
      eapply fetch_file_emits; eauto. }
  split; [|split].
  - intros e3 w3 E3. by rewrite E3.
  - intros v w3 e2 w4 E3 E4. split; [by rewrite E3, E4 | eauto].
  - intros v w3 u w4 E3 E4. split; [by rewrite E3, E4 | eauto].
Qed.

End SecondTry.

Lemma fetch_loop_retries_once_witness :
  let w := cached_world in
  let w1 := (@_fetch_file example_env "http://h/a.zip" "/home/u/Data/" w).2 in
  let run := @_uncompress_file example_env (Some "/home/u/Data/a.zip") true w1 in
  let again :=
    World (cwd run.2) (fs run.2) (handles run.2)
          (trace run.2 ++ [EvPrint retry_message]) in
  (forall e3 w3,
     @_fetch_file example_env "http://h/a.zip" "/home/u/Data/" again = (Raise e3, w3) ->
     @fetch_loop example_env "/home/u/Data/" true
        ("http://h/a.zip" :: ["http://h/ok.txt"]) [] w = (Raise e3, w3)) /\
  (forall v w3 e2 w4,
     @_fetch_file example_env "http://h/a.zip" "/home/u/Data/" again = (Ret v, w3) ->
     @_uncompress_file example_env (Some "/home/u/Data/a.zip") true w3 = (Raise e2, w4) ->
     @fetch_loop example_env "/home/u/Data/" true
        ("http://h/a.zip" :: ["http://h/ok.txt"]) [] w = (Raise e2, w4) /\
     retries w4 = S (retries w)) /\
  (forall v w3 u w4,
     @_fetch_file example_env "http://h/a.zip" "/home/u/Data/" again = (Ret v, w3) ->
     @_uncompress_file example_env (Some "/home/u/Data/a.zip") true w3 = (Ret u, w4) ->
     @fetch_loop example_env "/home/u/Data/" true
        ("http://h/a.zip" :: ["http://h/ok.txt"]) [] w
     = @fetch_loop example_env "/home/u/Data/" true ["http://h/ok.txt"]
         ([] ++ [(os_path_splitext "/home/u/Data/a.zip").1]) w4 /\
     retries w4 = S (retries w)).
Proof.
  intros w w1 run again.
  apply (@fetch_loop_retries_once example_env "/home/u/Data/" "http://h/a.zip"
           ["http://h/ok.txt"] [] w "/home/u/Data/a.zip" w1
           (Exn AttributeError "'module' object has no attribute 'Zipfile'") run.2);
    vm_compute; reflexivity.
Defined.

(** ** Directories *)

Lemma dirs_kept_lookup w w' :
  (forall k, fs w !! k = Some Dir -> fs w' !! k = Some Dir) -> dirs_kept w w'.
Proof.
  intros Hk q. unfold is_dir, node_at.
  destruct (String.eqb q ""); [done|]. destruct (all_slashes q); [done|].
  destruct (fs w !! strip_trailing_slashes q) as [[|c]|] eqn:E.
  - by rewrite (Hk _ E).
  - by destruct (endswith q "/").
  - done.
Qed.

Lemma dirs_kept_same_fs w w' : fs w' = fs w -> dirs_kept w w'.
Proof. intros E. apply dirs_kept_lookup. by rewrite E. Qed.

Lemma dirs_kept_log ev : steps dirs_kept (log ev).
Proof. intros w r w' [= <- <-]. by apply dirs_kept_same_fs. Qed.

Lemma dirs_kept_set_handles f : steps dirs_kept (set_handles f).
Proof. intros w r w' [= <- <-]. by apply dirs_kept_same_fs. Qed.

Lemma dirs_kept_file_write f data : steps dirs_kept (file_write f data).
Proof.
  intros w r w' [= <- <-]. apply dirs_kept_lookup. simpl. intros k Hk.
  rewrite lookup_alter. case_decide; [subst|assumption]. by rewrite Hk.
Qed.

Lemma dirs_kept_file_close f : steps dirs_kept (file_close f).
Proof. intros w r w' [= <- <-]. by apply dirs_kept_same_fs. Qed.

Lemma foldl_add_dir_keeps (m : gmap string node) (qs : list string) (k : string) :
  m !! k = Some Dir -> foldl add_dir m qs !! k = Some Dir.
Proof.
  revert m. induction qs as [|q qs IH]; intros m Hk; [assumption|].
  simpl. apply IH. unfold add_dir. rewrite lookup_insert.
  case_decide; [reflexivity | assumption].
Qed.

Lemma dirs_kept_os_makedirs p : steps dirs_kept (os_makedirs p).
Proof.
  intros w r w' E. unfold os_makedirs in E.
  destruct (String.eqb p ""); [injection E as <- <-; reflexivity|].
  destruct (node_at w _); [injection E as <- <-; reflexivity|].
  destruct (existsb _ _); [injection E as <- <-; reflexivity|].
  injection E as <- <-. apply dirs_kept_lookup. simpl. intros k Hk.
  unfold add_dir at 1. rewrite lookup_insert.
  case_decide; [reflexivity|]. by apply foldl_add_dir_keeps.
Qed.

Lemma writable_at_not_dir w p k :
  writable_at w p = true -> fs w !! k = Some Dir -> k <> strip_trailing_slashes p.
Proof.
  unfold writable_at. intros Hw Hk ->.
  apply andb_prop in Hw as [Hw _]. apply andb_prop in Hw as [Hw Hd].
  apply andb_prop in Hw as [Hp _].
  apply negb_true_iff in Hd. unfold is_dir, node_at in Hd.
  destruct (String.eqb p ""); [discriminate|].
  destruct (all_slashes p); [discriminate|]. by rewrite Hk in Hd.
Qed.

Lemma dirs_kept_open_for_writing p : steps dirs_kept (open_for_writing p).
Proof.
  intros w r w' E. unfold open_for_writing in E.
  destruct (writable_at w p) eqn:Hw; [|injection E as <- <-; reflexivity].
  injection E as <- <-. apply dirs_kept_lookup. simpl. intros k Hk.
  rewrite lookup_insert_ne; [assumption|].
  intros Heq. by apply (writable_at_not_dir w p k).
Qed.

Lemma dirs_kept_urlopen `{Environment} url : steps dirs_kept (urlopen url).
Proof.
  intros w r w' E. unfold urlopen in E. revert E.
  apply steps_bind; [apply _ | apply dirs_kept_log |].
  intros _. apply steps_lift, _.
Qed.

Lemma dirs_kept_read_loop reads local_file report_hook total_size bytes_so_far :
  steps dirs_kept (read_loop reads local_file report_hook total_size bytes_so_far).
Proof.
  revert bytes_so_far.
  induction reads as [|[chunk|e] reads IH]; intros bytes_so_far; simpl.
  - apply steps_when; [apply _ | apply dirs_kept_log].
  - destruct (String.eqb chunk "").
    + apply steps_when; [apply _ | apply dirs_kept_log].
    + apply steps_bind; [apply _ | apply dirs_kept_file_write |].
      intros _. apply steps_bind; [apply _ | | intros _; apply IH].
      apply steps_when; [apply _ |]. unfold _chunk_report_.
      destruct total_size as [total|];
        [destruct (total =? 0);
           [|destruct (float_overflows total); [apply steps_raise, _|]]|];
        apply dirs_kept_log.
  - apply steps_raise, _.
Qed.

Lemma dirs_kept_chunk_read resp local_file report_hook :
  steps dirs_kept (_chunk_read_ resp local_file report_hook).
Proof.
  unfold _chunk_read_.
  apply steps_bind; [apply _ | apply steps_lift, _ |]. intros header.
  apply steps_bind; [apply _ | | intros total; apply dirs_kept_read_loop].
  apply steps_try_except; [apply _ | |].
  - apply steps_bind; [apply _ | apply steps_lift, _ |].
    intros v. apply steps_ret, _.
  - intros e. apply steps_bind; [apply _ | | intros _; apply steps_ret, _].
    apply dirs_kept_log.
Qed.

Lemma dirs_kept_except_clauses url full_name r :
  steps dirs_kept (except_clauses url full_name r).
Proof.
  unfold except_clauses. destruct r as [?|e]; [apply steps_ret, _|].
  destruct (issubclass _ HTTPError).
  { apply steps_bind; [apply _ | | intros _; apply steps_ret, _].
    apply dirs_kept_log. }
  destruct (issubclass _ URLError).
  { apply steps_bind; [apply _ | | intros _; apply steps_ret, _].
    apply dirs_kept_log. }
  apply steps_raise, _.
Qed.

Lemma dirs_kept_finally_close local_file r :
  steps dirs_kept (finally_close local_file r).
Proof.
  unfold finally_close. destruct local_file as [f|]; [|apply steps_raise, _].
  apply steps_bind; [apply _ | apply dirs_kept_file_close |].
  intros _. apply steps_lift, _.
Qed.

Section Directories.
Context `{Environment}.

(** When the suite of the [try] statement has bound [local_file], the file
    was opened in a directory that exists, and that directory is there when
    the suite is left. *)
Lemma download_suite_parent url full_name w r f w' :
  download_suite url full_name w = (r, Some f, w') ->
  os_path_dirname full_name = "" \/ is_dir w' (os_path_dirname full_name) = true.
Proof.
  unfold download_suite. intros E.
  destruct (print _ w) as [r0 w0] eqn:E0.
  destruct (urlopen url w0) as [[data|e] w1] eqn:E1; [|discriminate].
  destruct (open_for_writing full_name w1) as [[f'|e] w2] eqn:E2; [|discriminate].
  destruct ((_ ← _chunk_read_ data f' true; print _) w2) as [r3 w3] eqn:E3.
  injection E as <- <- <-.
  assert (Hw : writable_at w1 full_name = true).
  { unfold open_for_writing in E2. by destruct (writable_at w1 full_name). }
  unfold writable_at in Hw. apply andb_prop in Hw as [_ Hw].
  apply orb_prop in Hw as [Hw|Hw]; [left; by apply String.eqb_eq|]. right.
  assert (K2 : dirs_kept w1 w2) by (eapply dirs_kept_open_for_writing; eauto).
  assert (K3 : dirs_kept w2 w3).
  { revert E3. apply steps_bind; [apply _ | apply dirs_kept_chunk_read |].
    intros _. apply dirs_kept_log. }
  apply K3, K2, Hw.
Qed.

Lemma download_none_parent url full_name w w' :
  download url full_name w = (Ret None, w') ->
  os_path_dirname full_name = "" \/ is_dir w' (os_path_dirname full_name) = true.
Proof.
  unfold download. intros E.
  destruct (download_suite url full_name w) as [[r1 local_file] w1] eqn:E1.
  destruct (except_clauses url full_name r1 w1) as [r2 w2] eqn:E2.
  destruct local_file as [f|]; [|discriminate].
  apply download_suite_parent in E1 as [E1|E1]; [by left | right].
  assert (K2 : dirs_kept w1 w2) by (eapply dirs_kept_except_clauses; eauto).
  assert (K3 : dirs_kept w2 w') by (eapply dirs_kept_finally_close; eauto).
  apply K3, K2, E1.
Qed.

(** After [_fetch_file] has returned [None], the data directory exists. *)
Lemma fetch_file_none_is_dir url data_dir w w' :
  _fetch_file url data_dir w = (Ret None, w') -> is_dir w' data_dir = true.
Proof.
  unfold _fetch_file. intros E.
  apply io_bind_ret_inv in E as (there & w1 & [= <- <-] & E).
  apply io_bind_ret_inv in E as (u & w2 & E1 & E).
  assert (Hdir : data_dir <> "").
  { intros ->. discriminate. }
  apply io_bind_ret_inv in E as (cached & w3 & [= <- <-] & E).
  match type of E with context [if ?b then _ else _] => destruct b end;
    [|discriminate].
  apply download_none_parent in E.
  rewrite dirname_join in E by (assumption || apply basename_no_slash).
  destruct E as [E|E].
  - by apply strip_trailing_slashes_empty in E.
  - by apply is_dir_strip.
Qed.

End Directories.

Section Abort.
Context `{Environment}.

(** X12: when [_fetch_file] has returned [None] for a URL, the loop of
    [_fetch_dataset] prints its message and removes the data directory with
    all it holds; it then uses the [None] as a path, which raises
    [AttributeError]. With [uncompress] off the loop ends there with that
    exception. With [uncompress] on the exception is caught, the retry
    message is printed and the URL is fetched again: the loop ends with the
    exception of that fetch if it raises one, and otherwise with
    [AttributeError] again, the [None] being used a second time. No later
    URL is processed and no list is returned. *)
Theorem fetch_loop_failure_deletes_and_aborts data_dir (uncompress : bool) url w w1 :
  _fetch_file url data_dir w = (Ret None, w1) ->
  exists w2 e w',
    shutil_rmtree data_dir
      (World (cwd w1) (fs w1) (handles w1)
         (trace w1 ++ [EvPrint "An error occured, abort fetching"]))
    = (Ret tt, w2) /\
    (forall k, inside (strip_trailing_slashes data_dir) k = true ->
       fs w2 !! k = None) /\
    (exists evs, trace w' = trace w2 ++ evs) /\
    (if uncompress
     then
       let again :=
         printed "archive corrupted, trying to download it again"
                 (printed "extracting data from None..." w2) in
       _fetch_file url data_dir again = (Raise e, w') \/
       (e = none_has_no_attribute "rfind" /\
        exn_class_of e = AttributeError /\
        exists v w5,
          _fetch_file url data_dir again = (Ret v, w5) /\
          w' = printed "extracting data from None..." w5)
     else e = none_has_no_attribute "rfind" /\
          exn_class_of e = AttributeError /\ w' = w2) /\
    forall urls files,
      fetch_loop data_dir uncompress (url :: urls) files w = (Raise e, w').
Proof.
  intros E. assert (Hdir := fetch_file_none_is_dir _ _ _ _ E).
  set (w1' := World (cwd w1) (fs w1) (handles w1)
                (trace w1 ++ [EvPrint "An error occured, abort fetching"])).
  assert (Hdir' : is_dir w1' data_dir = true).
  { by rewrite (is_dir_same_fs w1). }
  set (w2 := World (cwd w1')
               (filter (fun kv => inside (strip_trailing_slashes data_dir) kv.1 = false)
                       (fs w1'))
               (handles w1') (trace w1' ++ [EvRmtree data_dir])).
  assert (Erm : shutil_rmtree data_dir w1' = (Ret tt, w2)).
  { unfold shutil_rmtree. by rewrite Hdir'. }
  assert (Hgone : forall k, inside (strip_trailing_slashes data_dir) k = true ->
                            fs w2 !! k = None).
  { intros k Hk. simpl. apply map_lookup_filter_None. right.
    intros x _. simpl. congruence. }
  assert (Hstep : forall urls files,
    fetch_loop data_dir uncompress (url :: urls) files w
    = (_ ← when uncompress
             (try_except (_uncompress_file None true)
                (fun _ =>
                   _ ← print "archive corrupted, trying to download it again";
                   _ ← _fetch_file url data_dir;
                   _uncompress_file None true));
       base ← lift (splitext_root None);
       fetch_loop data_dir uncompress urls (files ++ [base])) w2).
  { intros urls files. simpl. unfold mbind, io_mbind, io_bind. rewrite E.
    unfold when, print, log. change (falsy None) with true. cbv beta iota.
    match goal with
    | |- context [shutil_rmtree data_dir ?x] => change x with w1'
    end.
    by rewrite Erm. }
  exists w2. destruct uncompress.
  - set (w3 := World (cwd w2) (fs w2) (handles w2)
                 (trace w2 ++ [EvPrint "extracting data from None..."])).
    set (w4 := World (cwd w3) (fs w3) (handles w3)
                 (trace w3 ++ [EvPrint "archive corrupted, trying to download it again"])).
    destruct (_fetch_file url data_dir w4) as [[v|e3] w5] eqn:E5.
    + exists (none_has_no_attribute "rfind"),
        (World (cwd w5) (fs w5) (handles w5)
           (trace w5 ++ [EvPrint "extracting data from None..."])).
      split; [assumption|]. split; [assumption|]. split.
      * destruct (fetch_file_emits _ _ _ _ _ E5) as (evs & T & _).
        eexists. simpl. rewrite T. simpl. rewrite <- !app_assoc. reflexivity.
      * split.
        { right. split; [reflexivity|]. split; [reflexivity|].
          exists v, w5. split; [exact E5 | reflexivity]. }
        intros urls files. rewrite Hstep.
        unfold mbind, io_mbind, io_bind, when, try_except.
        rewrite uncompress_file_none. fold w3. unfold print, log. fold w4.
        rewrite E5. by rewrite uncompress_file_none.
    + exists e3, w5.
      split; [assumption|]. split; [assumption|]. split.
      * destruct (fetch_file_emits _ _ _ _ _ E5) as (evs & T & _).
        eexists. rewrite T. simpl. rewrite <- !app_assoc. reflexivity.
      * split; [left; exact E5|].
        intros urls files. rewrite Hstep.
        unfold mbind, io_mbind, io_bind, when, try_except.
        rewrite uncompress_file_none. fold w3. unfold print, log. fold w4.
        by rewrite E5.
  - exists (none_has_no_attribute "rfind"), w2.
    split; [assumption|]. split; [assumption|]. split.
    + exists []. by rewrite app_nil_r.
    + split; [by repeat split|].
      intros urls files. by rewrite Hstep.
Qed.

End Abort.

Lemma fetch_loop_failure_deletes_and_aborts_witness :
  let w1 := (@_fetch_file example_env "http://h/cut.txt" "/home/u/Data/"
               empty_world).2 in
  exists w2 e w',
    shutil_rmtree "/home/u/Data/"
      (World (cwd w1) (fs w1) (handles w1)
         (trace w1 ++ [EvPrint "An error occured, abort fetching"]))
    = (Ret tt, w2) /\
    (forall k, inside (strip_trailing_slashes "/home/u/Data/") k = true ->
       fs w2 !! k = None) /\
    (exists evs, trace w' = trace w2 ++ evs) /\
    (if true
     then
       let again :=
         printed "archive corrupted, trying to download it again"
                 (printed "extracting data from None..." w2) in
       @_fetch_file example_env "http://h/cut.txt" "/home/u/Data/" again
       = (Raise e, w') \/
       (e = none_has_no_attribute "rfind" /\
        exn_class_of e = AttributeError /\
        exists v w5,
          @_fetch_file example_env "http://h/cut.txt" "/home/u/Data/" again
          = (Ret v, w5) /\
          w' = printed "extracting data from None..." w5)
     else e = none_has_no_attribute "rfind" /\
          exn_class_of e = AttributeError /\ w' = w2) /\
    forall urls files,
      @fetch_loop example_env "/home/u/Data/" true ("http://h/cut.txt" :: urls)
        files empty_world = (Raise e, w').
Proof.
  intros w1.
  apply (@fetch_loop_failure_deletes_and_aborts example_env "/home/u/Data/" true
           "http://h/cut.txt" empty_world w1).
  vm_compute. reflexivity.
Defined.

(** ** What a download stores *)

Lemma read_loop_chunks local_file report_hook total_size chunks :
  Forall (fun chunk => chunk <> "") chunks ->
  (forall total, total_size = Some total -> float_overflows total = false) ->
  forall bytes_so_far w content,
    fs w !! strip_trailing_slashes local_file = Some (File content) ->
    exists w',
      read_loop (map Chunk chunks) local_file report_hook total_size bytes_so_far w
      = (Ret tt, w') /\
      fs w' !! strip_trailing_slashes local_file
      = Some (File (content +:+ foldr String.append "" chunks)).
Proof.
  intros Hchunks Hrange.
  induction Hchunks as [|chunk chunks Hchunk _ IH]; intros bytes_so_far w content Hfile.
  - simpl. rewrite append_nil_r. destruct report_hook; simpl; eauto.
  - simpl. destruct (String.eqb_spec chunk ""); [done|].
    unfold mbind, io_mbind, io_bind.
    destruct (file_write local_file chunk w) as [r1 w1] eqn:E1.
    injection E1 as <- <-.
    set (w1 := World _ _ _ _).
    assert (H1 : fs w1 !! strip_trailing_slashes local_file
                 = Some (File (content +:+ chunk))).
    { simpl. by rewrite lookup_alter_eq, Hfile. }
    destruct (when report_hook _ w1) as [r2 w2] eqn:E2.
    assert (H2 : r2 = Ret tt /\ fs w2 = fs w1).
    { unfold when, _chunk_report_ in E2.
      destruct report_hook; [|by injection E2 as <- <-].
      destruct total_size as [total|]; [destruct (total =? 0)|];
        [| rewrite (Hrange total eq_refl) in E2 |]; by injection E2 as <- <-. }
    destruct H2 as [-> H2]. rewrite <- H2 in H1.
    destruct (IH (bytes_so_far + Z.of_nat (String.length chunk)) w2 _ H1)
      as (w' & -> & Hw').
    exists w'. split; [reflexivity|]. by rewrite Hw', append_assoc.
Qed.

Lemma chunk_read_chunks header chunks local_file report_hook w content :
  Forall (fun chunk => chunk <> "") chunks ->
  (forall total, py_int (strip header) = Ret total -> float_overflows total = false) ->
  fs w !! strip_trailing_slashes local_file = Some (File content) ->
  exists w',
    _chunk_read_ (Response (Some header) (map Chunk chunks)) local_file report_hook w
    = (Ret tt, w') /\
    fs w' !! strip_trailing_slashes local_file
    = Some (File (content +:+ foldr String.append "" chunks)).
Proof.
  intros Hchunks Hrange Hfile. unfold _chunk_read_.
  unfold mbind, io_mbind, io_bind, lift, try_except. simpl.
  destruct (py_int (strip header)) as [v|e]; simpl.
  - apply read_loop_chunks; [assumption| |assumption].
    intros total [= <-]. by apply Hrange.
  - apply read_loop_chunks; [assumption|discriminate|]. by simpl.
Qed.

Lemma requests_log c f h t ev :
  requests (World c f h (t ++ [ev]))
  = requests (World c f h t)
    ++ match ev with EvUrlopen u => [u] | _ => [] end.
Proof. unfold requests. simpl. rewrite omap_app. by destruct ev. Qed.

Lemma writable_at_same_fs w w' p : fs w' = fs w -> writable_at w' p = writable_at w p.
Proof.
  intros E. unfold writable_at. by rewrite !(is_dir_same_fs w w' _ E).
Qed.

Lemma writable_at_node w p c :
  writable_at w p = true ->
  node_at (World (cwd w) (<[strip_trailing_slashes p := File c]> (fs w))
                 (handles w) (trace w)) p
  = Some (File c).
Proof.
  unfold writable_at. intros Hw.
  apply andb_prop in Hw as [Hw _]. apply andb_prop in Hw as [Hw _].
  apply andb_prop in Hw as [Hp Hs].
  apply negb_true_iff in Hp, Hs. unfold node_at. rewrite Hp. simpl.
  destruct (all_slashes p) eqn:Ha.
  - apply all_slashes_endswith in Ha as [->|Ha]; [done | congruence].
  - by rewrite lookup_insert_eq, Hs.
Qed.

Section Body.
Context `{Environment}.

(** X13: when the file is not in the data directory, can be created there,
    and the server answers with a [Content-Length] header and the chunks
    [chunks], none of them empty, [_fetch_file] returns the path of the
    file, and the file holds the chunks one after the other; exactly one
    request was made and no file is left open. The header is any text, but
    when it reads as an integer, that integer is in the range of the
    floating-point numbers, the progress line being computed with them. *)
Theorem fetch_file_stores_body url data_dir w header chunks :
  node_at w data_dir <> None ->
  node_at w (os_path_join data_dir (os_path_basename url)) = None ->
  writable_at w (os_path_join data_dir (os_path_basename url)) = true ->
  network (requests w) url = Ret (Response (Some header) (map Chunk chunks)) ->
  (forall total, py_int (strip header) = Ret total -> float_overflows total = false) ->
  Forall (fun chunk => chunk <> "") chunks ->
  exists w',
    _fetch_file url data_dir w
    = (Ret (Some (os_path_join data_dir (os_path_basename url))), w') /\
    node_at w' (os_path_join data_dir (os_path_basename url))
    = Some (File (foldr String.append "" chunks)) /\
    handles w' = handles w /\
    requests w' = requests w ++ [url].
Proof.
  intros Hdir Hfile Hw Hnet Hrange Hchunks.
  set (full_name := os_path_join data_dir (os_path_basename url)) in *.
  destruct (_fetch_file url data_dir w) as [r w'] eqn:E.
  assert (Hhandles := proj1 (fetch_file_local_file_closed _ _ _ _ _ E)).
  exists w'. unfold _fetch_file, os_path_exists in E.
  unfold mbind, io_mbind, io_bind in E.
  destruct (node_at w data_dir); [|congruence]. simpl in E.
  fold full_name in E. rewrite Hfile in E. simpl in E.
  unfold download, download_suite in E.
  unfold print at 1 in E. unfold log at 1 in E.
  set (w0 := World (cwd w) (fs w) (handles w) (trace w ++ [EvPrint _])) in E.
  assert (R0 : requests w0 = requests w).
  { unfold w0. rewrite requests_log. destruct w. simpl. apply app_nil_r. }
  unfold urlopen in E. unfold mbind, io_mbind, io_bind, log, lift in E.
  rewrite R0, Hnet in E.
  set (w1 := World (cwd w0) (fs w0) (handles w0) (trace w0 ++ [EvUrlopen url])) in E.
  assert (R1 : requests w1 = requests w ++ [url]).
  { unfold w1. rewrite requests_log. destruct w0. simpl in *. by rewrite R0. }
  unfold open_for_writing in E.
  rewrite (writable_at_same_fs w w1) in E by reflexivity. rewrite Hw in E.
  unfold mbind, io_mbind, io_bind, set_fs, set_handles, log, mret, io_mret, io_ret in E.
  match type of E with
  | context [_chunk_read_ _ _ _ ?x] => set (w2 := x) in E
  end.
  assert (H2 : fs w2 !! strip_trailing_slashes full_name = Some (File "")).
  { apply lookup_insert_eq. }
  assert (R2 : requests w2 = requests w ++ [url]).
  { unfold w2. rewrite requests_log. rewrite app_nil_r.
    rewrite <- R1. reflexivity. }
  destruct (chunk_read_chunks header chunks full_name true w2 "" Hchunks Hrange H2)
    as (w3 & E3 & H3).
  rewrite E3 in E. unfold print, log in E. simpl in E.
  unfold finally_close, file_close in E.
  unfold mbind, io_mbind, io_bind, set_handles, log, lift in E. simpl in E.
  injection E as <- <-. split; [reflexivity|].
  assert (R3 : requests w3 = requests w2).
  { apply (emits_no_request read_output).
    - intros ev []; exact id.
    - eapply chunk_read_emits; eauto. }
  split; [|split; [assumption|]].
  - rewrite append_nil_l in H3. unfold node_at. cbn [fs].
    unfold writable_at in Hw.
    apply andb_prop in Hw as [Hw _]. apply andb_prop in Hw as [Hw _].
    apply andb_prop in Hw as [Hp Hs]. apply negb_true_iff in Hp, Hs.
    rewrite Hp. destruct (all_slashes full_name) eqn:Ha.
    + apply all_slashes_endswith in Ha as [Ha|Ha]; [|congruence].
      rewrite Ha in Hp. discriminate.
    + by rewrite H3, Hs.
  - rewrite !requests_log. simpl. rewrite !app_nil_r.
    destruct w3. simpl in *. unfold requests in *. simpl in *. congruence.
Qed.

End Body.

Lemma fetch_file_stores_body_witness :
  exists w',
    @_fetch_file example_env "http://h/ok.txt" "/home/u/Data" empty_data_world
    = (Ret (Some (os_path_join "/home/u/Data" (os_path_basename "http://h/ok.txt"))),
       w') /\
    node_at w' (os_path_join "/home/u/Data" (os_path_basename "http://h/ok.txt"))
    = Some (File (foldr String.append "" ["hel"; "lo"])) /\
    handles w' = handles empty_data_world /\
    requests w' = requests empty_data_world ++ ["http://h/ok.txt"].
Proof.
  apply (@fetch_file_stores_body example_env "http://h/ok.txt" "/home/u/Data"
           empty_data_world " 5 " ["hel"; "lo"]);
    [ vm_compute; discriminate | vm_compute; reflexivity | vm_compute; reflexivity
    | vm_compute; reflexivity
    | intros total E; vm_compute in E; injection E as <-; vm_compute; reflexivity
    | repeat constructor; discriminate ].
Defined.

(** ** The gzip branch *)

Lemma node_at_lookup w w' p :
  fs w' !! strip_trailing_slashes p = fs w !! strip_trailing_slashes p ->
  node_at w' p = node_at w p.
Proof. intros E. unfold node_at. by rewrite E. Qed.

Lemma node_at_file_key w p c :
  node_at w p = Some (File c) ->
  fs w !! strip_trailing_slashes p = Some (File c) /\
  String.eqb p "" = false /\ all_slashes p = false /\ endswith p "/" = false.
Proof.
  unfold node_at. destruct (String.eqb p ""); [done|].
  destruct (all_slashes p); [done|].
  destruct (fs w !! strip_trailing_slashes p) as [[|c']|]; try done.
  destruct (endswith p "/"); [done|]. by intros [= ->].
Qed.

Section Gzip.
Context `{Environment}.

(** X14: on a path that ends in [.gz] and names a file whose content the
    gzip decoder accepts, [_uncompress_file] writes the decoded data to the
    path without its last extension, provided that a file can be created
    there and that it is another path than the archive. The archive is then
    removed when [delete_archive] is set, and kept otherwise. *)
Theorem uncompress_gz_extracts file_ delete_archive w compressed data :
  endswith file_ ".gz" = true ->
  node_at w file_ = Some (File compressed) ->
  gunzip compressed = Ret data ->
  writable_at w (os_path_splitext file_).1 = true ->
  strip_trailing_slashes (os_path_splitext file_).1 <> strip_trailing_slashes file_ ->
  exists w',
    _uncompress_file (Some file_) delete_archive w = (Ret tt, w') /\
    node_at w' (os_path_splitext file_).1 = Some (File data) /\
    node_at w' file_ = (if delete_archive then None else Some (File compressed)).
Proof.
  intros Hgz Hfile Hgunzip Hw Hne.
  set (name := (os_path_splitext file_).1) in *.
  destruct (node_at_file_key _ _ _ Hfile) as (Hkey & Hp & Ha & Hs).
  unfold _uncompress_file.
  unfold mbind, io_mbind, io_bind, print at 1, log at 1.
  set (w0 := World (cwd w) (fs w) (handles w) (trace w ++ [_])).
  unfold try_except.
  rewrite (endswith_gz_not_zip _ Hgz), Hgz, (endswith_gz_not_txt _ Hgz).
  unfold mbind, io_mbind, io_bind.
  assert (F0 : node_at w0 file_ = Some (File compressed)).
  { by rewrite (node_at_same_fs w w0). }
  unfold read_file at 1. rewrite F0. fold name.
  unfold open_for_writing.
  rewrite (writable_at_same_fs w w0) by reflexivity. rewrite Hw.
  unfold mbind, io_mbind, io_bind, set_fs, set_handles, log, mret, io_mret, io_ret.
  cbn [cwd fs handles trace].
  match goal with
  | |- context [read_file file_ ?x] => set (w1 := x)
  end.
  assert (F1 : node_at w1 file_ = Some (File compressed)).
  { rewrite <- Hfile. apply node_at_lookup. unfold w1. cbn [fs].
    by rewrite lookup_insert_ne. }
  unfold read_file. rewrite F1. unfold lift. rewrite Hgunzip.
  unfold file_write. unfold mbind, io_mbind, io_bind, set_fs, log.
  cbn [cwd fs handles trace].
  match goal with
  | |- context [when _ _ ?x] => set (w2 := x)
  end.
  assert (N2 : node_at w2 name = Some (File data)).
  { unfold node_at, w2, w1. cbn [fs].
    rewrite lookup_alter_eq, lookup_insert_eq. simpl.
    unfold writable_at in Hw.
    apply andb_prop in Hw as [Hw' _]. apply andb_prop in Hw' as [Hw' _].
    apply andb_prop in Hw' as [Hn Hns]. apply negb_true_iff in Hn, Hns.
    rewrite Hn, Hns. destruct (all_slashes name) eqn:Han; [|reflexivity].
    apply all_slashes_endswith in Han as [Han|Han]; [|congruence].
    rewrite Han in Hn. discriminate. }
  assert (F2 : node_at w2 file_ = Some (File compressed)).
  { rewrite <- Hfile. apply node_at_lookup. unfold w2, w1. cbn [fs].
    rewrite lookup_alter_ne by done. by rewrite lookup_insert_ne. }
  destruct delete_archive; simpl.
  - unfold os_remove. rewrite F2.
    unfold mbind, io_mbind, io_bind, set_fs, log, print.
    cbn [cwd fs handles trace]. eexists. split; [reflexivity|]. split.
    + rewrite <- N2. apply node_at_lookup. cbn [fs]. by rewrite lookup_delete_ne.
    + unfold node_at. cbn [fs]. rewrite Hp, Ha. by rewrite lookup_delete_eq.
  - unfold mret, io_mret, io_ret, print, log. cbn [cwd fs handles trace].
    eexists. split; [reflexivity|]. split.
    + rewrite <- N2. by apply node_at_lookup.
    + rewrite <- F2. by apply node_at_lookup.
Qed.

End Gzip.

Lemma uncompress_gz_extracts_witness :
  exists w',
    @_uncompress_file example_env (Some "/home/u/Data/b.gz") true gz_world
    = (Ret tt, w') /\
    node_at w' (os_path_splitext "/home/u/Data/b.gz").1 = Some (File "plain") /\
    node_at w' "/home/u/Data/b.gz" = (if true then None else Some (File "GZ")).
Proof.
  apply (@uncompress_gz_extracts example_env "/home/u/Data/b.gz" true gz_world
           "GZ" "plain");
    [ vm_compute; reflexivity | vm_compute; reflexivity | vm_compute; reflexivity
    | vm_compute; reflexivity | vm_compute; discriminate ].
Defined.

(** ** Downloads that fail after the file is opened *)

Lemma read_loop_fails local_file report_hook total_size chunks e rest :
  Forall (fun chunk => chunk <> "") chunks ->
  (forall total, total_size = Some total -> float_overflows total = false) ->
  forall bytes_so_far w content,
    fs w !! strip_trailing_slashes local_file = Some (File content) ->
    exists w',
      read_loop (map Chunk chunks ++ ReadFails e :: rest) local_file report_hook
        total_size bytes_so_far w
      = (Raise e, w') /\
      fs w' !! strip_trailing_slashes local_file
      = Some (File (content +:+ foldr String.append "" chunks)).
Proof.
  intros Hchunks Hrange.
  induction Hchunks as [|chunk chunks Hchunk _ IH]; intros bytes_so_far w content Hfile.
  - simpl. rewrite append_nil_r. eauto.
  - simpl. destruct (String.eqb_spec chunk ""); [done|].
    unfold mbind, io_mbind, io_bind.
    destruct (file_write local_file chunk w) as [r1 w1] eqn:E1.
    injection E1 as <- <-.
    set (w1 := World _ _ _ _).
    assert (H1 : fs w1 !! strip_trailing_slashes local_file
                 = Some (File (content +:+ chunk))).
    { simpl. by rewrite lookup_alter_eq, Hfile. }
    destruct (when report_hook _ w1) as [r2 w2] eqn:E2.
    assert (H2 : r2 = Ret tt /\ fs w2 = fs w1).
    { unfold when, _chunk_report_ in E2.
      destruct report_hook; [|by injection E2 as <- <-].
      destruct total_size as [total|]; [destruct (total =? 0)|];
        [| rewrite (Hrange total eq_refl) in E2 |]; by injection E2 as <- <-. }
    destruct H2 as [-> H2]. rewrite <- H2 in H1.
    destruct (IH (bytes_so_far + Z.of_nat (String.length chunk)) w2 _ H1)
      as (w' & -> & Hw').
    exists w'. split; [reflexivity|]. by rewrite Hw', append_assoc.
Qed.

Lemma is_dir_node w p : is_dir w p = true -> node_at w p <> None.
Proof. unfold is_dir. by destruct (node_at w p). Qed.

Section Failures.
Context `{Environment}.

(** The course of [_fetch_file] when the file is not there and the request
    is answered: the file is opened, the response is read, the [except]
    clauses and the [finally] clause follow. *)
Lemma fetch_file_miss url data_dir w resp :
  node_at w data_dir <> None ->
  node_at w (os_path_join data_dir (os_path_basename url)) = None ->
  writable_at w (os_path_join data_dir (os_path_basename url)) = true ->
  network (requests w) url = Ret resp ->
  let full_name := os_path_join data_dir (os_path_basename url) in
  let opened :=
    World (cwd w) (<[strip_trailing_slashes full_name := File ""]> (fs w))
      (full_name :: handles w)
      (trace w ++ [EvPrint ("Downloading data from " +:+ url +:+ " ...");
                   EvUrlopen url; EvOpen full_name]) in
  _fetch_file url data_dir w
  = (let '(r3, w3) := (_ ← _chunk_read_ resp full_name true;
                       print "...done. (%i seconds, %i min)") opened in
     let '(r4, w4) := except_clauses url full_name r3 w3 in
     finally_close (Some full_name) r4 w4).
Proof.
  intros Hdir Hfile Hw Hnet full_name opened. fold full_name in Hfile, Hw.
  unfold _fetch_file, os_path_exists. unfold mbind at 1 2 3, io_mbind, io_bind.
  destruct (node_at w data_dir); [|congruence]. simpl.
  fold full_name. rewrite Hfile. simpl.
  unfold download, download_suite.
  unfold print at 1. unfold log at 1.
  set (w0 := World (cwd w) (fs w) (handles w) (trace w ++ [EvPrint _])).
  assert (R0 : requests w0 = requests w).
  { unfold w0. rewrite requests_log. destruct w. simpl. apply app_nil_r. }
  unfold urlopen. unfold mbind at 1, io_mbind, io_bind, log at 1, lift at 1.
  rewrite R0, Hnet.
  unfold open_for_writing.
  match goal with
  | |- context [writable_at ?x full_name] =>
      rewrite (writable_at_same_fs w x) by reflexivity
  end.
  rewrite Hw.
  unfold mbind at 1 2 3, io_mbind, io_bind, set_fs, set_handles, log at 1,
    mret at 1, io_mret, io_ret.
  cbn [cwd fs handles trace]. unfold w0. cbn [cwd fs handles trace].
  rewrite <- !app_assoc. simpl. fold opened.
  destruct ((_ ← _chunk_read_ resp full_name true; print _) opened) as [r3 w3].
  reflexivity.
Qed.

(** X19: a response without a [Content-Length] header makes [_fetch_file]
    raise [AttributeError], from [.strip()] on the missing header, after the
    local file was created: the file is left empty and closed. The next
    call of [_fetch_file] for the URL finds that file and returns its path
    without any request. *)
Theorem fetch_file_without_content_length url data_dir w reads :
  is_dir w data_dir = true ->
  node_at w (os_path_join data_dir (os_path_basename url)) = None ->
  writable_at w (os_path_join data_dir (os_path_basename url)) = true ->
  network (requests w) url = Ret (Response None reads) ->
  exists w',
    _fetch_file url data_dir w = (Raise (none_has_no_attribute "strip"), w') /\
    node_at w' (os_path_join data_dir (os_path_basename url)) = Some (File "") /\
    handles w' = handles w /\
    _fetch_file url data_dir w'
    = (Ret (Some (os_path_join data_dir (os_path_basename url))), w').
Proof.
  intros Hdir Hfile Hw Hnet.
  rewrite (fetch_file_miss _ _ _ _ (is_dir_node _ _ Hdir) Hfile Hw Hnet).
  set (full_name := os_path_join data_dir (os_path_basename url)) in *.
  unfold _chunk_read_, mbind, io_mbind, io_bind, lift. simpl.
  unfold io_raise, finally_close, file_close.
  unfold mbind, io_mbind, io_bind, set_handles, log, lift. simpl.
  rewrite String.eqb_refl.
  eexists. split; [reflexivity|].
  assert (Hnode : forall c h t,
    node_at (World c (<[strip_trailing_slashes full_name:=File ""]> (fs w)) h t)
      full_name = Some (File "")).
  { intros c h t.
    rewrite <- (writable_at_node w full_name "" Hw). by apply node_at_lookup. }
  split; [apply Hnode|]. split; [reflexivity|].
  apply fetch_file_cached.
  - apply is_dir_node.
    assert (K : dirs_kept w
      (World (cwd w) (<[strip_trailing_slashes full_name:=File ""]> (fs w))
         (handles w) (trace w))).
    { apply dirs_kept_lookup. simpl. intros k Hk.
      rewrite lookup_insert_ne; [assumption|].
      intros Heq. by apply (writable_at_not_dir w full_name k). }
    erewrite is_dir_same_fs; [apply (K _ Hdir)|reflexivity].
  - fold full_name. by rewrite Hnode.
Qed.

(** X20: when the server answers with a [Content-Length] header and the
    transfer breaks after the chunks [chunks], none of them empty, with the
    exception [e], [_fetch_file] returns [None] if [e] is a [URLError] (an
    [HTTPError] is one) and raises [e] otherwise. In both cases the file
    holds the chunks received so far, it is closed, and it is not removed.
    The header is any text, but when it reads as an integer, that integer is
    in the range of the floating-point numbers, the progress line being
    computed with them. *)
Theorem fetch_file_transfer_failure url data_dir w header chunks e rest :
  node_at w data_dir <> None ->
  node_at w (os_path_join data_dir (os_path_basename url)) = None ->
  writable_at w (os_path_join data_dir (os_path_basename url)) = true ->
  network (requests w) url
  = Ret (Response (Some header) (map Chunk chunks ++ ReadFails e :: rest)) ->
  (forall total, py_int (strip header) = Ret total -> float_overflows total = false) ->
  Forall (fun chunk => chunk <> "") chunks ->
  exists w',
    _fetch_file url data_dir w
    = (if issubclass (exn_class_of e) URLError then Ret None else Raise e, w') /\
    node_at w' (os_path_join data_dir (os_path_basename url))
    = Some (File (foldr String.append "" chunks)) /\
    handles w' = handles w.
Proof.
  intros Hdir Hfile Hw Hnet Hrange Hchunks.
  rewrite (fetch_file_miss _ _ _ _ Hdir Hfile Hw Hnet).
  set (full_name := os_path_join data_dir (os_path_basename url)) in *.
  set (opened := World _ _ _ _).
  assert (H2 : fs opened !! strip_trailing_slashes full_name = Some (File "")).
  { apply lookup_insert_eq. }
  assert (E3 : exists w3,
    _chunk_read_ (Response (Some header) (map Chunk chunks ++ ReadFails e :: rest))
      full_name true opened = (Raise e, w3) /\
    fs w3 !! strip_trailing_slashes full_name
    = Some (File (foldr String.append "" chunks)) /\
    handles w3 = handles opened).
  { unfold _chunk_read_. unfold mbind, io_mbind, io_bind, lift, try_except. simpl.
    destruct (py_int (strip header)) as [v|e0]; simpl.
    - assert (Hv : forall total, Some v = Some total ->
                                   float_overflows total = false).
      { intros total [= <-]. by apply Hrange. }
      destruct (read_loop_fails full_name true (Some v) chunks e rest Hchunks Hv
                  0 opened "" H2) as (w3 & E3 & F3).
      exists w3. split; [assumption|]. split; [by rewrite append_nil_l in F3|].
      apply same_handles_read_loop in E3. exact E3.
    - match goal with
      | |- context [read_loop _ _ _ _ _ ?x] =>
          destruct (read_loop_fails full_name true None chunks e rest Hchunks
                      ltac:(discriminate) 0 x "" H2) as (w3 & E3 & F3)
      end.
      exists w3. split; [assumption|]. split; [by rewrite append_nil_l in F3|].
      apply same_handles_read_loop in E3. exact E3. }
  destruct E3 as (w3 & E3 & F3 & G3).
  unfold mbind at 1, io_mbind, io_bind. rewrite E3.
  assert (Hnode : forall w4, fs w4 = fs w3 ->
    node_at w4 full_name = Some (File (foldr String.append "" chunks))).
  { intros w4 E4. unfold node_at. rewrite E4, F3.
    unfold writable_at in Hw.
    apply andb_prop in Hw as [Hw' _]. apply andb_prop in Hw' as [Hw' _].
    apply andb_prop in Hw' as [Hp Hs]. apply negb_true_iff in Hp, Hs.
    rewrite Hp, Hs. destruct (all_slashes full_name) eqn:Ha; [|reflexivity].
    apply all_slashes_endswith in Ha as [Ha|Ha]; [|congruence].
    rewrite Ha in Hp. discriminate. }
  assert (Hsub : issubclass (exn_class_of e) HTTPError = true ->
                 issubclass (exn_class_of e) URLError = true).
  { by destruct (exn_class_of e). }
  unfold except_clauses.
  destruct (issubclass (exn_class_of e) HTTPError) eqn:Hhttp.
  - rewrite (Hsub eq_refl).
    unfold finally_close, file_close.
    unfold mbind, io_mbind, io_bind, set_handles, log, lift, print, log,
      mret, io_mret, io_ret. simpl.
    eexists. split; [reflexivity|]. split; [by apply Hnode|].
    simpl. rewrite G3. apply remove_first_head.
  - destruct (issubclass (exn_class_of e) URLError) eqn:Hurl.
    + unfold finally_close, file_close.
      unfold mbind, io_mbind, io_bind, set_handles, log, lift, print, log,
        mret, io_mret, io_ret. simpl.
      eexists. split; [reflexivity|]. split; [by apply Hnode|].
      simpl. rewrite G3. apply remove_first_head.
    + unfold finally_close, file_close, io_raise.
      unfold mbind, io_mbind, io_bind, set_handles, log, lift. simpl.
      eexists. split; [reflexivity|]. split; [by apply Hnode|].
      simpl. rewrite G3. apply remove_first_head.
Qed.

(** X29: a [Content-Length] beyond the range of the floating-point numbers
    stops the download at the first progress line. When the header reads as
    such an integer and the first chunk is not empty, [_fetch_file] writes
    that chunk and raises [OverflowError], which no [except] clause catches:
    the file is closed, and it stays there with the first chunk only. *)
Theorem fetch_file_content_length_overflow url data_dir w header total chunk rest :
  node_at w data_dir <> None ->
  node_at w (os_path_join data_dir (os_path_basename url)) = None ->
  writable_at w (os_path_join data_dir (os_path_basename url)) = true ->
  network (requests w) url = Ret (Response (Some header) (Chunk chunk :: rest)) ->
  py_int (strip header) = Ret total ->
  float_overflows total = true ->
  chunk <> "" ->
  exists w',
    _fetch_file url data_dir w
    = (Raise (overflow_error "long int too large to convert to float"), w') /\
    node_at w' (os_path_join data_dir (os_path_basename url)) = Some (File chunk) /\
    handles w' = handles w.
Proof.
  intros Hdir Hfile Hw Hnet Htotal Hover Hchunk.
  rewrite (fetch_file_miss _ _ _ _ Hdir Hfile Hw Hnet).
  set (full_name := os_path_join data_dir (os_path_basename url)) in *.
  set (opened := World _ _ _ _).
  assert (Hzero : (total =? 0) = false).
  { destruct (Z.eqb_spec total 0) as [->|]; [|reflexivity].
    vm_compute in Hover. discriminate. }
  unfold _chunk_read_. unfold mbind, io_mbind, io_bind, lift, try_except.
  cbn [content_length body]. rewrite Htotal.
  unfold mret, io_mret, io_ret. cbn [read_loop].
  destruct (String.eqb_spec chunk ""); [done|].
  unfold mbind, io_mbind, io_bind, file_write, set_fs, log, when, _chunk_report_.
  rewrite Hzero, Hover. unfold io_raise, except_clauses. cbn [exn_class_of overflow_error issubclass].
  unfold io_raise, finally_close, file_close.
  unfold mbind, io_mbind, io_bind, set_handles, log, lift.
  eexists. split; [reflexivity|]. split.
  - unfold node_at. cbn [fs opened].
    unfold writable_at in Hw.
    apply andb_prop in Hw as [Hw' _]. apply andb_prop in Hw' as [Hw' _].
    apply andb_prop in Hw' as [Hp Hs]. apply negb_true_iff in Hp, Hs.
    rewrite Hp, Hs, lookup_alter_eq, lookup_insert_eq. simpl.
    destruct (all_slashes full_name) eqn:Ha; [|reflexivity].
    apply all_slashes_endswith in Ha as [Ha|Ha]; [|congruence].
    rewrite Ha in Hp. discriminate.
  - cbn [handles opened]. apply remove_first_head.
Qed.

End Failures.

Lemma fetch_file_without_content_length_witness :
  exists w',
    @_fetch_file headless_env "http://h/x.bin" "/home/u/Data" empty_data_world
    = (Raise (none_has_no_attribute "strip"), w') /\
    node_at w' (os_path_join "/home/u/Data" (os_path_basename "http://h/x.bin"))
    = Some (File "") /\
    handles w' = handles empty_data_world /\
    @_fetch_file headless_env "http://h/x.bin" "/home/u/Data" w'
    = (Ret (Some (os_path_join "/home/u/Data" (os_path_basename "http://h/x.bin"))),
       w').
Proof.
  apply (@fetch_file_without_content_length headless_env "http://h/x.bin"
           "/home/u/Data" empty_data_world [Chunk "data"]);
    vm_compute; reflexivity.
Defined.

Lemma fetch_file_transfer_failure_witness :
  exists w',
    @_fetch_file example_env "http://h/cut.txt" "/home/u/Data" empty_data_world
    = (if issubclass (exn_class_of (Exn URLError "<urlopen error timed out>")) URLError
       then Ret None
       else Raise (Exn URLError "<urlopen error timed out>"), w') /\
    node_at w' (os_path_join "/home/u/Data" (os_path_basename "http://h/cut.txt"))
    = Some (File (foldr String.append "" ["hel"])) /\
    handles w' = handles empty_data_world.
Proof.
  apply (@fetch_file_transfer_failure example_env "http://h/cut.txt" "/home/u/Data"
           empty_data_world "10" ["hel"]
           (Exn URLError "<urlopen error timed out>") []);
    [ vm_compute; discriminate | vm_compute; reflexivity | vm_compute; reflexivity
    | vm_compute; reflexivity
    | intros total E; vm_compute in E; injection E as <-; vm_compute; reflexivity
    | repeat constructor; discriminate ].
Defined.

Lemma fetch_file_content_length_overflow_witness :
  exists w',
    @_fetch_file boasting_env "http://h/big.bin" "/home/u/Data" empty_data_world
    = (Raise (overflow_error "long int too large to convert to float"), w') /\
    node_at w' (os_path_join "/home/u/Data" (os_path_basename "http://h/big.bin"))
    = Some (File "hel") /\
    handles w' = handles empty_data_world.
Proof.
  apply (@fetch_file_content_length_overflow boasting_env "http://h/big.bin"
           "/home/u/Data" empty_data_world huge_length (10 ^ 309) "hel" [Chunk "lo"]);
    [ vm_compute; discriminate | vm_compute; reflexivity | vm_compute; reflexivity
    | vm_compute; reflexivity | vm_compute; reflexivity | vm_compute; reflexivity
    | discriminate ].
Defined.

(** ** The data functions *)

Lemma outcome_bind_inv {A B} (m : outcome A) (k : A -> outcome B) (b : B) :
  m ≫= k = Ret b -> exists a, m = Ret a /\ k a = Ret b.
Proof. destruct m as [a|e]; [eauto | discriminate]. Qed.

Lemma lift_inv {A} (r : outcome A) w r' w' :
  lift r w = (r', w') -> r' = r /\ w' = w.
Proof. unfold lift. by intros [= <- <-]. Qed.

Lemma mapM_outcome_length {A B} (f : A -> outcome B) (l : list A) (k : list B) :
  mapM f l = Ret k -> length k = length l.
Proof.
  revert k. induction l as [|x l IH]; intros k E; simpl in E.
  - by injection E as <-.
  - apply outcome_bind_inv in E as (y & _ & E).
    apply outcome_bind_inv in E as (k' & E' & E). injection E as <-.
    simpl. f_equal. by apply IH.
Qed.

Lemma mapM_outcome_Forall2 {A B} (f : A -> outcome B) (l : list A) (k : list B) :
  mapM f l = Ret k -> Forall2 (fun x y => f x = Ret y) l k.
Proof.
  revert k. induction l as [|x l IH]; intros k E; simpl in E.
  - injection E as <-. constructor.
  - apply outcome_bind_inv in E as (y & Ey & E).
    apply outcome_bind_inv in E as (k' & E' & E). injection E as <-.
    constructor; [assumption | by apply IH].
Qed.

Lemma join_endswith (a b t : string) :
  endswith b t = true -> endswith (os_path_join a b) t = true.
Proof.
  intros Hb. apply endswith_spec in Hb as (pre & ->). apply endswith_spec.
  unfold os_path_join. destruct (startswith (pre +:+ t) "/"); [by exists pre|].
  destruct (String.eqb a "" || endswith a "/").
  - exists (a +:+ pre). by rewrite append_assoc.
  - exists (a +:+ "/" +:+ pre). by rewrite !append_assoc.
Qed.

Lemma yeast_file_name_npy (class1 class2 : Z) :
  endswith (yeast_file_name class1 class2) ".npy" = true.
Proof.
  apply endswith_spec.
  exists ("Yeast_data__" +:+ fmt_i class1 +:+ "_" +:+ fmt_i class2).
  unfold yeast_file_name. by rewrite !append_assoc.
Qed.

Lemma side_by_side_one {A} (k : ndarray2 A) : side_by_side [k] k.
Proof.
  split; [simpl; lia|]. split; [by constructor|].
  intros j row. split.
  - intros Hrow. exists [row]. split; [by repeat constructor|].
    simpl. by rewrite app_nil_r.
  - intros (parts & Hparts & ->).
    apply Forall2_cons_inv_l in Hparts as (part & parts' & Hpart & Hnil & ->).
    apply Forall2_nil_inv_l in Hnil as ->. simpl. by rewrite app_nil_r.
Qed.

Lemma side_by_side_snoc {A} (ks : list (ndarray2 A)) (K k K' : ndarray2 A) :
  side_by_side ks K ->
  concatenate_axis1 K k = Ret K' ->
  side_by_side (ks ++ [k]) K'.
Proof.
  intros (Hcols & Hrows & Hrow) E. unfold concatenate_axis1 in E.
  destruct (Nat.eqb_spec (shape0 K) (shape0 k)) as [Heq|]; [|discriminate].
  injection E as <-.
  assert (Hlen : shape0 (Array2 (shape1 K + shape1 k)
                                (zip_with app (rows K) (rows k))) = shape0 K).
  { unfold shape0 in *. simpl. rewrite length_zip_with. lia. }
  split; [|split].
  - simpl. rewrite map_app, Hcols. clear.
    induction ks as [|k0 ks IH]; simpl in *; lia.
  - rewrite Hlen. apply Forall_app. split; [assumption|]. by repeat constructor.
  - intros j row. simpl. rewrite lookup_zip_with_Some. split.
    + intros (x & y & -> & Hx & Hy). apply Hrow in Hx as (parts & Hparts & ->).
      exists (parts ++ [y]). split.
      * apply Forall2_app; [assumption|]. by repeat constructor.
      * rewrite concat_app. simpl. by rewrite app_nil_r.
    + intros (parts & Hparts & ->).
      apply Forall2_app_inv_l in Hparts as (parts1 & parts2 & H1 & H2 & ->).
      apply Forall2_cons_inv_l in H2 as (y & parts' & Hy & Hnil & ->).
      apply Forall2_nil_inv_l in Hnil as ->.
      exists (concat parts1), y. split; [|split; [|assumption]].
      * rewrite concat_app. simpl. by rewrite app_nil_r.
      * apply Hrow. by exists parts1.
Qed.

Section DataProofs.
Context `{Environment} `{Numpy}.

Lemma np_load_world path w r w' : np_load path w = (r, w') -> w' = w.
Proof.
  unfold np_load, read_file. io_unfold.
  destruct (node_at w path) as [[|c]|]; by intros [= _ <-].
Qed.

Lemma np_load_file path w content :
  node_at w path = Some (File content) -> np_load path w = (np_decode content, w).
Proof. intros E. unfold np_load, read_file. io_unfold. by rewrite E. Qed.

Lemma load_loop_world dataset_dir names i kernels K w r w' :
  load_loop dataset_dir names i kernels K w = (r, w') -> w' = w.
Proof.
  revert i kernels K. induction names as [|e names IH]; intros i kernels K E.
  - by injection E as _ <-.
  - simpl in E. apply io_bind_inv in E as [(Ki & w1 & E1 & E)|(e1 & E1 & _)];
      [|by apply np_load_world in E1].
    apply np_load_world in E1 as ->.
    apply io_bind_inv in E as [(K' & w1 & E1 & E)|(e1 & E1 & _)].
    + assert (w1 = w) as ->.
      { destruct (i =? 0)%nat; [by injection E1 as _ <-|].
        by apply lift_inv in E1 as [_ ->]. }
      by apply IH in E.
    + destruct (i =? 0)%nat; [discriminate|]. by apply lift_inv in E1 as [_ ->].
Qed.

Lemma get_dataset_all_found dataset_name file_names data_dir w :
  (forall file_name, In file_name file_names ->
     node_at w (os_path_join (dataset_path (cwd w) dataset_name data_dir) file_name)
     <> None) ->
  _get_dataset dataset_name file_names data_dir w
  = (Ret (map (os_path_join (dataset_path (cwd w) dataset_name data_dir)) file_names),
     w).
Proof.
  intros Hall. unfold _get_dataset. unfold mbind, io_mbind, io_bind.
  rewrite get_dataset_dir_eq. by rewrite get_loop_found.
Qed.

Lemma fetch_data_only_prints data_dir w r w' :
  (forall name, In name data_names ->
     node_at w (os_path_join (dataset_path (cwd w) "" None) (name +:+ ".npy"))
     <> None) ->
  node_at w (os_path_join (dataset_path (cwd w) "" None) "labels_3588_13.npy")
  <> None ->
  fetch_data data_dir w = (r, w') ->
  w' = printed "...done." w.
Proof.
  intros Hkernels Hlabels E. unfold fetch_data in E.
  unfold mbind at 1, io_mbind at 1, io_bind at 1 in E.
  rewrite get_dataset_dir_eq in E.
  unfold mbind at 1, io_mbind at 1, io_bind at 1, try_except_class at 1 in E.
  unfold mbind at 1, io_mbind at 1, io_bind at 1 in E.
  rewrite get_dataset_all_found in E.
  2:{ intros f Hf. apply in_map_iff in Hf as (name & <- & Hname). by apply Hkernels. }
  unfold mret at 1, io_mret at 1, io_ret at 1 in E.
  unfold mbind at 1, io_mbind at 1, io_bind at 1, try_except_class at 1 in E.
  unfold mbind at 1, io_mbind at 1, io_bind at 1 in E.
  rewrite get_dataset_all_found in E.
  2:{ intros f [<-|[]]. exact Hlabels. }
  unfold mret at 1, io_mret at 1, io_ret at 1 in E.
  unfold mbind at 1, io_mbind at 1, io_bind at 1, print at 1, log at 1 in E.
  fold (printed "...done." w) in E.
  apply io_bind_inv in E as [([kernels K] & w1 & E1 & E)|(e1 & E1 & _)];
    [|by apply load_loop_world in E1].
  apply load_loop_world in E1 as ->.
  apply io_bind_inv in E as [(y & w1 & E1 & E)|(e1 & E1 & _)];
    [|by apply np_load_world in E1].
  apply np_load_world in E1 as ->.
  apply io_bind_inv in E as [(K' & w1 & E1 & E)|(e1 & E1 & _)].
  - apply lift_inv in E1 as [_ ->]. by injection E as _ <-.
  - by apply lift_inv in E1 as [_ ->].
Qed.

(** X21: when the directory of the data holds the six kernels and the
    labels in converted form, [fetch_data] downloads and converts nothing:
    however it ends, all it did is to print ["...done."]. The files are only
    read. *)
Theorem fetch_data_converted data_dir w r w' :
  (forall name, In name data_names ->
     node_at w (os_path_join (dataset_path (cwd w) "" None) (name +:+ ".npy"))
     <> None) ->
  node_at w (os_path_join (dataset_path (cwd w) "" None) "labels_3588_13.npy")
  <> None ->
  fetch_data data_dir w = (r, w') ->
  w' = printed "...done." w.
Proof. apply fetch_data_only_prints. Qed.

(** X22: when the file named after the two classes, each lowered by one,
    is in the directory of the data and can be decoded, [fetch_Yeast_data]
    returns what it holds, whatever that is, and does nothing else: nothing is
    printed, downloaded or written. *)
Theorem fetch_Yeast_data_cached class1 class2 w content value :
  node_at w (os_path_join (dataset_path (cwd w) "" None)
                          (yeast_file_name (class1 - 1) (class2 - 1)))
  = Some (File content) ->
  np_decode content = Ret value ->
  fetch_Yeast_data class1 class2 w = (Ret value, w).
Proof.
  intros Hfile Hvalue. unfold fetch_Yeast_data.
  unfold mbind, io_mbind, io_bind. rewrite get_dataset_dir_eq.
  unfold try_except. by rewrite (np_load_file _ _ _ Hfile), Hvalue.
Qed.

Lemma unique_indices_bound (labels : ndarray2 num) column1 column2 n indices :
  unique_indices labels column1 column2 n = Ret indices ->
  0 <= n ->
  (length indices <= 2 * Z.to_nat n)%nat.
Proof.
  intros E Hn. unfold unique_indices in E.
  repeat (apply outcome_bind_inv in E as (? & _ & E)).
  injection E as <-. unfold slice_to.
  destruct (Z.leb_spec 0 n); [|lia]. rewrite length_app, !length_take. lia.
Qed.

Lemma print_eq line w : print line w = (Ret tt, printed line w).
Proof. reflexivity. Qed.

Lemma recompute_inv dataset_dir name class1 class2 w value w' :
  recompute dataset_dir name class1 class2 w = (Ret value, w') ->
  exists data w1 labels indices selected ys K,
    fetch_data None (printed "recomputing data..." w) = (Ret data, w1) /\
    as_matrix (data_y data) = Ret labels /\
    unique_indices labels class1 class2 100 = Ret indices /\
    select_loop (data_kernels data) indices data_names ∅ = Ret selected /\
    take_entries labels indices class1 = Ret ys /\
    join_loop (<["y" := Arr1 ys]> selected) data_names 0 None = Ret (Some K) /\
    value = NpyBunch (<["K" := K]> (<["y" := Arr1 ys]> selected)) /\
    np_save (os_path_join dataset_dir name) value w1 = (Ret tt, w').
Proof.
  intros E. unfold recompute in E.
  apply io_bind_ret_inv in E as (u & w0 & E0 & E).
  rewrite print_eq in E0. injection E0 as _ <-.
  apply io_bind_ret_inv in E as (data & w1 & Edata & E).
  apply io_bind_ret_inv in E as (indices & w2 & E2 & E).
  apply lift_inv in E2 as [E2 ->]. symmetry in E2.
  apply outcome_bind_inv in E2 as (labels & Elabels & Eind).
  apply io_bind_ret_inv in E as (selected & w2 & E2 & E).
  apply lift_inv in E2 as [Esel ->]. symmetry in Esel.
  apply io_bind_ret_inv in E as (ys & w2 & E2 & E).
  apply lift_inv in E2 as [Eys ->]. symmetry in Eys.
  rewrite Elabels in Eys. simpl in Eys.
  apply io_bind_ret_inv in E as (K & w2 & E2 & E).
  apply lift_inv in E2 as [EK ->]. symmetry in EK.
  apply outcome_bind_inv in EK as ([K'|] & EK & EK'); [|discriminate].
  injection EK' as ->.
  apply io_bind_ret_inv in E as ([] & w2 & Esave & E).
  injection E as <- <-.
  exists data, w1, labels, indices, selected, ys, K. done.
Qed.

Lemma np_save_ret path value w w' :
  endswith path ".npy" = true ->
  np_save path value w = (Ret tt, w') ->
  writable_at w path = true /\
  w' = World (cwd w)
             (<[strip_trailing_slashes path := File (np_encode value)]> (fs w))
             (handles w)
             (trace w ++ [EvOpen path; EvWrite path (np_encode value); EvClose path]).
Proof.
  intros Hnpy E. unfold np_save in E. rewrite Hnpy in E.
  unfold open_for_writing, file_write, file_close in E. io_unfold.
  destruct (writable_at w path); [|discriminate]. split; [reflexivity|].
  simpl in E. injection E as <-. f_equal.
  - apply map_eq. intros k.
    destruct (decide (k = strip_trailing_slashes path)) as [->|Hk].
    + by rewrite lookup_alter_eq, !lookup_insert_eq.
    + by rewrite lookup_alter_ne, !lookup_insert_ne.
  - by rewrite String.eqb_refl.
  - by rewrite <- !app_assoc.
Qed.

Lemma select_loop_spec kernels indices names new_data result :
  select_loop kernels indices names new_data = Ret result ->
  (forall name, In name names ->
     exists kernel picked sel,
       kernels !! name = Some (NpyArray (Arr2 kernel)) /\
       take_rows kernel indices = Ret picked /\
       take_columns picked indices = Ret sel /\
       result !! name = Some (Arr2 sel)) /\
  (forall key, ~ In key names -> result !! key = new_data !! key).
Proof.
  revert new_data. induction names as [|i names IH]; intros new_data E.
  - injection E as <-. split; [intros name []|done].
  - simpl in E.
    apply outcome_bind_inv in E as (k & Ek & E).
    apply outcome_bind_inv in E as (kernel & Ekernel & E).
    apply outcome_bind_inv in E as (picked & Epicked & E).
    apply outcome_bind_inv in E as (sel & Esel & E).
    apply IH in E as [Hin Hout].
    unfold dict_item in Ek. destruct (kernels !! i) as [k'|] eqn:Hk; [|discriminate].
    injection Ek as ->. destruct k as [[v|a]|b]; try discriminate.
    injection Ekernel as ->.
    split.
    + intros name [<-|Hname]; [|by apply Hin].
      destruct (in_dec string_dec i names) as [Hi|Hi]; [by apply Hin|].
      exists kernel, picked, sel. repeat split; try assumption.
      by rewrite (Hout _ Hi), lookup_insert_eq.
    + intros key Hkey. rewrite Hout by (intros Hk'; apply Hkey; by right).
      apply lookup_insert_ne. intros ->. apply Hkey. by left.
Qed.

Lemma take_rows_length (kernel picked : ndarray2 num) indices :
  take_rows kernel indices = Ret picked -> length (rows picked) = length indices.
Proof.
  unfold take_rows. intros E. apply outcome_bind_inv in E as (l & El & E).
  injection E as <-. simpl. by apply mapM_outcome_length in El.
Qed.

Lemma take_columns_shape (picked sel : ndarray2 num) indices :
  take_columns picked indices = Ret sel ->
  has_shape (length (rows picked)) (length indices) sel.
Proof.
  unfold take_columns. intros E. apply outcome_bind_inv in E as (columns & Ec & E).
  apply outcome_bind_inv in E as (l & El & E). injection E as <-.
  apply mapM_outcome_length in Ec.
  split; [reflexivity|]. simpl. split; [by apply mapM_outcome_length in El|].
  apply mapM_outcome_Forall2 in El.
  induction El as [|r r' rs rs' Hr _ IH]; constructor; [|assumption].
  apply mapM_outcome_length in Hr. congruence.
Qed.

Lemma take_entries_length (labels : ndarray2 num) indices c ys :
  take_entries labels indices c = Ret ys -> length ys = length indices.
Proof.
  unfold take_entries. intros E. apply outcome_bind_inv in E as (k & _ & E).
  by apply mapM_outcome_length in E.
Qed.

Lemma concatenate_shape (a b : ndarray2 num) n ca cb :
  has_shape n ca a -> has_shape n cb b ->
  exists c, concatenate_axis1 a b = Ret c /\ has_shape n (ca + cb) c.
Proof.
  intros (Ha1 & Ha2 & Ha3) (Hb1 & Hb2 & Hb3). unfold concatenate_axis1, shape0.
  rewrite Ha2, Hb2, Nat.eqb_refl. eexists. split; [reflexivity|].
  split; [simpl; congruence|]. simpl. clear Ha1 Hb1.
  revert n Ha2 Hb2. revert Hb3. generalize (rows b).
  induction Ha3 as [|ra rsa Hra _ IH]; intros rsb Hb3 n Ha2 Hb2.
  - simpl in *. split; [assumption | constructor].
  - destruct Hb3 as [|rb rsb Hrb Hb3].
    { simpl in *. subst n. discriminate. }
    simpl in *. destruct n as [|n]; [discriminate|].
    destruct (IH rsb Hb3 n) as [Hlen Hall]; [congruence | congruence |].
    split; [by rewrite Hlen|]. constructor; [|assumption].
    rewrite length_app. congruence.
Qed.

Lemma join_loop_shape_next new_data names i K n c result :
  (forall name, In name names ->
     exists sel, new_data !! name = Some (Arr2 sel) /\ has_shape n n sel) ->
  has_shape n c K ->
  join_loop new_data names (S i) (Some (Arr2 K)) = Ret result ->
  exists K', result = Some (Arr2 K') /\ has_shape n (c + length names * n) K'.
Proof.
  revert i K c. induction names as [|e names IH]; intros i K c Hnames HK E.
  - injection E as <-. exists K. split; [reflexivity|]. by rewrite Nat.add_0_r.
  - simpl in E. destruct (Hnames e) as (sel & He & Hsel); [by left|].
    unfold dict_item in E. rewrite He in E. simpl in E.
    destruct (concatenate_shape K sel n c n HK Hsel) as (K1 & E1 & HK1).
    rewrite E1 in E. simpl in E.
    apply (IH _ _ (c + n)%nat) in E as (K' & -> & HK'); [| |exact HK1].
    + exists K'. split; [reflexivity|].
      by replace (c + length (e :: names) * n)%nat with (c + n + length names * n)%nat
        by (simpl; lia).
    + intros name Hname. apply Hnames. by right.
Qed.

Lemma join_loop_shape new_data names n result :
  names <> [] ->
  (forall name, In name names ->
     exists sel, new_data !! name = Some (Arr2 sel) /\ has_shape n n sel) ->
  join_loop new_data names 0 None = Ret result ->
  exists K, result = Some (Arr2 K) /\ has_shape n (length names * n) K.
Proof.
  destruct names as [|e names]; [done|]. intros _ Hnames E.
  simpl in E. destruct (Hnames e) as (sel & He & Hsel); [by left|].
  unfold dict_item in E. rewrite He in E. simpl in E.
  apply (join_loop_shape_next _ _ _ _ n n) in E; [exact E| |exact Hsel].
  intros name Hname. apply Hnames. by right.
Qed.

Lemma data_names_keys name :
  In name data_names -> name <> "y" /\ name <> "K".
Proof.
  unfold data_names. simpl. intros Hname.
  repeat (destruct Hname as [<-|Hname]; [by split|]). destruct Hname.
Qed.

Lemma fetch_Yeast_data_miss class1 class2 w e value w' :
  np_load (os_path_join (dataset_path (cwd w) "" None)
                        (yeast_file_name (class1 - 1) (class2 - 1))) w
  = (Raise e, w) ->
  fetch_Yeast_data class1 class2 w = (Ret value, w') ->
  recompute (dataset_path (cwd w) "" None)
            (yeast_file_name (class1 - 1) (class2 - 1)) (class1 - 1) (class2 - 1) w
  = (Ret value, w').
Proof.
  intros Hload E. unfold fetch_Yeast_data in E.
  unfold mbind at 1, io_mbind at 1, io_bind at 1 in E.
  rewrite get_dataset_dir_eq in E. unfold try_except in E.
  by rewrite Hload in E.
Qed.


(** X24: the shape of what [fetch_Yeast_data] recomputes. With [n] the
    number of selected rows, which is at most 200, the returned [Bunch]
    holds under ["y"] a vector of [n] labels, under the name of each of the
    six kernels a square array of [n] rows and [n] columns, under ["K"] an
    array of [n] rows and [6 * n] columns, and nothing else. *)
Theorem fetch_Yeast_data_shapes class1 class2 w e value w' :
  np_load (os_path_join (dataset_path (cwd w) "" None)
                        (yeast_file_name (class1 - 1) (class2 - 1))) w
  = (Raise e, w) ->
  fetch_Yeast_data class1 class2 w = (Ret value, w') ->
  exists (n : nat) new_data ys K,
    (n <= 200)%nat /\
    value = NpyBunch new_data /\
    new_data !! "y" = Some (Arr1 ys) /\ length ys = n /\
    new_data !! "K" = Some (Arr2 K) /\ has_shape n (6 * n) K /\
    (forall name, In name data_names ->
       exists sel, new_data !! name = Some (Arr2 sel) /\ has_shape n n sel) /\
    (forall key, new_data !! key <> None ->
       key = "y" \/ key = "K" \/ In key data_names).
Proof.
  intros Hload E. apply (fetch_Yeast_data_miss _ _ _ _ _ _ Hload) in E.
  apply recompute_inv in E
    as (data & w1 & labels & indices & selected & ys & K
        & Edata & Elabels & Eind & Esel & Eys & EK & -> & Esave).
  apply unique_indices_bound in Eind; [|lia].
  apply take_entries_length in Eys.
  apply select_loop_spec in Esel as [Hin Hout].
  assert (Hsel : forall name, In name data_names ->
            exists sel, (<["y" := Arr1 ys]> selected) !! name = Some (Arr2 sel) /\
                        has_shape (length indices) (length indices) sel).
  { intros name Hname.
    destruct (Hin name Hname) as (kernel & picked & sel & _ & Hp & Hs & Hl).
    destruct (data_names_keys name Hname).
    exists sel. split; [by rewrite lookup_insert_ne|].
    apply take_columns_shape in Hs. by rewrite (take_rows_length _ _ _ Hp) in Hs. }
  apply join_loop_shape with (n := length indices) in EK as (K' & [= ->] & HK);
    [|discriminate|exact Hsel].
  exists (length indices). eexists. exists ys, K'.
  split; [simpl in Eind; lia|]. split; [reflexivity|].
  split; [by rewrite lookup_insert_ne, lookup_insert_eq|].
  split; [assumption|].
  split; [by rewrite lookup_insert_eq|].
  split; [exact HK|]. split.
  - intros name Hname. destruct (Hsel name Hname) as (sel & Hl & Hs).
    destruct (data_names_keys name Hname).
    exists sel. split; [by rewrite lookup_insert_ne|assumption].
  - intros key Hkey.
    destruct (decide (key = "K")) as [->|HK']; [by right; left|].
    destruct (decide (key = "y")) as [->|Hy]; [by left|].
    right; right. rewrite !lookup_insert_ne in Hkey by done.
    destruct (in_dec string_dec key data_names) as [Hi|Hi]; [assumption|].
    rewrite (Hout key Hi) in Hkey. by rewrite lookup_empty in Hkey.
Qed.

Lemma rmtree_gone p w r w' :
  all_slashes p = false ->
  shutil_rmtree p w = (r, w') ->
  is_dir w' p = false /\ exists evs, trace w' = trace w ++ evs.
Proof.
  intros Hp E. unfold shutil_rmtree in E. destruct (is_dir w p) eqn:Hdir.
  - io_unfold. injection E as _ <-. split; [|by eexists].
    unfold is_dir, node_at. simpl. rewrite Hp.
    destruct (String.eqb p ""); [reflexivity|].
    assert (filter (fun kv : string * node =>
                      inside (strip_trailing_slashes p) kv.1 = false) (fs w)
            !! strip_trailing_slashes p = None) as ->; [|reflexivity].
    apply map_lookup_filter_None. right. intros x _. simpl. unfold inside.
    by rewrite String.eqb_refl.
  - injection E as _ <-. split; [assumption|]. exists []. by rewrite app_nil_r.
Qed.

(** X25: a conversion that fails takes the directory of the data with it.
    When the conversion loop of [fetch_data] ends with an exception, the
    message about a file that could not be converted was printed for one of
    the files, and the directory of the data (which is not the root) is no
    longer there: the files converted and downloaded before are lost. *)
Theorem convert_loop_failure dataset_dir dataset_files index full_names w e w' :
  all_slashes dataset_dir = false ->
  convert_loop dataset_dir dataset_files index full_names w = (Raise e, w') ->
  is_dir w' dataset_dir = false /\
  exists full_name e0,
    In full_name full_names /\
    In (EvPrint ("Impossible to convert the file " +:+ full_name +:+ ":"
                 +:+ newline +:+ " " +:+ exn_msg e0 +:+ " "))
       (trace w').
Proof.
  intros Hroot. revert index w.
  induction full_names as [|full_name full_names IH]; intros index w E.
  - discriminate.
  - simpl in E.
    apply io_bind_inv in E as [(u & w1 & _ & E)|(e1 & E1 & _)]; [|discriminate].
    apply io_bind_inv in E as [(u' & w2 & _ & E)|(e1 & E & _)].
    + apply IH in E as (Hdir & f & e0 & Hf & Hmsg).
      split; [assumption|]. exists f, e0. split; [by right | assumption].
    + unfold try_except at 1 in E.
      match type of E with
      | context [match ?body with _ => _ end] => destruct body as [[a|e0] w2]
      end; [discriminate|].
      apply io_bind_inv in E as [(u' & w3 & Eprint & E)|(e2 & E2 & _)];
        [|discriminate].
      rewrite print_eq in Eprint. injection Eprint as _ <-.
      assert (exists r, shutil_rmtree dataset_dir
                (printed ("Impossible to convert the file " +:+ full_name +:+ ":"
                          +:+ newline +:+ " " +:+ exn_msg e0 +:+ " ") w2)
              = (r, w')) as (r & Erm).
      { apply io_bind_inv in E as [(u'' & w4 & Erm & E)|(e2 & Erm & _)].
        - injection E as _ <-. eauto.
        - eauto. }
      apply rmtree_gone in Erm as (Hdir & evs & Htrace); [|assumption].
      split; [assumption|]. exists full_name, e0. split; [by left|].
      rewrite Htrace. apply in_or_app. left. apply in_or_app. right. by left.
Qed.

Lemma load_loop_cons dataset_dir e names i kernels K w :
  load_loop dataset_dir (e :: names) i kernels K w
  = (Ki ← np_load (os_path_join dataset_dir (e +:+ ".npy"));
     K ← (if (i =? 0)%nat then mret Ki
          else lift (match K with
                     | Some K => concatenate_npy K Ki
                     | None => Raise (unbound_local "K")
                     end));
     load_loop dataset_dir names (S i) (<[e := Ki]> kernels) (Some K)) w.
Proof. reflexivity. Qed.

Lemma load_loop_spec dataset_dir names i kernels K w result K' w' :
  load_loop dataset_dir names i kernels K w = (Ret (result, K'), w') ->
  (forall name, In name names ->
     exists k, result !! name = Some k /\
               np_load (os_path_join dataset_dir (name +:+ ".npy")) w = (Ret k, w)) /\
  (forall key, ~ In key names -> result !! key = kernels !! key).
Proof.
  revert i kernels K. induction names as [|e names IH]; intros i kernels K E.
  - injection E as <- _ _. split; [intros name []|done].
  - simpl in E. apply io_bind_ret_inv in E as (Ki & w1 & E1 & E).
    pose proof (np_load_world _ _ _ _ E1) as ->.
    apply io_bind_ret_inv in E as (K1 & w1 & E2 & E).
    assert (w1 = w) as ->.
    { destruct (i =? 0)%nat; [by injection E2 as _ <-|].
      by apply lift_inv in E2 as [_ ->]. }
    apply IH in E as [Hin Hout]. split.
    + intros name [<-|Hname]; [|by apply Hin].
      destruct (in_dec string_dec e names) as [He|He]; [by apply Hin|].
      exists Ki. split; [|assumption]. by rewrite (Hout _ He), lookup_insert_eq.
    + intros key Hkey. rewrite Hout by (intros Hk'; apply Hkey; by right).
      apply lookup_insert_ne. intros ->. apply Hkey. by left.
Qed.

Lemma load_loop_next dataset_dir names i kernels ks0 K0 w result K' w' :
  load_loop dataset_dir names (S i) kernels (Some (NpyArray (Arr2 K0))) w
  = (Ret (result, K'), w') ->
  side_by_side ks0 K0 ->
  exists ks K,
    Forall2 (fun name k =>
               np_load (os_path_join dataset_dir (name +:+ ".npy")) w
               = (Ret (NpyArray (Arr2 k)), w)) names ks /\
    K' = Some (NpyArray (Arr2 K)) /\ side_by_side (ks0 ++ ks) K.
Proof.
  revert i kernels ks0 K0.
  induction names as [|e names IH]; intros i kernels ks0 K0 E Hside.
  - injection E as _ <- _. exists [], K0. rewrite app_nil_r.
    split; [constructor|]. by split.
  - simpl in E. apply io_bind_ret_inv in E as (Ki & w1 & E1 & E).
    pose proof (np_load_world _ _ _ _ E1) as ->.
    apply io_bind_ret_inv in E as (K1 & w1 & E2 & E).
    apply lift_inv in E2 as [E2 ->]. symmetry in E2.
    destruct Ki as [[v|k]|b]; try discriminate. simpl in E2.
    apply outcome_bind_inv in E2 as (K3 & E2 & [= <-]).
    apply outcome_bind_inv in E2 as (K2 & E2 & [= <-]).
    apply IH with (ks0 := ks0 ++ [k]) in E as (ks & K & Hks & -> & Hside');
      [|by eapply side_by_side_snoc].
    exists (k :: ks), K. split; [by constructor|]. split; [reflexivity|].
    by rewrite <- app_assoc in Hside'.
Qed.

(** X26: what [fetch_data] returns is what the converted files hold when it
    returns. The labels are the content of the file of the labels; the
    kernels are, under the six names and no other, the arrays of the six
    files; and [K] is these six arrays side by side, in the order of the
    names, all of them having the same number of rows. *)
Theorem fetch_data_returns_files data_dir w data w' :
  fetch_data data_dir w = (Ret data, w') ->
  np_load (os_path_join (dataset_path (cwd w) "" None) "labels_3588_13.npy") w'
  = (Ret (data_y data), w') /\
  (forall key, data_kernels data !! key <> None -> In key data_names) /\
  exists ks K,
    Forall2 (fun name k =>
               np_load (os_path_join (dataset_path (cwd w) "" None) (name +:+ ".npy"))
                       w'
               = (Ret (NpyArray (Arr2 k)), w') /\
               data_kernels data !! name = Some (NpyArray (Arr2 k)))
            data_names ks /\
    data_K data = NpyArray (Arr2 K) /\
    side_by_side ks K.
Proof.
  intros E. unfold fetch_data in E.
  apply io_bind_ret_inv in E as (dir & w0 & Edir & E).
  rewrite get_dataset_dir_eq in Edir. injection Edir as <- <-.
  apply io_bind_ret_inv in E as (u1 & w1 & _ & E).
  apply io_bind_ret_inv in E as (u2 & w2 & _ & E).
  apply io_bind_ret_inv in E as (u3 & w3 & _ & E).
  apply io_bind_ret_inv in E as ([kernels K] & w4 & Eloop & E).
  pose proof (load_loop_world _ _ _ _ _ _ _ _ Eloop) as ->.
  apply io_bind_ret_inv in E as (y & w4 & Ey & E).
  pose proof (np_load_world _ _ _ _ Ey) as ->.
  apply io_bind_ret_inv in E as (K' & w4 & EK & E).
  apply lift_inv in EK as [EK ->]. injection E as <- <-. simpl.
  split; [assumption|].
  pose proof (load_loop_spec _ _ _ _ _ _ _ _ _ Eloop) as [Hin Hout].
  split.
  { intros key Hkey.
    destruct (in_dec string_dec key data_names) as [Hi|Hi]; [assumption|].
    rewrite (Hout key Hi) in Hkey. by rewrite lookup_empty in Hkey. }
  unfold data_names in Eloop at 1. rewrite load_loop_cons in Eloop.
  apply io_bind_ret_inv in Eloop as (k1 & w4 & E1 & Eloop).
  pose proof (np_load_world _ _ _ _ E1) as ->.
  apply io_bind_ret_inv in Eloop as (K1 & w4 & [= <- <-] & Eloop).
  destruct K as [K|]; [|discriminate]. injection EK as <-.
  assert (exists k, k1 = NpyArray (Arr2 k)) as (k & ->).
  { destruct k1 as [[v|k]|b]; [|by eexists|]; exfalso; clear -Eloop;
      rewrite load_loop_cons in Eloop;
      apply io_bind_ret_inv in Eloop as (k2 & w4 & E2 & Eloop);
      pose proof (np_load_world _ _ _ _ E2) as ->;
      apply io_bind_ret_inv in Eloop as (K2 & w4 & E & _);
      apply lift_inv in E as [E _]; [by destruct k2 as [[|]|]|discriminate]. }
  rename k into k1.
  apply load_loop_next with (ks0 := [k1]) in Eloop as (ks & K2 & Hks & [= ->] & Hside);
    [|apply side_by_side_one].
  exists (k1 :: ks), K2. split; [|by split].
  assert (Hall : Forall2 (fun name k =>
            np_load (os_path_join (dataset_path (cwd w) "" None) (name +:+ ".npy")) w3
            = (Ret (NpyArray (Arr2 k)), w3)) data_names (k1 :: ks)).
  { unfold data_names at 1. by constructor. }
  clear -Hall Hin. revert Hin Hall. generalize data_names (k1 :: ks).
  intros names l Hin Hall.
  induction Hall as [|name k names l Hload _ IH]; constructor.
  - split; [assumption|]. destruct (Hin name) as (k' & Hk' & Hload'); [by left|].
    congruence.
  - apply IH. intros name' Hname'. apply Hin. by right.
Qed.

Lemma np_save_world path value w r w' :
  endswith path ".npy" = true ->
  np_save path value w = (r, w') ->
  w' = w \/
  w' = World (cwd w)
             (<[strip_trailing_slashes path := File (np_encode value)]> (fs w))
             (handles w)
             (trace w ++ [EvOpen path; EvWrite path (np_encode value); EvClose path]).
Proof.
  intros Hnpy E. destruct r as [[]|e].
  - right. by apply np_save_ret in E as [_ ->].
  - left. unfold np_save in E. rewrite Hnpy in E.
    unfold open_for_writing, file_write, file_close in E. io_unfold.
    destruct (writable_at w path); [discriminate|]. by injection E as _ <-.
Qed.

Lemma requests_printed line w : requests (printed line w) = requests w.
Proof. unfold requests, printed. simpl. rewrite omap_app. simpl. by rewrite app_nil_r. Qed.

Lemma recompute_offline dataset_dir name class1 class2 w r w' :
  endswith name ".npy" = true ->
  (forall name, In name data_names ->
     node_at w (os_path_join (dataset_path (cwd w) "" None) (name +:+ ".npy"))
     <> None) ->
  node_at w (os_path_join (dataset_path (cwd w) "" None) "labels_3588_13.npy")
  <> None ->
  recompute dataset_dir name class1 class2 w = (r, w') ->
  requests w' = requests w /\ handles w' = handles w /\
  forall q, q <> strip_trailing_slashes (os_path_join dataset_dir name) ->
            fs w' !! q = fs w !! q.
Proof.
  intros Hnpy Hkernels Hlabels E. unfold recompute in E.
  apply io_bind_inv in E as [(u & w0 & E0 & E)|(e & E0 & _)]; [|discriminate].
  rewrite print_eq in E0. injection E0 as _ <-.
  set (w1 := printed "...done." (printed "recomputing data..." w)).
  assert (Hw1 : requests w1 = requests w /\ handles w1 = handles w /\
                forall q : string, fs w1 !! q = fs w !! q).
  { unfold w1. by rewrite !requests_printed. }
  assert (Hdata : forall r0 w0,
            fetch_data None (printed "recomputing data..." w) = (r0, w0) -> w0 = w1).
  { intros r0 w0. apply fetch_data_only_prints; assumption. }
  destruct Hw1 as (Hreq & Hhandles & Hfs).
  apply io_bind_inv in E as [(data & w2 & E0 & E)|(e & E0 & _)];
    [|by rewrite (Hdata _ _ E0)].
  apply Hdata in E0 as ->.
  apply io_bind_inv in E as [(indices & w2 & E0 & E)|(e & E0 & _)];
    apply lift_inv in E0 as [_ ->]; [|done].
  apply io_bind_inv in E as [(selected & w2 & E0 & E)|(e & E0 & _)];
    apply lift_inv in E0 as [_ ->]; [|done].
  apply io_bind_inv in E as [(ys & w2 & E0 & E)|(e & E0 & _)];
    apply lift_inv in E0 as [_ ->]; [|done].
  apply io_bind_inv in E as [(K & w2 & E0 & E)|(e & E0 & _)];
    apply lift_inv in E0 as [_ ->]; [|done].
  assert (exists r0, np_save (os_path_join dataset_dir name)
            (NpyBunch (<["K" := K]> (<["y" := Arr1 ys]> selected))) w1 = (r0, w'))
    as (r0 & Esave).
  { apply io_bind_inv in E as [(u' & w2 & E0 & E)|(e & E0 & _)]; [|eauto].
    injection E as _ <-. eauto. }
  apply np_save_world in Esave as [->| ->]; [done| |by apply join_endswith].
  split; [|split; [assumption|]].
  - unfold requests. simpl. rewrite omap_app. simpl. rewrite app_nil_r. exact Hreq.
  - intros q Hq. simpl. rewrite lookup_insert_ne by done. apply Hfs.
Qed.

(** X27: with the converted files of the data in the directory,
    [fetch_Yeast_data] works without the network. However the call ends, it
    made no request and left no file open, and the only file it may have
    written is the one named after the two classes. *)
Theorem fetch_Yeast_data_offline class1 class2 w r w' :
  (forall name, In name data_names ->
     node_at w (os_path_join (dataset_path (cwd w) "" None) (name +:+ ".npy"))
     <> None) ->
  node_at w (os_path_join (dataset_path (cwd w) "" None) "labels_3588_13.npy")
  <> None ->
  fetch_Yeast_data class1 class2 w = (r, w') ->
  requests w' = requests w /\ handles w' = handles w /\
  forall q,
    q <> strip_trailing_slashes
           (os_path_join (dataset_path (cwd w) "" None)
                         (yeast_file_name (class1 - 1) (class2 - 1))) ->
    fs w' !! q = fs w !! q.
Proof.
  intros Hkernels Hlabels E. unfold fetch_Yeast_data in E.
  unfold mbind at 1, io_mbind at 1, io_bind at 1 in E.
  rewrite get_dataset_dir_eq in E. unfold try_except in E.
  match type of E with
  | context [np_load ?p w] => destruct (np_load p w) as [[v|e] w0] eqn:Eload
  end; apply np_load_world in Eload as ->.
  - by injection E as _ <-.
  - revert E. apply recompute_offline; [apply yeast_file_name_npy | assumption..].
Qed.

End DataProofs.

Lemma fetch_data_converted_witness :
  let run := @fetch_data example_env example_numpy None converted_world in
  run.2 = printed "...done." converted_world.
Proof.
  intros run.
  apply (@fetch_data_converted example_env example_numpy None converted_world
           run.1 run.2).
  - intros name Hname. unfold data_names in Hname. simpl in Hname.
    repeat (destruct Hname as [<-|Hname]; [vm_compute; discriminate|]).
    destruct Hname.
  - vm_compute. discriminate.
  - apply surjective_pairing.
Defined.

Lemma fetch_Yeast_data_cached_witness :
  @fetch_Yeast_data example_env example_numpy 1 2 recomputed_world
  = (Ret (NpyBunch example_bunch), recomputed_world).
Proof.
  apply (@fetch_Yeast_data_cached example_env example_numpy 1 2 recomputed_world
           "B" (NpyBunch example_bunch)).
  - vm_compute. reflexivity.
  - vm_compute. reflexivity.
Defined.


Lemma fetch_Yeast_data_shapes_witness :
  let run := @fetch_Yeast_data example_env example_numpy 1 2 converted_world in
  let value := returned (NpyBunch ∅) run.1 in
  exists (n : nat) new_data ys K,
    (n <= 200)%nat /\
    value = NpyBunch new_data /\
    new_data !! "y" = Some (Arr1 ys) /\ length ys = n /\
    new_data !! "K" = Some (Arr2 K) /\ has_shape n (6 * n) K /\
    (forall name, In name data_names ->
       exists sel, new_data !! name = Some (Arr2 sel) /\ has_shape n n sel) /\
    (forall key, new_data !! key <> None ->
       key = "y" \/ key = "K" \/ In key data_names).
Proof.
  intros run value.
  apply (@fetch_Yeast_data_shapes example_env example_numpy 1 2 converted_world
           (io_error "No such file or directory: '/home/u/Data/Yeast_data__0_1.npy'")
           value run.2).
  - vm_compute. reflexivity.
  - vm_compute. reflexivity.
Defined.

Lemma convert_loop_failure_witness :
  let run := @convert_loop example_numpy "/home/u/Data/" ["a.npy"] 0
               ["/home/u/Data/b.gz"] gz_world in
  is_dir run.2 "/home/u/Data/" = false /\
  exists full_name e0,
    In full_name ["/home/u/Data/b.gz"] /\
    In (EvPrint ("Impossible to convert the file " +:+ full_name +:+ ":"
                 +:+ newline +:+ " " +:+ exn_msg e0 +:+ " "))
       (trace run.2).
Proof.
  intros run.
  apply (@convert_loop_failure example_numpy "/home/u/Data/" ["a.npy"] 0%nat
           ["/home/u/Data/b.gz"] gz_world
           (value_error "Some errors were detected !") run.2).
  - vm_compute. reflexivity.
  - vm_compute. reflexivity.
Defined.

Lemma fetch_data_returns_files_witness :
  let run := @fetch_data example_env example_numpy None converted_world in
  let data := returned (Yeast ∅ (NpyBunch ∅) (NpyBunch ∅)) run.1 in
  @np_load example_numpy
    (os_path_join (dataset_path (cwd converted_world) "" None) "labels_3588_13.npy")
    run.2
  = (Ret (data_y data), run.2) /\
  (forall key, data_kernels data !! key <> None -> In key data_names) /\
  exists ks K,
    Forall2 (fun name k =>
               @np_load example_numpy
                 (os_path_join (dataset_path (cwd converted_world) "" None)
                               (name +:+ ".npy"))
                 run.2
               = (Ret (NpyArray (Arr2 k)), run.2) /\
               data_kernels data !! name = Some (NpyArray (Arr2 k)))
            data_names ks /\
    data_K data = NpyArray (Arr2 K) /\
    side_by_side ks K.
Proof.
  intros run data.
  apply (@fetch_data_returns_files example_env example_numpy None converted_world
           data run.2).
  vm_compute. reflexivity.
Defined.

Lemma fetch_Yeast_data_offline_witness :
  let run := @fetch_Yeast_data example_env example_numpy 1 2 converted_world in
  requests run.2 = requests converted_world /\
  handles run.2 = handles converted_world /\
  forall q,
    q <> strip_trailing_slashes
           (os_path_join (dataset_path (cwd converted_world) "" None)
                         (yeast_file_name (1 - 1) (2 - 1))) ->
    fs run.2 !! q = fs converted_world !! q.
Proof.
  intros run.
  apply (@fetch_Yeast_data_offline example_env example_numpy 1 2 converted_world
           run.1 run.2).
  - intros name Hname. unfold data_names in Hname. simpl in Hname.
    repeat (destruct Hname as [<-|Hname]; [vm_compute; discriminate|]).
    destruct Hname.
  - vm_compute. discriminate.
  - apply surjective_pairing.
Defined.

(** ** The working directory *)

#[global] Instance same_cwd_preorder : PreOrder same_cwd.
Proof.
  split; [intros w; reflexivity|].
  intros w1 w2 w3 E1 E2. unfold same_cwd in *. congruence.
Qed.

Lemma same_cwd_log ev : steps same_cwd (log ev).
Proof. intros w r w' [= <- <-]. reflexivity. Qed.

Lemma same_cwd_set_fs f : steps same_cwd (set_fs f).
Proof. intros w r w' [= <- <-]. reflexivity. Qed.

Lemma same_cwd_set_handles f : steps same_cwd (set_handles f).
Proof. intros w r w' [= <- <-]. reflexivity. Qed.

Lemma steps_try_except_class (R : world -> world -> Prop) `{!PreOrder R}
    {A} (cls : exn_class) (body handler : io A) :
  steps R body -> steps R handler -> steps R (try_except_class cls body handler).
Proof.
  intros Hb Hh w r w' E. unfold try_except_class in E.
  destruct (body w) as [[a|e] w1] eqn:Eb.
  - injection E as <- <-. eapply Hb; eauto.
  - destruct (issubclass (exn_class_of e) cls).
    + transitivity w1; [eapply Hb | eapply Hh]; eauto.
    + injection E as <- <-. eapply Hb; eauto.
Qed.

(** One step of a proof that a function keeps the working directory. *)
Ltac cwd_step :=
  first
    [ apply same_cwd_log
    | apply same_cwd_set_fs
    | apply same_cwd_set_handles
    | apply steps_ret, _
    | apply steps_raise, _
    | apply steps_lift, _
    | apply steps_os_path_exists, _
    | apply steps_os_getcwd, _
    | apply steps_read_file, _
    | apply steps_get_dataset_dir, _
    | apply steps_when; [apply _|]
    | apply steps_try_except; [apply _| |intros ?]
    | apply steps_try_except_class; [apply _| |]
    | apply steps_bind; [apply _| |intros ?] ].

Lemma same_cwd_print line : steps same_cwd (print line).
Proof. apply same_cwd_log. Qed.

Lemma same_cwd_os_makedirs p : steps same_cwd (os_makedirs p).
Proof.
  intros w r w' E. unfold os_makedirs in E.
  destruct (String.eqb p ""); [by injection E as _ <-|].
  destruct (node_at w _); [by injection E as _ <-|].
  destruct (existsb _ _); by injection E as _ <-.
Qed.

Lemma same_cwd_open_for_writing p : steps same_cwd (open_for_writing p).
Proof.
  intros w r w' E. unfold open_for_writing in E.
  destruct (writable_at w p); by injection E as _ <-.
Qed.

Lemma same_cwd_file_write f data : steps same_cwd (file_write f data).
Proof. unfold file_write. repeat cwd_step. Qed.

Lemma same_cwd_file_close f : steps same_cwd (file_close f).
Proof. unfold file_close. repeat cwd_step. Qed.

Lemma same_cwd_os_remove p : steps same_cwd (os_remove p).
Proof.
  intros w r w' E. unfold os_remove in E.
  destruct (node_at w p) as [[|c]|]; by injection E as _ <-.
Qed.

Lemma same_cwd_shutil_rmtree p : steps same_cwd (shutil_rmtree p).
Proof.
  intros w r w' E. unfold shutil_rmtree in E.
  destruct (is_dir w p); by injection E as _ <-.
Qed.

Lemma same_cwd_put_file target content : steps same_cwd (put_file target content).
Proof.
  intros w r w' E. unfold put_file in E.
  destruct (writable_at w target); by injection E as _ <-.
Qed.

Lemma same_cwd_chunk_report bytes_so_far total_size :
  steps same_cwd (_chunk_report_ bytes_so_far total_size).
Proof.
  unfold _chunk_report_.
  destruct total_size as [total|];
    [destruct (total =? 0);
       [|destruct (float_overflows total); [apply steps_raise, _|]]|];
    apply same_cwd_log.
Qed.

Lemma same_cwd_read_loop reads local_file report_hook total_size bytes_so_far :
  steps same_cwd (read_loop reads local_file report_hook total_size bytes_so_far).
Proof.
  revert bytes_so_far.
  induction reads as [|[chunk|e] reads IH]; intros bytes_so_far; simpl.
  - repeat cwd_step.
  - destruct (String.eqb chunk ""); [repeat cwd_step|].
    apply steps_bind; [apply _ | apply same_cwd_file_write |]. intros _.
    apply steps_bind; [apply _ | | intros _; apply IH].
    apply steps_when; [apply _ | apply same_cwd_chunk_report].
  - cwd_step.
Qed.

Lemma same_cwd_chunk_read resp local_file report_hook :
  steps same_cwd (_chunk_read_ resp local_file report_hook).
Proof.
  unfold _chunk_read_.
  apply steps_bind; [apply _ | cwd_step |]. intros header.
  apply steps_bind; [apply _ | | intros total; apply same_cwd_read_loop].
  unfold print. repeat cwd_step.
Qed.

Lemma same_cwd_extractall data_dir members :
  steps same_cwd (extractall data_dir members).
Proof.
  induction members as [|member members IH]; simpl; [cwd_step|].
  apply steps_bind; [apply _ | | intros _; apply IH].
  unfold extract_member.
  apply steps_bind; [apply _ | cwd_step |]. intros there.
  apply steps_bind; [apply _ | | intros _; apply same_cwd_put_file].
  apply steps_when; [apply _ | apply same_cwd_os_makedirs].
Qed.

Section WorkingDirectory.
Context `{Environment} `{Numpy}.

Lemma same_cwd_urlopen url : steps same_cwd (urlopen url).
Proof.
  intros w r w' E. unfold urlopen in E. revert E.
  apply steps_bind; [apply _ | apply same_cwd_log |].
  intros _. apply steps_lift, _.
Qed.

Lemma same_cwd_uncompress_file file_ delete_archive :
  steps same_cwd (_uncompress_file file_ delete_archive).
Proof.
  unfold _uncompress_file.
  apply steps_bind; [apply _ | apply same_cwd_print |]. intros _.
  destruct file_ as [file_|]; [|cwd_step].
  apply steps_try_except; [apply _ | |].
  - apply steps_bind; [apply _ | |].
    + destruct (endswith file_ ".zip"); [cwd_step|].
      destruct (endswith file_ ".gz").
      { apply steps_bind; [apply _ | cwd_step |]. intros _.
        apply steps_bind; [apply _ | apply same_cwd_open_for_writing |]. intros f.
        apply steps_bind; [apply _ | cwd_step |]. intros compressed.
        apply steps_bind; [apply _ | cwd_step |]. intros data.
        apply same_cwd_file_write. }
      destruct (endswith file_ ".txt"); [cwd_step|].
      apply steps_bind; [apply _ | cwd_step |]. intros archive.
      apply steps_bind; [apply _ | cwd_step |]. intros members.
      apply same_cwd_extractall.
    + intros _. apply steps_bind; [apply _ | | intros _; apply same_cwd_print].
      apply steps_when; [apply _ | apply same_cwd_os_remove].
  - intros e. apply steps_bind; [apply _ | apply same_cwd_print |].
    intros _. cwd_step.
Qed.

Lemma same_cwd_download url full_name : steps same_cwd (download url full_name).
Proof.
  intros w r w' E. unfold download in E.
  destruct (download_suite url full_name w) as [[r1 local_file] w1] eqn:E1.
  destruct (except_clauses url full_name r1 w1) as [r2 w2] eqn:E2.
  transitivity w2; [transitivity w1|].
  - unfold download_suite in E1. rewrite print_eq in E1.
    destruct (urlopen url _) as [[data|e] w3] eqn:E3;
      apply same_cwd_urlopen in E3; [|by injection E1 as _ _ <-].
    destruct (open_for_writing full_name w3) as [[f|e] w4] eqn:E4;
      apply same_cwd_open_for_writing in E4;
      [|injection E1 as _ _ <-; unfold same_cwd in *; simpl in *; congruence].
    match type of E1 with
    | context [(?m ≫= ?k) w4] => destruct ((m ≫= k) w4) as [r5 w5] eqn:E5
    end.
    injection E1 as _ _ <-.
    assert (same_cwd w4 w5).
    { revert E5. apply steps_bind; [apply _ | apply same_cwd_chunk_read |].
      intros _. apply same_cwd_print. }
    unfold same_cwd in *. simpl in *. congruence.
  - revert E2. unfold except_clauses. destruct r1 as [?|e]; [cwd_step|].
    destruct (issubclass _ HTTPError).
    { apply steps_bind; [apply _ | apply same_cwd_print | intros _; cwd_step]. }
    destruct (issubclass _ URLError).
    { apply steps_bind; [apply _ | apply same_cwd_print | intros _; cwd_step]. }
    cwd_step.
  - revert E. unfold finally_close. destruct local_file as [f|]; [|cwd_step].
    apply steps_bind; [apply _ | apply same_cwd_file_close | intros _; cwd_step].
Qed.

Lemma same_cwd_fetch_file url data_dir : steps same_cwd (_fetch_file url data_dir).
Proof.
  unfold _fetch_file.
  apply steps_bind; [apply _ | cwd_step |]. intros there.
  apply steps_bind; [apply _ | |].
  { apply steps_when; [apply _ | apply same_cwd_os_makedirs]. }
  intros _. apply steps_bind; [apply _ | cwd_step |]. intros cached.
  destruct (negb cached); [apply same_cwd_download | cwd_step].
Qed.

Lemma same_cwd_fetch_loop data_dir uncompress urls files :
  steps same_cwd (fetch_loop data_dir uncompress urls files).
Proof.
  revert files. induction urls as [|url urls IH]; intros files; simpl; [cwd_step|].
  apply steps_bind; [apply _ | apply same_cwd_fetch_file |]. intros full_name.
  apply steps_bind; [apply _ | |].
  { apply steps_when; [apply _|].
    apply steps_bind; [apply _ | apply same_cwd_print |].
    intros _. apply same_cwd_shutil_rmtree. }
  intros _. apply steps_bind; [apply _ | |].
  { apply steps_when; [apply _|].
    apply steps_try_except; [apply _ | apply same_cwd_uncompress_file |].
    intros _. apply steps_bind; [apply _ | apply same_cwd_print |].
    intros _. apply steps_bind; [apply _ | apply same_cwd_fetch_file |].
    intros _. apply same_cwd_uncompress_file. }
  intros _. apply steps_bind; [apply _ | cwd_step |]. intros base. apply IH.
Qed.

Lemma same_cwd_fetch_dataset dataset_name urls data_dir uncompress :
  steps same_cwd (_fetch_dataset dataset_name urls data_dir uncompress).
Proof.
  unfold _fetch_dataset.
  apply steps_bind; [apply _ | cwd_step |]. intros dir.
  apply steps_bind; [apply _ | cwd_step |]. intros there.
  apply steps_bind; [apply _ | | intros _; apply same_cwd_fetch_loop].
  apply steps_when; [apply _ | apply same_cwd_os_makedirs].
Qed.

Lemma same_cwd_get_dataset dataset_name file_names data_dir :
  steps same_cwd (_get_dataset dataset_name file_names data_dir).
Proof.
  unfold _get_dataset.
  apply steps_bind; [apply _ | cwd_step |]. intros dir.
  generalize (@nil string).
  induction file_names as [|file_name file_names IH]; intros paths; simpl;
    [cwd_step|].
  apply steps_bind; [apply _ | cwd_step |]. intros there.
  destruct (negb there); [cwd_step | apply IH].
Qed.

Lemma same_cwd_np_save path value : steps same_cwd (np_save path value).
Proof.
  unfold np_save.
  apply steps_bind; [apply _ | apply same_cwd_open_for_writing |]. intros f.
  apply steps_bind; [apply _ | apply same_cwd_file_write |]. intros _.
  apply same_cwd_file_close.
Qed.

Lemma same_cwd_np_genfromtxt fname skip_header :
  steps same_cwd (np_genfromtxt fname skip_header).
Proof. unfold np_genfromtxt. repeat cwd_step. Qed.

Lemma same_cwd_convert_loop dataset_dir dataset_files index full_names :
  steps same_cwd (convert_loop dataset_dir dataset_files index full_names).
Proof.
  revert index.
  induction full_names as [|full_name full_names IH]; intros index; simpl;
    [cwd_step|].
  apply steps_bind; [apply _ | apply same_cwd_print |]. intros _.
  apply steps_bind; [apply _ | | intros _; apply IH].
  apply steps_try_except; [apply _ | |].
  - apply steps_bind; [apply _ | apply same_cwd_np_genfromtxt |]. intros K.
    apply steps_bind; [apply _ | cwd_step |]. intros name.
    apply steps_bind; [apply _ | apply same_cwd_np_save |]. intros _.
    apply steps_bind; [apply _ | apply same_cwd_print |]. intros _.
    apply same_cwd_os_remove.
  - intros e. apply steps_bind; [apply _ | apply same_cwd_print |]. intros _.
    apply steps_bind; [apply _ | apply same_cwd_shutil_rmtree |]. intros _.
    cwd_step.
Qed.

Lemma same_cwd_fetch_data data_dir : steps same_cwd (fetch_data data_dir).
Proof.
  unfold fetch_data.
  apply steps_bind; [apply _ | cwd_step |]. intros dir.
  apply steps_bind; [apply _ | |].
  { apply steps_try_except_class; [apply _ | |].
    - apply steps_bind; [apply _ | apply same_cwd_get_dataset | intros _; cwd_step].
    - apply steps_bind; [apply _ | apply same_cwd_fetch_dataset |].
      intros full_names. apply same_cwd_convert_loop. }
  intros _. apply steps_bind; [apply _ | |].
  { apply steps_try_except_class; [apply _ | |].
    - apply steps_bind; [apply _ | apply same_cwd_get_dataset | intros _; cwd_step].
    - apply steps_bind; [apply _ | apply same_cwd_fetch_dataset |].
      intros full_names.
      apply steps_bind; [apply _ | cwd_step |]. intros first.
      apply steps_bind; [apply _ | apply same_cwd_np_genfromtxt |]. intros y.
      apply steps_bind; [apply _ | apply same_cwd_np_save |]. intros _.
      apply same_cwd_os_remove. }
  intros _. apply steps_bind; [apply _ | apply same_cwd_print |]. intros _.
  intros w r w' E.
  apply io_bind_inv in E as [([kernels K] & w1 & E1 & E)|(e1 & E1 & _)];
    [|by apply load_loop_world in E1 as ->].
  apply load_loop_world in E1 as ->.
  apply io_bind_inv in E as [(y & w1 & E1 & E)|(e1 & E1 & _)];
    [|by apply np_load_world in E1 as ->].
  apply np_load_world in E1 as ->.
  apply io_bind_inv in E as [(K' & w1 & E1 & E)|(e1 & E1 & _)];
    apply lift_inv in E1 as [_ ->]; [|reflexivity].
  by injection E as _ <-.
Qed.

Lemma recompute_saved dataset_dir name class1 class2 w value w' :
  endswith name ".npy" = true ->
  recompute dataset_dir name class1 class2 w = (Ret value, w') ->
  cwd w' = cwd w /\
  node_at w' (os_path_join dataset_dir name) = Some (File (np_encode value)).
Proof.
  intros Hnpy E.
  apply recompute_inv in E
    as (data & w1 & labels & indices & selected & ys & K
        & Edata & _ & _ & _ & _ & _ & _ & Esave).
  apply same_cwd_fetch_data in Edata.
  apply np_save_ret in Esave as [Hw ->]; [|by apply join_endswith].
  split; [exact Edata | by apply writable_at_node].
Qed.

(** X28: a second call finds what the first one left. When
    [fetch_Yeast_data] returns a value that the format of [.npy] files gives
    back on decoding, calling it again in the state it left returns the same
    value and does nothing else: nothing is recomputed, downloaded or
    written. *)
Theorem fetch_Yeast_data_again class1 class2 w value w' :
  fetch_Yeast_data class1 class2 w = (Ret value, w') ->
  np_decode (np_encode value) = Ret value ->
  fetch_Yeast_data class1 class2 w' = (Ret value, w').
Proof.
  intros E Hcodec. unfold fetch_Yeast_data in E.
  unfold mbind at 1, io_mbind at 1, io_bind at 1 in E.
  rewrite get_dataset_dir_eq in E. unfold try_except in E.
  match type of E with
  | context [np_load ?p w] => destruct (np_load p w) as [[v|e] w0] eqn:Eload
  end; pose proof (np_load_world _ _ _ _ Eload) as ->.
  - injection E as <- <-. unfold fetch_Yeast_data.
    unfold mbind, io_mbind, io_bind. rewrite get_dataset_dir_eq.
    unfold try_except. by rewrite Eload.
  - apply recompute_saved in E as [Hcwd Hfile]; [|apply yeast_file_name_npy].
    unfold fetch_Yeast_data. unfold mbind, io_mbind, io_bind.
    rewrite get_dataset_dir_eq, Hcwd. unfold try_except.
    by rewrite (np_load_file _ _ _ Hfile), Hcodec.
Qed.

End WorkingDirectory.

Lemma fetch_Yeast_data_again_witness :
  let run := @fetch_Yeast_data example_env example_numpy 1 2 converted_world in
  @fetch_Yeast_data example_env example_numpy 1 2 run.2
  = (Ret (NpyBunch example_bunch), run.2).
Proof.
  intros run.
  apply (@fetch_Yeast_data_again example_env example_numpy 1 2 converted_world
           (NpyBunch example_bunch) run.2).
  - vm_compute. reflexivity.
  - vm_compute. reflexivity.
Defined.
